(** * wolf-inv: the session controller of the inventory dashboard

    A shallow embedding of [wolf-inv.go].  The program is a Bubble Tea
    application: [Update] receives one message at a time, transforms the
    [model] and returns a command for the runtime to execute.  The widgets
    (table, text input, list), the style renderer, the clock and the HTTP
    client are external packages; they appear here as interfaces
    ([Tea], [Toolkit], [Network]) and every result below holds
    for each of their implementations unless it names a concrete one. *)

From Stdlib Require Import ZArith List String Ascii Bool Lia.
From stdpp Require Import base tactics option list strings pretty.
Import ListNotations.

Local Open Scope Z_scope.
Set Warnings "-register-all".

(** ** Results of code that can panic *)

Inductive result (A : Type) : Type :=
| Ok (a : A)
| Panic (why : string).
Arguments Ok {A} a.
Arguments Panic {A} why.

Definition bind {A B} (r : result A) (k : A -> result B) : result B :=
  match r with
  | Ok a => k a
  | Panic why => Panic why
  end.

Notation "x <- r ;; k" := (bind r (fun x => k))
  (at level 100, r at next level, right associativity).

(** [s[i]] on a slice: an index out of range panics. *)
Definition index {A} (s : list A) (i : nat) : result A :=
  match s !! i with
  | Some a => Ok a
  | None => Panic "index out of range"
  end.

(** ** The parts of Go's [strings] package the program calls

    A Go string is a sequence of bytes, as [string] is here; [len] is
    [String.length]. *)

Module gostrings.

Definition byte (c : ascii) : N := N_of_ascii c.

(** The one-byte white space of [unicode.IsSpace]:
    tab, line feed, vertical tab, form feed, carriage return, space. *)
Definition space1 (c : ascii) : bool :=
  ((9 <=? byte c) && (byte c <=? 13) || (byte c =? 32))%N.

(** Its two-byte UTF-8 encodings: U+0085 and U+00A0. *)
Definition space2 (c1 c2 : ascii) : bool :=
  ((byte c1 =? 194) && ((byte c2 =? 133) || (byte c2 =? 160)))%N.

(** Its three-byte encodings: U+1680, U+2000..U+200A, U+2028, U+2029,
    U+202F, U+205F and U+3000. *)
Definition space3 (c1 c2 c3 : ascii) : bool :=
  ((byte c1 =? 225) && (byte c2 =? 154) && (byte c3 =? 128)
   || (byte c1 =? 226) && (byte c2 =? 128)
      && ((128 <=? byte c3) && (byte c3 <=? 138)
          || (byte c3 =? 168) || (byte c3 =? 169) || (byte c3 =? 175))
   || (byte c1 =? 226) && (byte c2 =? 129) && (byte c3 =? 159)
   || (byte c1 =? 227) && (byte c2 =? 128) && (byte c3 =? 128))%N.

(** Drop the white-space runes at the front.  With [back] the bytes of a
    rune are read last to first, for trimming the reversed string. *)
Fixpoint trimFront (back : bool) (s : list ascii) : list ascii :=
  match s with
  | [] => []
  | c1 :: r1 =>
      if space1 c1 then trimFront back r1 else
      match r1 with
      | [] => s
      | c2 :: r2 =>
          if (if back then space2 c2 c1 else space2 c1 c2)
          then trimFront back r2 else
          match r2 with
          | [] => s
          | c3 :: r3 =>
              if (if back then space3 c3 c2 c1 else space3 c1 c2 c3)
              then trimFront back r3 else s
          end
      end
  end.

Definition trimLeft (s : list ascii) : list ascii := trimFront false s.
Definition trimRight (s : list ascii) : list ascii :=
  rev (trimFront true (rev s)).

(** [strings.TrimSpace]: leading and trailing white space removed. *)
Definition TrimSpace (s : string) : string :=
  string_of_list_ascii (trimRight (trimLeft (list_ascii_of_string s))).

(** A run of blanks, as bytes. *)
Definition spaces (k : nat) : list ascii := repeat " "%char k.

(** [strings.Repeat]. *)
Fixpoint Repeat (s : string) (count : nat) : string :=
  match count with
  | O => ""
  | S n => s +:+ Repeat s n
  end.

Fixpoint HasPrefix (s sub : string) : bool :=
  match sub, s with
  | EmptyString, _ => true
  | String _ _, EmptyString => false
  | String a sub', String b s' => Ascii.eqb a b && HasPrefix s' sub'
  end.

(** [strings.Contains]. *)
Fixpoint Contains (s substr : string) : bool :=
  HasPrefix s substr ||
  match s with
  | EmptyString => false
  | String _ s' => Contains s' substr
  end.

Fixpoint drop (n : nat) (s : string) : string :=
  match n, s with
  | S n', String _ s' => drop n' s'
  | _, _ => s
  end.

(** [strings.Replace(s, old, new, 1)]: the first occurrence only. *)
Fixpoint Replace1 (s old new : string) : string :=
  if HasPrefix s old then new +:+ drop (String.length old) s else
  match s with
  | EmptyString => ""
  | String c s' => String c (Replace1 s' old new)
  end.

(** [strings.Split(s, sep)] for a one-byte separator. *)
Fixpoint Split (s : string) (sep : ascii) : list string :=
  match s with
  | EmptyString => [""]
  | String c s' =>
      if Ascii.eqb c sep then "" :: Split s' sep else
      match Split s' sep with
      | [] => [String c ""]
      | l :: ls => String c l :: ls
      end
  end.

(** [strings.Join]. *)
Fixpoint Join (elems : list string) (sep : string) : string :=
  match elems with
  | [] => ""
  | [e] => e
  | e :: es => e +:+ sep +:+ Join es sep
  end.

End gostrings.


(** ** lipgloss styles

    A style is the set of attributes the program gives it; what a style
    does to a text is the renderer's business ([Render] below). *)

Inductive border := NormalBorder | RoundedBorder.

Global Instance border_eq_dec : EqDecision border.
Proof. solve_decision. Defined.

Record Style := mkStyle {
  foreground : option string;
  background : option string;
  bold : bool;
  italic : bool;
  marginBottom : Z;
  padding : list Z;
  borderStyle : option border;
  borderSides : list bool;      (* top, right, bottom, left; [] when unset *)
  borderForeground : option string
}.

Definition NewStyle : Style :=
  mkStyle None None false false 0 [] None [] None.

Definition Foreground (c : string) (s : Style) : Style :=
  mkStyle (Some c) (background s) (bold s) (italic s) (marginBottom s)
    (padding s) (borderStyle s) (borderSides s) (borderForeground s).
Definition Background (c : string) (s : Style) : Style :=
  mkStyle (foreground s) (Some c) (bold s) (italic s) (marginBottom s)
    (padding s) (borderStyle s) (borderSides s) (borderForeground s).
Definition Bold (v : bool) (s : Style) : Style :=
  mkStyle (foreground s) (background s) v (italic s) (marginBottom s)
    (padding s) (borderStyle s) (borderSides s) (borderForeground s).
Definition Italic (v : bool) (s : Style) : Style :=
  mkStyle (foreground s) (background s) (bold s) v (marginBottom s)
    (padding s) (borderStyle s) (borderSides s) (borderForeground s).
Definition MarginBottom (i : Z) (s : Style) : Style :=
  mkStyle (foreground s) (background s) (bold s) (italic s) i
    (padding s) (borderStyle s) (borderSides s) (borderForeground s).
Definition Padding (i : list Z) (s : Style) : Style :=
  mkStyle (foreground s) (background s) (bold s) (italic s) (marginBottom s)
    i (borderStyle s) (borderSides s) (borderForeground s).
Definition BorderStyle (b : border) (s : Style) : Style :=
  mkStyle (foreground s) (background s) (bold s) (italic s) (marginBottom s)
    (padding s) (Some b) (borderSides s) (borderForeground s).
Definition Border (b : border) (s : Style) : Style :=
  mkStyle (foreground s) (background s) (bold s) (italic s) (marginBottom s)
    (padding s) (Some b) [true; true; true; true] (borderForeground s).
Definition BorderBottom (v : bool) (s : Style) : Style :=
  mkStyle (foreground s) (background s) (bold s) (italic s) (marginBottom s)
    (padding s) (borderStyle s)
    (<[2%nat := v]> (match borderSides s with
                     | [] => [false; false; false; false]
                     | sides => sides
                     end))
    (borderForeground s).
Definition BorderForeground (c : string) (s : Style) : Style :=
  mkStyle (foreground s) (background s) (bold s) (italic s) (marginBottom s)
    (padding s) (borderStyle s) (borderSides s) (Some c).
Definition Copy (s : Style) : Style := s.

Global Instance Style_eq_dec : EqDecision Style.
Proof. solve_decision. Defined.

(** ** The data model *)

(** [Server]: a single server entry from the API. *)
Record Server := mkServer {
  Name : string;
  IP : string;
  Location : string;
  Status : string;
  LastReport : string
}.

Global Instance Server_eq_dec : EqDecision Server.
Proof. solve_decision. Defined.

(** [State]: the current mode of the application. *)
Inductive State := Viewing | Adding | Editing | Deleting | Help.

(** [AddingState]: the step of the add/edit form. *)
Inductive AddingState :=
  InputName | InputIP | InputLocation | InputStatus | Confirm.

Global Instance State_eq_dec : EqDecision State.
Proof. solve_decision. Defined.
Global Instance AddingState_eq_dec : EqDecision AddingState.
Proof. solve_decision. Defined.

(** ** The Bubble Tea runtime as the program sees it *)

Class Tea := {
  (** [tea.KeyMsg] and its [String()]. *)
  Key : Type;
  key_String : Key -> string;
  (** Messages and commands that belong to the widgets (cursor blink,
      filter matches, ...); the program only hands them on. *)
  WidgetMsg : Type;
  WidgetCmd : Type
}.

Section Messages.
Context `{Tea}.

(** [tea.Msg], with the message types the program declares:
    [serverMsg], [errMsg] (the text of its error), [fetchServersMsg]
    and [clearMessage]. *)
Inductive Msg :=
| KeyMsg (k : Key)
| WindowSizeMsg (Width Height : Z)
| serverMsg (servers : list Server)
| errMsg (err : string)
| fetchServersMsg
| clearMessage
| widgetMsg (x : WidgetMsg).

(** [tea.Cmd]: the effect the runtime is asked to perform.  The three
    network commands are the closures the functions of the same name
    return; [run_fetchServers] and its siblings below are their bodies.
    [tea_Tick d msg] delivers [msg] once, after [d]. *)
Inductive Cmd :=
| nil_Cmd
| tea_Quit
| tea_Batch (cmds : list Cmd)
| tea_Tick (d : Z) (msg : Msg)
| textinput_Blink
| widget_Cmd (c : WidgetCmd)
| fetchServers (apiURL apiToken : string)
| addOrEditServer (apiURL apiToken : string) (serverData : Server)
| deleteServer (apiURL apiToken serverName : string).

(** Is the message the key whose [String()] is [s]? *)
Definition key_is (msg : Msg) (s : string) : bool :=
  match msg with
  | KeyMsg k => String.eqb (key_String k) s
  | _ => false
  end.
End Messages.

(** [time.Second], in nanoseconds as [time.Duration] counts. *)
Definition Second : Z := 1000000000.

(** [table.Column], [table.Row] and [table.Styles]. *)
Record Column := mkColumn { Title : string; Width : Z }.
Definition Row := list string.
Record table_Styles := mkTableStyles {
  Header : Style;
  Cell : Style;
  Selected : Style
}.

(** The widget packages (bubbles), the renderer (lipgloss) and the clock. *)
Class Toolkit `{Tea} := {
  table_Model : Type;
  table_New : table_Model;
  table_Update : table_Model -> Msg -> table_Model * WidgetCmd;
  table_Focus : table_Model -> table_Model;
  table_Blur : table_Model -> table_Model;
  table_SetColumns : list Column -> table_Model -> table_Model;
  table_SetRows : list Row -> table_Model -> table_Model;
  table_SetStyles : table_Styles -> table_Model -> table_Model;
  table_DefaultStyles : table_Styles;
  (** the row under the cursor, [nil] when there is none *)
  table_SelectedRow : table_Model -> Row;
  table_Cursor : table_Model -> Z;
  table_View : table_Model -> string;

  textinput_Model : Type;
  textinput_New : textinput_Model;
  textinput_Update : textinput_Model -> Msg -> textinput_Model * WidgetCmd;
  textinput_Focus : textinput_Model -> textinput_Model;
  textinput_Blur : textinput_Model -> textinput_Model;
  textinput_SetValue : string -> textinput_Model -> textinput_Model;
  textinput_Value : textinput_Model -> string;
  (** assignment to the public field [Placeholder] *)
  textinput_set_Placeholder : string -> textinput_Model -> textinput_Model;
  textinput_View : textinput_Model -> string;

  list_Model : Type;
  (** [list.New(items, delegate, width, height)]; the items are
      [statusItem]s, strings *)
  list_New : list string -> Z -> Z -> list_Model;
  list_Update : list_Model -> Msg -> list_Model * WidgetCmd;
  (** the highlighted item, [nil] when no item is visible *)
  list_SelectedItem : list_Model -> option string;
  (** assignment to the public field [Title] *)
  list_set_Title : string -> list_Model -> list_Model;
  list_View : list_Model -> string;

  (** [style.Render(text)] *)
  Render : Style -> string -> string;
  (** [t.Format("15:04:05")] of the time [t], nanoseconds on the clock *)
  time_Format : Z -> string
}.

(** ** The message timer and the clock

    [model.messageTimer] is a pointer to a [time.Timer]; the timers live
    outside the model, in the runtime.  A timer is addressed by its
    position in [timers].  Every timer the program creates runs the same
    callback, [p.Send(clearMessage{})]. *)

Record Timer := mkTimer { deadline : Z; active : bool }.
Record World := mkWorld { now : Z; timers : list Timer }.

(** [t.Stop()]: the timer will not fire any more. *)
Definition Stop (t : nat) (w : World) : World :=
  mkWorld (now w)
    (match timers w !! t with
     | Some tm => <[t := mkTimer (deadline tm) false]> (timers w)
     | None => timers w
     end).

(** [time.AfterFunc(d, f)]: a new timer, due [d] from now. *)
Definition AfterFunc (d : Z) (w : World) : nat * World :=
  (length (timers w), mkWorld (now w) (timers w ++ [mkTimer (now w + d) true])).

(** The runtime fires timer [t] when it is active and due: the timer is
    spent and its callback sends [clearMessage]. *)
Definition due (w : World) (t : nat) : bool :=
  match timers w !! t with
  | Some tm => active tm && (deadline tm <=? now w)
  | None => false
  end.

(** The timers that have been started and neither stopped nor fired. *)
Definition live (w : World) (t : nat) : bool :=
  match timers w !! t with
  | Some tm => active tm
  | None => false
  end.

Definition pending (w : World) : list nat :=
  List.filter (live w) (seq 0 (length (timers w))).

(** Time passes. *)
Definition advance (d : Z) (w : World) : World := mkWorld (now w + d) (timers w).

Section Controller.
Context `{TK : Toolkit}.

(** [model]: the state of the application. *)
Record model := mkModel {
  servers : list Server;
  err : option string;
  loading : bool;
  message : string;
  state : State;
  addingState : AddingState;
  table : table_Model;
  textInput : textinput_Model;
  statusList : list_Model;
  currentServer : Server;
  deleteTarget : string;
  apiBaseURL : string;
  apiToken : string;
  spinnerStyle : Style;
  headerStyle : Style;
  onlineStyle : Style;
  offlineStyle : Style;
  otherStyle : Style;
  tableStyle : Style;
  messageStyle : Style;
  successStyle : Style;
  cancelStyle : Style;
  helpStyle : Style;
  currentMsgStyle : Style;
  messageTimer : option nat
}.

Definition set_servers (v : list Server) (m : model) : model :=
  mkModel v (err m) (loading m) (message m) (state m) (addingState m)
    (table m) (textInput m) (statusList m) (currentServer m)
    (deleteTarget m) (apiBaseURL m) (apiToken m) (spinnerStyle m)
    (headerStyle m) (onlineStyle m) (offlineStyle m) (otherStyle m)
    (tableStyle m) (messageStyle m) (successStyle m) (cancelStyle m)
    (helpStyle m) (currentMsgStyle m) (messageTimer m).
Definition set_err (v : option string) (m : model) : model :=
  mkModel (servers m) v (loading m) (message m) (state m) (addingState m)
    (table m) (textInput m) (statusList m) (currentServer m)
    (deleteTarget m) (apiBaseURL m) (apiToken m) (spinnerStyle m)
    (headerStyle m) (onlineStyle m) (offlineStyle m) (otherStyle m)
    (tableStyle m) (messageStyle m) (successStyle m) (cancelStyle m)
    (helpStyle m) (currentMsgStyle m) (messageTimer m).
Definition set_loading (v : bool) (m : model) : model :=
  mkModel (servers m) (err m) v (message m) (state m) (addingState m)
    (table m) (textInput m) (statusList m) (currentServer m)
    (deleteTarget m) (apiBaseURL m) (apiToken m) (spinnerStyle m)
    (headerStyle m) (onlineStyle m) (offlineStyle m) (otherStyle m)
    (tableStyle m) (messageStyle m) (successStyle m) (cancelStyle m)
    (helpStyle m) (currentMsgStyle m) (messageTimer m).
Definition set_message (v : string) (m : model) : model :=
  mkModel (servers m) (err m) (loading m) v (state m) (addingState m)
    (table m) (textInput m) (statusList m) (currentServer m)
    (deleteTarget m) (apiBaseURL m) (apiToken m) (spinnerStyle m)
    (headerStyle m) (onlineStyle m) (offlineStyle m) (otherStyle m)
    (tableStyle m) (messageStyle m) (successStyle m) (cancelStyle m)
    (helpStyle m) (currentMsgStyle m) (messageTimer m).
Definition set_state (v : State) (m : model) : model :=
  mkModel (servers m) (err m) (loading m) (message m) v (addingState m)
    (table m) (textInput m) (statusList m) (currentServer m)
    (deleteTarget m) (apiBaseURL m) (apiToken m) (spinnerStyle m)
    (headerStyle m) (onlineStyle m) (offlineStyle m) (otherStyle m)
    (tableStyle m) (messageStyle m) (successStyle m) (cancelStyle m)
    (helpStyle m) (currentMsgStyle m) (messageTimer m).
Definition set_addingState (v : AddingState) (m : model) : model :=
  mkModel (servers m) (err m) (loading m) (message m) (state m) v
    (table m) (textInput m) (statusList m) (currentServer m)
    (deleteTarget m) (apiBaseURL m) (apiToken m) (spinnerStyle m)
    (headerStyle m) (onlineStyle m) (offlineStyle m) (otherStyle m)
    (tableStyle m) (messageStyle m) (successStyle m) (cancelStyle m)
    (helpStyle m) (currentMsgStyle m) (messageTimer m).
Definition set_table (v : table_Model) (m : model) : model :=
  mkModel (servers m) (err m) (loading m) (message m) (state m)
    (addingState m) v (textInput m) (statusList m) (currentServer m)
    (deleteTarget m) (apiBaseURL m) (apiToken m) (spinnerStyle m)
    (headerStyle m) (onlineStyle m) (offlineStyle m) (otherStyle m)
    (tableStyle m) (messageStyle m) (successStyle m) (cancelStyle m)
    (helpStyle m) (currentMsgStyle m) (messageTimer m).
Definition set_textInput (v : textinput_Model) (m : model) : model :=
  mkModel (servers m) (err m) (loading m) (message m) (state m)
    (addingState m) (table m) v (statusList m) (currentServer m)
    (deleteTarget m) (apiBaseURL m) (apiToken m) (spinnerStyle m)
    (headerStyle m) (onlineStyle m) (offlineStyle m) (otherStyle m)
    (tableStyle m) (messageStyle m) (successStyle m) (cancelStyle m)
    (helpStyle m) (currentMsgStyle m) (messageTimer m).
Definition set_statusList (v : list_Model) (m : model) : model :=
  mkModel (servers m) (err m) (loading m) (message m) (state m)
    (addingState m) (table m) (textInput m) v (currentServer m)
    (deleteTarget m) (apiBaseURL m) (apiToken m) (spinnerStyle m)
    (headerStyle m) (onlineStyle m) (offlineStyle m) (otherStyle m)
    (tableStyle m) (messageStyle m) (successStyle m) (cancelStyle m)
    (helpStyle m) (currentMsgStyle m) (messageTimer m).
Definition set_currentServer (v : Server) (m : model) : model :=
  mkModel (servers m) (err m) (loading m) (message m) (state m)
    (addingState m) (table m) (textInput m) (statusList m) v
    (deleteTarget m) (apiBaseURL m) (apiToken m) (spinnerStyle m)
    (headerStyle m) (onlineStyle m) (offlineStyle m) (otherStyle m)
    (tableStyle m) (messageStyle m) (successStyle m) (cancelStyle m)
    (helpStyle m) (currentMsgStyle m) (messageTimer m).
Definition set_deleteTarget (v : string) (m : model) : model :=
  mkModel (servers m) (err m) (loading m) (message m) (state m)
    (addingState m) (table m) (textInput m) (statusList m)
    (currentServer m) v (apiBaseURL m) (apiToken m) (spinnerStyle m)
    (headerStyle m) (onlineStyle m) (offlineStyle m) (otherStyle m)
    (tableStyle m) (messageStyle m) (successStyle m) (cancelStyle m)
    (helpStyle m) (currentMsgStyle m) (messageTimer m).
Definition set_currentMsgStyle (v : Style) (m : model) : model :=
  mkModel (servers m) (err m) (loading m) (message m) (state m)
    (addingState m) (table m) (textInput m) (statusList m)
    (currentServer m) (deleteTarget m) (apiBaseURL m) (apiToken m)
    (spinnerStyle m) (headerStyle m) (onlineStyle m) (offlineStyle m)
    (otherStyle m) (tableStyle m) (messageStyle m) (successStyle m)
    (cancelStyle m) (helpStyle m) v (messageTimer m).
Definition set_messageTimer (v : option nat) (m : model) : model :=
  mkModel (servers m) (err m) (loading m) (message m) (state m)
    (addingState m) (table m) (textInput m) (statusList m)
    (currentServer m) (deleteTarget m) (apiBaseURL m) (apiToken m)
    (spinnerStyle m) (headerStyle m) (onlineStyle m) (offlineStyle m)
    (otherStyle m) (tableStyle m) (messageStyle m) (successStyle m)
    (cancelStyle m) (helpStyle m) (currentMsgStyle m) v.

(** [if m.messageTimer != nil { m.messageTimer.Stop() }] *)
Definition stopMessageTimer (m : model) (w : World) : World :=
  match messageTimer m with
  | Some t => Stop t w
  | None => w
  end.

(** [fire w t]: timer [t] goes off; the message reaches [Update] as any
    other. *)
Definition fire (w : World) (t : nat) : option (World * Msg) :=
  if due w t then Some (Stop t w, clearMessage) else None.

(** *** Utilities *)

(** The status cell, padded to the width of its column. *)
Definition padStatus (status : string) : string :=
  if (String.length status <? 12)%nat
  then status +:+ gostrings.Repeat " " (12 - String.length status)
  else status.

Definition tableRow (server : Server) : Row :=
  [Name server; IP server; Location server; padStatus (Status server);
   LastReport server].

Definition columns : list Column :=
  [mkColumn "Name" 20; mkColumn "IP Address" 18; mkColumn "Location" 18;
   mkColumn "Status" 12; mkColumn "Last Report" 35].

(** The loop of [updateTable]: a row is appended for each server. *)
Definition tableRows (servers : list Server) : list Row :=
  foldl (fun rows server => rows ++ [tableRow server]) [] servers.

(** [updateTable]: the table model is given the new server data. *)
Definition updateTable (m : model) : model :=
  let rows := tableRows (servers m) in
  let m := set_table (table_SetColumns columns (table m)) m in
  let m := set_table (table_SetRows rows (table m)) m in
  let s := table_DefaultStyles in
  let s := mkTableStyles
             (Bold false (BorderBottom true (BorderForeground "240"
                (BorderStyle NormalBorder (Header s)))))
             (Cell s) (Selected s) in
  let s := mkTableStyles (Header s) (Cell s)
             (Bold false (Background "99" (Foreground "229" (Selected s)))) in
  set_table (table_SetStyles s (table m)) m.

(** [setTempMessage]: a message with a style and a timer to reset it. *)
Definition setTempMessage (style : Style) (text : string)
    (w : World) (m : model) : World * model :=
  let m := set_message text m in
  let m := set_currentMsgStyle style m in
  let w := stopMessageTimer m w in
  let '(t, w) := AfterFunc (2 * Second) w in
  (w, set_messageTimer (Some t) m).

(** *** Commands *)

Definition pollForUpdates (d : Z) : Cmd := tea_Tick d fetchServersMsg.

(** [Init]: the initial commands. *)
Definition Init (m : model) : Cmd :=
  tea_Batch [fetchServers (apiBaseURL m) (apiToken m);
             pollForUpdates (30 * Second)].

(** *** Update *)

(** The last two lines of [updateViewing]:
    [m.table, cmd = m.table.Update(msg); return m, cmd]. *)
Definition forwardToTable (w : World) (msg : Msg) (m : model)
    : result (World * model * Cmd) :=
  let '(t, cmd) := table_Update (table m) msg in
  Ok (w, set_table t m, widget_Cmd cmd).

(** [updateViewing]: the main table view. *)
Definition updateViewing (w : World) (msg : Msg) (m : model)
    : result (World * model * Cmd) :=
  match msg with
  | KeyMsg k =>
      let s := key_String k in
      if String.eqb s "ctrl+c" || String.eqb s "q" then
        Ok (w, m, tea_Quit)
      else if String.eqb s "r" then
        let m := set_loading true m in
        let m := set_message "Refreshing data..." m in
        let m := set_currentMsgStyle (messageStyle m) m in
        Ok (w, m, fetchServers (apiBaseURL m) (apiToken m))
      else if String.eqb s "a" then
        let m := set_state Adding m in
        let m := set_table (table_Blur (table m)) m in
        let m := set_addingState InputName m in
        let m := set_currentServer (mkServer "" "" "" "" "") m in
        let m := set_textInput (textinput_set_Placeholder "Name" (textInput m)) m in
        let m := set_textInput (textinput_Focus (textInput m)) m in
        let m := set_textInput (textinput_SetValue "" (textInput m)) m in
        let m := set_message "Adding new server (Step 1 of 4):" m in
        let m := set_currentMsgStyle (messageStyle m) m in
        Ok (w, m, textinput_Blink)
      else if String.eqb s "d" then
        if (0 <? length (servers m))%nat then
          let selectedRow := table_SelectedRow (table m) in
          if (0 <? length selectedRow)%nat then
            target <- index selectedRow 0 ;;
            let m := set_deleteTarget target m in
            let m := set_state Deleting m in
            let m := set_message "" m in
            Ok (w, m, nil_Cmd)
          else Ok (w, m, nil_Cmd)
        else Ok (w, m, nil_Cmd)
      else if String.eqb s "e" then
        if (0 <? length (servers m))%nat then
          let selectedRow := table_SelectedRow (table m) in
          if (0 <? length selectedRow)%nat then
            let m := set_state Editing m in
            let m := set_table (table_Blur (table m)) m in
            let m := set_addingState InputName m in
            name <- index selectedRow 0 ;;
            ip <- index selectedRow 1 ;;
            location <- index selectedRow 2 ;;
            status <- index selectedRow 3 ;;
            lastReport <- index selectedRow 4 ;;
            let m := set_currentServer
                       (mkServer name ip location
                          (gostrings.TrimSpace status) lastReport) m in
            let m := set_textInput (textinput_set_Placeholder "Name" (textInput m)) m in
            let m := set_textInput (textinput_Focus (textInput m)) m in
            let m := set_textInput
                       (textinput_SetValue (Name (currentServer m)) (textInput m)) m in
            let m := set_message "Editing server (Step 1 of 4):" m in
            let m := set_currentMsgStyle (messageStyle m) m in
            Ok (w, m, textinput_Blink)
          else forwardToTable w msg m
        else forwardToTable w msg m
      else if String.eqb s "?" then
        Ok (w, set_state Help m, nil_Cmd)
      else forwardToTable w msg m
  | serverMsg fetched =>
      let m := set_loading false m in
      let m := set_err None m in
      let m := set_servers fetched m in
      let m := updateTable m in
      let m := set_message
                 ("Inventory refreshed at " +:+ time_Format (now w)) m in
      let '(w, m) := setTempMessage (successStyle m) (message m) w m in
      forwardToTable w msg m
  | errMsg e =>
      let m := set_loading false m in
      let m := set_err (Some e) m in
      let m := set_message e m in
      let m := set_currentMsgStyle (cancelStyle m) m in
      forwardToTable w msg m
  | fetchServersMsg =>
      Ok (w, m, fetchServers (apiBaseURL m) (apiToken m))
  | clearMessage =>
      let m := set_currentMsgStyle (messageStyle m) m in
      forwardToTable w msg m
  | _ => forwardToTable w msg m
  end.

Definition set_Name (v : string) (s : Server) : Server :=
  mkServer v (IP s) (Location s) (Status s) (LastReport s).
Definition set_IP (v : string) (s : Server) : Server :=
  mkServer (Name s) v (Location s) (Status s) (LastReport s).
Definition set_Location (v : string) (s : Server) : Server :=
  mkServer (Name s) (IP s) v (Status s) (LastReport s).
Definition set_Status (v : string) (s : Server) : Server :=
  mkServer (Name s) (IP s) (Location s) v (LastReport s).

(** [updateAddingEditing]: the add/edit forms. *)
Definition updateAddingEditing (w : World) (msg : Msg) (m : model)
    : result (World * model * Cmd) :=
  if key_is msg "esc" then
    let m := set_state Viewing m in
    let m := set_textInput (textinput_Blur (textInput m)) m in
    let m := set_table (table_Focus (table m)) m in
    let '(w, m) := setTempMessage (cancelStyle m) "Cancelled." w m in
    Ok (w, m, nil_Cmd)
  else
  match addingState m with
  | InputName | InputIP | InputLocation =>
      let '(ti, cmd) := textinput_Update (textInput m) msg in
      let m := set_textInput ti m in
      if key_is msg "enter" then
        let m :=
          match addingState m with
          | InputName =>
              let m := set_currentServer
                         (set_Name (textinput_Value (textInput m)) (currentServer m)) m in
              let m := set_addingState InputIP m in
              let m := set_textInput
                         (textinput_set_Placeholder "IP Address" (textInput m)) m in
              let m := set_textInput
                         (textinput_SetValue (IP (currentServer m)) (textInput m)) m in
              set_message "Adding new server (Step 2 of 4):" m
          | InputIP =>
              let m := set_currentServer
                         (set_IP (textinput_Value (textInput m)) (currentServer m)) m in
              let m := set_addingState InputLocation m in
              let m := set_textInput
                         (textinput_set_Placeholder "Location" (textInput m)) m in
              let m := set_textInput
                         (textinput_SetValue (Location (currentServer m)) (textInput m)) m in
              set_message "Adding new server (Step 3 of 4):" m
          | InputLocation =>
              let m := set_currentServer
                         (set_Location (textinput_Value (textInput m)) (currentServer m)) m in
              let m := set_addingState InputStatus m in
              let m := set_textInput (textinput_Blur (textInput m)) m in
              set_message "Adding new server (Step 4 of 4):" m
          | _ => m
          end in
        Ok (w, m, textinput_Blink)
      else Ok (w, m, widget_Cmd cmd)
  | InputStatus =>
      let '(l, cmd) := list_Update (statusList m) msg in
      let m := set_statusList l m in
      if key_is msg "enter" then
        match list_SelectedItem (statusList m) with
        | Some selectedStatus =>
            let m := set_currentServer
                       (set_Status selectedStatus (currentServer m)) m in
            let m := set_addingState Confirm m in
            let m := set_message "" m in
            Ok (w, m, widget_Cmd cmd)
        | None => Panic "interface conversion: interface is nil, not statusItem"
        end
      else Ok (w, m, widget_Cmd cmd)
  | Confirm =>
      match msg with
      | KeyMsg k =>
          let s := key_String k in
          if String.eqb s "y" || String.eqb s "Y" then
            let m := set_state Viewing m in
            let m := set_loading true m in
            let m := set_table (table_Focus (table m)) m in
            let '(w, m) :=
              setTempMessage (successStyle m) "Submitting server data..." w m in
            Ok (w, m, addOrEditServer (apiBaseURL m) (apiToken m) (currentServer m))
          else if String.eqb s "n" || String.eqb s "N" || String.eqb s "esc" then
            let m := set_state Viewing m in
            let m := set_table (table_Focus (table m)) m in
            let '(w, m) := setTempMessage (cancelStyle m) "Cancelled." w m in
            Ok (w, m, nil_Cmd)
          else Ok (w, m, nil_Cmd)
      | _ => Ok (w, m, nil_Cmd)
      end
  end.

(** [updateDeleting]: the delete confirmation. *)
Definition updateDeleting (w : World) (msg : Msg) (m : model)
    : result (World * model * Cmd) :=
  match msg with
  | KeyMsg k =>
      let s := key_String k in
      if String.eqb s "y" || String.eqb s "Y" then
        let m := set_state Viewing m in
        let m := set_loading true m in
        let m := set_table (table_Focus (table m)) m in
        let '(w, m) :=
          setTempMessage (successStyle m)
            ("Deleting server '" +:+ deleteTarget m +:+ "'...") w m in
        Ok (w, m, deleteServer (apiBaseURL m) (apiToken m) (deleteTarget m))
      else if String.eqb s "n" || String.eqb s "N" || String.eqb s "esc" then
        let m := set_state Viewing m in
        let m := set_table (table_Focus (table m)) m in
        let '(w, m) := setTempMessage (cancelStyle m) "Deletion cancelled." w m in
        Ok (w, m, nil_Cmd)
      else Ok (w, m, nil_Cmd)
  | _ => Ok (w, m, nil_Cmd)
  end.

(** [updateHelp]: the help view. *)
Definition updateHelp (w : World) (msg : Msg) (m : model)
    : result (World * model * Cmd) :=
  match msg with
  | KeyMsg _ => Ok (w, set_state Viewing m, nil_Cmd)
  | _ => Ok (w, m, nil_Cmd)
  end.

(** [Update]: user input and messages. *)
Definition Update (w : World) (m : model) (msg : Msg)
    : result (World * model * Cmd) :=
  match msg with
  | WindowSizeMsg _ _ =>
      let '(t, cmd) := table_Update (table m) msg in
      let m := set_table t m in
      let '(l, _) := list_Update (statusList m) msg in
      let m := set_statusList l m in
      Ok (w, m, widget_Cmd cmd)
  | _ =>
      let w := match msg with
               | KeyMsg _ => stopMessageTimer m w
               | _ => w
               end in
      match state m with
      | Viewing => updateViewing w msg m
      | Adding | Editing => updateAddingEditing w msg m
      | Deleting => updateDeleting w msg m
      | Help => updateHelp w msg m
      end
  end.

(** *** View *)

Definition newline : string := String "010"%char "".

(** The style [viewingView] picks for a server's status. *)
Definition statusStyle (m : model) (server : Server) : Style :=
  if String.eqb (Status server) "Online" then onlineStyle m
  else if String.eqb (Status server) "Offline" then offlineStyle m
  else otherStyle m.

(** The loop of [viewingView] over the lines of the rendered table.
    [serverIndex] counts the lines taken for data rows so far. *)
Fixpoint styleLines (m : model) (selectedRowIndex : Z) (serverIndex : nat)
    (lines : list string) : list string :=
  match lines with
  | [] => []
  | line :: rest =>
      if negb (gostrings.Contains line "│") || gostrings.Contains line "Name"
         || gostrings.Contains line "─"
      then line :: styleLines m selectedRowIndex serverIndex rest
      else
        match servers m !! serverIndex with
        | Some server =>
            let paddedStatus := padStatus (Status server) in
            let coloredStatus := Render (statusStyle m server) (Status server) in
            let line := gostrings.Replace1 line paddedStatus coloredStatus in
            let line :=
              if (Nat.eqb (serverIndex mod 2) 1)
                 && negb (Z.of_nat serverIndex =? selectedRowIndex)
              then Render (Background "236" NewStyle) line
              else line in
            line :: styleLines m selectedRowIndex (S serverIndex) rest
        | None => line :: styleLines m selectedRowIndex serverIndex rest
        end
  end.

(** [viewingView]: the main table. *)
Definition viewingView (m : model) : string :=
  (if (0 <? length (servers m))%nat then
     let tableView := table_View (table m) in
     let lines := gostrings.Split tableView "010"%char in
     let selectedRowIndex := table_Cursor (table m) in
     Render (tableStyle m)
       (gostrings.Join (styleLines m selectedRowIndex 0 lines) newline)
   else "No servers in inventory. Press 'a' to add one.")
  +:+ newline +:+ newline
  +:+ Render (messageStyle m)
        "'a' add | 'd' delete | 'e' edit | '?' help | 'q' quit".

(** *** The model [main] starts the program with *)

Record Config := mkConfig { ApiBaseURL : string; ApiToken : string }.

Definition items : list string := ["Online"; "Offline"; "Maintenance"].

Definition initialModel (config : Config) : model :=
  let messageStyle := Italic true (Foreground "7" NewStyle) in
  let m :=
    {| servers := [];
       err := None;
       loading := true;
       message := "Initializing...";
       state := Viewing;
       addingState := InputName;
       table := table_New;
       textInput := textinput_New;
       statusList := list_New items 0 0;
       currentServer := mkServer "" "" "" "" "";
       deleteTarget := "";
       apiBaseURL := ApiBaseURL config;
       apiToken := ApiToken config;
       spinnerStyle := Foreground "12" NewStyle;
       headerStyle := MarginBottom 1 (Bold true (Foreground "3" NewStyle));
       onlineStyle := Foreground "10" NewStyle;
       offlineStyle := Foreground "9" NewStyle;
       otherStyle := Foreground "11" NewStyle;
       tableStyle :=
         Padding [1] (BorderForeground "6" (Border NormalBorder NewStyle));
       messageStyle := messageStyle;
       successStyle := Foreground "10" (Copy messageStyle);
       cancelStyle := Foreground "11" (Copy messageStyle);
       helpStyle :=
         BorderForeground "6" (Border RoundedBorder (Padding [1; 2] NewStyle));
       currentMsgStyle := messageStyle;
       messageTimer := None |} in
  let m := set_statusList (list_set_Title "Select Server Status" (statusList m)) m in
  let m := updateTable m in
  set_table (table_Focus (table m)) m.
End Controller.

(** ** The remote inventory client

    The bodies of the three network commands.  The HTTP client, the URL
    parser and the JSON codec are Go's; the remote service answers as it
    likes and may change with every request. *)

Record Request := mkRequest {
  Method : string;
  URL : string;
  Headers : list (string * string);
  Body : option string
}.

Record Response := mkResponse { StatusCode : Z; ResponseBody : string }.

Class Network := {
  Remote : Type;
  (** the error of [http.NewRequest] for a URL it rejects *)
  url_error : string -> option string;
  (** [http.DefaultClient.Do]: a response, or the error of the transport *)
  client_Do : Remote -> Request -> Remote * (Response + string);
  json_Marshal : Server -> string;
  json_Decode : string -> list Server + string
}.

Section Client.
Context `{Tea} `{Network}.

Definition http_NewRequest (method url : string) (body : option string)
    : Request + string :=
  match url_error url with
  | Some e => inr e
  | None => inl (mkRequest method url [] body)
  end.

(** [req.Header.Set(key, value)] *)
Definition Header_Set (key value : string) (req : Request) : Request :=
  mkRequest (Method req) (URL req)
    (List.filter (fun kv => negb (String.eqb (fst kv) key)) (Headers req)
       ++ [(key, value)])
    (Body req).

Definition StatusOK : Z := 200.

(** Each body returns the remote after the call, the requests it sent,
    in order, and the message it hands to the program. *)
Definition run_fetchServers (r : Remote) (apiURL apiToken : string)
    : Remote * list Request * Msg :=
  match http_NewRequest "GET" (apiURL +:+ "/inventory") None with
  | inr e => (r, [], errMsg ("could not create request: " +:+ e))
  | inl req =>
      let req := Header_Set "Authorization" ("Bearer " +:+ apiToken) req in
      match client_Do r req with
      | (r, inr e) => (r, [req], errMsg ("could not connect to API: " +:+ e))
      | (r, inl resp) =>
          if negb (StatusCode resp =? StatusOK) then
            (r, [req],
             errMsg ("API request failed with status code "
                     +:+ pretty (StatusCode resp)))
          else
            match json_Decode (ResponseBody resp) with
            | inr e => (r, [req], errMsg ("failed to decode JSON: " +:+ e))
            | inl fetched => (r, [req], serverMsg fetched)
            end
      end
  end.

Definition run_addOrEditServer (r : Remote) (apiURL apiToken : string)
    (serverData : Server) : Remote * list Request * Msg :=
  let jsonData := json_Marshal serverData in
  match http_NewRequest "POST" (apiURL +:+ "/report") (Some jsonData) with
  | inr e => (r, [], errMsg ("could not create request: " +:+ e))
  | inl req =>
      let req := Header_Set "Content-Type" "application/json" req in
      let req := Header_Set "Authorization" ("Bearer " +:+ apiToken) req in
      match client_Do r req with
      | (r, inr e) => (r, [req], errMsg ("failed to send request: " +:+ e))
      | (r, inl resp) =>
          if negb (StatusCode resp =? StatusOK) then
            (r, [req], errMsg ("API request failed: " +:+ ResponseBody resp))
          else
            let '(r, reqs, msg) := run_fetchServers r apiURL apiToken in
            (r, req :: reqs, msg)
      end
  end.

Definition run_deleteServer (r : Remote) (apiURL apiToken serverName : string)
    : Remote * list Request * Msg :=
  match http_NewRequest "DELETE" (apiURL +:+ "/delete/" +:+ serverName) None with
  | inr e => (r, [], errMsg ("could not create request: " +:+ e))
  | inl req =>
      let req := Header_Set "Authorization" ("Bearer " +:+ apiToken) req in
      match client_Do r req with
      | (r, inr e) => (r, [req], errMsg ("failed to send request: " +:+ e))
      | (r, inl resp) =>
          if negb (StatusCode resp =? StatusOK) then
            (r, [req], errMsg ("API request failed: " +:+ ResponseBody resp))
          else
            let '(r, reqs, msg) := run_fetchServers r apiURL apiToken in
            (r, req :: reqs, msg)
      end
  end.

(** What the runtime does with a network command. *)
Definition runCmd (r : Remote) (c : Cmd) : option (Remote * list Request * Msg) :=
  match c with
  | fetchServers apiURL apiToken => Some (run_fetchServers r apiURL apiToken)
  | addOrEditServer apiURL apiToken serverData =>
      Some (run_addOrEditServer r apiURL apiToken serverData)
  | deleteServer apiURL apiToken serverName =>
      Some (run_deleteServer r apiURL apiToken serverName)
  | _ => None
  end.
End Client.

(** ** Reference widgets

    A small implementation of the three interfaces, to run the program on
    concrete inputs: keys are their [String()], the table draws one line
    per row between vertical bars under a header and a rule, the text
    input appends one-byte keys and deletes on backspace, styles render
    as tags around the text, the remote is an in-memory inventory. *)

Module Ref.

Definition tea : Tea :=
  {| Key := string; key_String := fun k => k;
     WidgetMsg := unit; WidgetCmd := unit |}.

Record Table := mkTable {
  cols : list Column;
  rows : list Row;
  cursor : nat;
  focus : bool;
  styles : option table_Styles
}.

Definition moveCursor (n : nat) (k : string) (c : nat) : nat :=
  if String.eqb k "down" || String.eqb k "j" then Nat.min (S c) (n - 1)
  else if String.eqb k "up" || String.eqb k "k" then (c - 1)%nat
  else c.

Definition table_update (t : Table) (msg : @Msg tea) : Table * unit :=
  match msg with
  | KeyMsg k =>
      if focus t
      then (mkTable (cols t) (rows t) (moveCursor (length (rows t)) k (cursor t))
              (focus t) (styles t), tt)
      else (t, tt)
  | _ => (t, tt)
  end.

(** A cell: the text cut or padded with spaces to the column's width. *)
Fixpoint fit (width : nat) (s : string) : string :=
  match width with
  | O => ""
  | S w =>
      match s with
      | EmptyString => String " " (fit w "")
      | String c s' => String c (fit w s')
      end
  end.

Fixpoint cells (cs : list Column) (r : Row) : string :=
  match cs with
  | [] => "│"
  | c :: cs' =>
      "│" +:+ fit (Z.to_nat (Width c)) (hd "" r) +:+ cells cs' (tl r)
  end.

Definition rule (cs : list Column) : string :=
  "├" +:+ gostrings.Repeat "─" (list_sum (map (fun c => Z.to_nat (Width c)) cs))
  +:+ "┤".

Definition table_view (t : Table) : string :=
  gostrings.Join
    (cells (cols t) (map Title (cols t)) :: rule (cols t)
     :: map (cells (cols t)) (rows t))
    (String "010"%char "").

Record TextInput := mkTextInput {
  value : string;
  placeholder : string;
  focused : bool
}.

Fixpoint dropLast (s : string) : string :=
  match s with
  | EmptyString => ""
  | String c EmptyString => ""
  | String c s' => String c (dropLast s')
  end.

Definition textinput_update (t : TextInput) (msg : @Msg tea) : TextInput * unit :=
  match msg with
  | KeyMsg k =>
      if focused t then
        if String.eqb k "backspace"
        then (mkTextInput (dropLast (value t)) (placeholder t) true, tt)
        else if Nat.eqb (String.length k) 1
        then (mkTextInput (value t +:+ k) (placeholder t) true, tt)
        else (t, tt)
      else (t, tt)
  | _ => (t, tt)
  end.

Record List := mkList { title : string; entries : list string; selected : nat }.

Definition list_update (l : List) (msg : @Msg tea) : List * unit :=
  match msg with
  | KeyMsg k =>
      (mkList (title l) (entries l)
         (moveCursor (length (entries l)) k (selected l)), tt)
  | _ => (l, tt)
  end.

Definition tag (s : Style) : string :=
  "<" +:+ default "-" (foreground s) +:+ "/" +:+ default "-" (background s) +:+ ">".

Definition twoDigits (n : Z) : string :=
  (if n <? 10 then "0" else "") +:+ pretty n.

(** The time of day of a clock that started at midnight. *)
Definition clockTime (ns : Z) : string :=
  let s := ns / Second in
  twoDigits (s / 3600 mod 24) +:+ ":" +:+ twoDigits (s / 60 mod 60)
  +:+ ":" +:+ twoDigits (s mod 60).

Definition toolkit : @Toolkit tea :=
  {| table_Model := Table;
     table_New := mkTable [] [] 0 false None;
     table_Update := table_update;
     table_Focus := fun t => mkTable (cols t) (rows t) (cursor t) true (styles t);
     table_Blur := fun t => mkTable (cols t) (rows t) (cursor t) false (styles t);
     table_SetColumns := fun c t => mkTable c (rows t) (cursor t) (focus t) (styles t);
     table_SetRows := fun r t =>
       mkTable (cols t) r (Nat.min (cursor t) (length r - 1)) (focus t) (styles t);
     table_SetStyles := fun s t => mkTable (cols t) (rows t) (cursor t) (focus t) (Some s);
     table_DefaultStyles :=
       mkTableStyles (Padding [0; 1] (Bold true NewStyle)) (Padding [0; 1] NewStyle)
         (Foreground "212" (Bold true NewStyle));
     table_SelectedRow := fun t => default [] (rows t !! cursor t);
     table_Cursor := fun t => Z.of_nat (cursor t);
     table_View := table_view;
     textinput_Model := TextInput;
     textinput_New := mkTextInput "" "" false;
     textinput_Update := textinput_update;
     textinput_Focus := fun t => mkTextInput (value t) (placeholder t) true;
     textinput_Blur := fun t => mkTextInput (value t) (placeholder t) false;
     textinput_SetValue := fun v t => mkTextInput v (placeholder t) (focused t);
     textinput_Value := value;
     textinput_set_Placeholder := fun p t => mkTextInput (value t) p (focused t);
     textinput_View := fun t => "> " +:+ value t;
     list_Model := List;
     list_New := fun its _ _ => mkList "" its 0;
     list_Update := list_update;
     list_SelectedItem := fun l => entries l !! selected l;
     list_set_Title := fun s l => mkList s (entries l) (selected l);
     list_View := fun l => gostrings.Join (entries l) (String "010"%char "");
     Render := fun s text => tag s +:+ text +:+ "</>";
     time_Format := clockTime |}.

(** The remote: the inventory it holds and whether it is reachable.  A
    body is one line per entry, the fields separated by commas. *)
Record Service := mkService { inventory : list Server; up : bool }.

Definition encode (s : Server) : string :=
  gostrings.Join [Name s; IP s; Location s; Status s; LastReport s] ",".

Definition decode (line : string) : option Server :=
  match gostrings.Split line ","%char with
  | [n; i; l; s; r] => Some (mkServer n i l s r)
  | _ => None
  end.

Fixpoint decodeAll (lines : list string) : list Server + string :=
  match lines with
  | [] => inl []
  | line :: rest =>
      match decode line, decodeAll rest with
      | Some s, inl ss => inl (s :: ss)
      | None, _ => inr ("bad entry: " +:+ line)
      | _, inr e => inr e
      end
  end.

Definition upsert (s : Server) (inv : list Server) : list Server :=
  List.filter (fun x => negb (String.eqb (Name x) (Name s))) inv ++ [s].

Definition serve (r : Service) (req : Request) : Service * (Response + string) :=
  if negb (up r) then (r, inr "connection refused") else
  if String.eqb (Method req) "GET" then
    (r, inl (mkResponse 200
               (gostrings.Join (map encode (inventory r)) (String "010"%char ""))))
  else if String.eqb (Method req) "POST" then
    match decode (default "" (Body req)) with
    | Some s => (mkService (upsert s (inventory r)) (up r), inl (mkResponse 200 ""))
    | None => (r, inl (mkResponse 400 "bad entry"))
    end
  else (r, inl (mkResponse 405 "method not allowed")).

Definition network : Network :=
  {| Remote := Service;
     url_error := fun url => if String.eqb url "" then Some "empty url" else None;
     client_Do := serve;
     json_Marshal := encode;
     json_Decode := fun body =>
       if String.eqb body "" then inl []
       else decodeAll (gostrings.Split body "010"%char) |}.

End Ref.

(** ** The event loop

    The runtime hands [Update] one message at a time.  Between two
    messages time may pass, and a pending message timer that is due may
    fire, which sends [clearMessage]. *)

Section Runtime.
Context `{TK : Toolkit}.

Inductive event :=
| Deliver (msg : Msg)
| Elapse (d : Z)
| Fire (t : nat).

Definition exec (w : World) (m : model) (e : event)
    : result (World * model * Cmd) :=
  match e with
  | Deliver msg => Update w m msg
  | Elapse d => Ok (if 0 <=? d then advance d w else w, m, nil_Cmd)
  | Fire t =>
      match fire w t with
      | Some (w, msg) => Update w m msg
      | None => Ok (w, m, nil_Cmd)
      end
  end.

(** The state after a sequence of events, with the commands issued. *)
Fixpoint run (w : World) (m : model) (evs : list event)
    : result (World * model * list Cmd) :=
  match evs with
  | [] => Ok (w, m, [])
  | e :: evs =>
      r <- exec w m e ;;
      let '(w, m, c) := r in
      r <- run w m evs ;;
      let '(w, m, cs) := r in
      Ok (w, m, c :: cs)
  end.

(** The states of a session: it starts with [main]'s model, at any
    time of the clock, with no timer. *)
Inductive reachable (config : Config) : World -> model -> Prop :=
| reachable_init t0 :
    reachable config (mkWorld t0 []) (initialModel config)
| reachable_step w m e w' m' c :
    reachable config w m ->
    exec w m e = Ok (w', m', c) ->
    reachable config w' m'.

(** The form (the wizard) is open. *)
Definition in_wizard (m : model) : bool :=
  match state m with
  | Adding | Editing => true
  | _ => false
  end.

(** Steps of [Update] that leave the form open, with the commands they
    issue; the world between two steps is whatever it has become. *)
Inductive wizardRun : model -> list Cmd -> model -> Prop :=
| wizardRun_nil m : wizardRun m [] m
| wizardRun_step m w msg w1 m1 c cs m2 :
    Update w m msg = Ok (w1, m1, c) ->
    in_wizard m1 = true ->
    wizardRun m1 cs m2 ->
    wizardRun m (c :: cs) m2.

(** Does the command contain a create-or-update call? a tick? *)
Fixpoint emits_upsert (c : Cmd) : bool :=
  match c with
  | addOrEditServer _ _ _ => true
  | tea_Batch cmds => existsb emits_upsert cmds
  | _ => false
  end.

Fixpoint ticks (c : Cmd) : nat :=
  match c with
  | tea_Tick _ _ => 1
  | tea_Batch cmds => list_sum (map ticks cmds)
  | _ => 0
  end.

(** *** The fields a form session has committed *)

(** The step after a step of the form, and the field a step writes. *)
Definition next (step : AddingState) : AddingState :=
  match step with
  | InputName => InputIP
  | InputIP => InputLocation
  | InputLocation => InputStatus
  | InputStatus => Confirm
  | Confirm => Confirm
  end.

(** The steps that come before a step. *)
Definition before (step : AddingState) : list AddingState :=
  match step with
  | InputName => []
  | InputIP => [InputName]
  | InputLocation => [InputName; InputIP]
  | InputStatus => [InputName; InputIP; InputLocation]
  | Confirm => [InputName; InputIP; InputLocation; InputStatus]
  end.

Definition commit (step : AddingState) (v : string) (s : Server) : Server :=
  match step with
  | InputName => set_Name v s
  | InputIP => set_IP v s
  | InputLocation => set_Location v s
  | InputStatus => set_Status v s
  | Confirm => s
  end.

Definition field (step : AddingState) (s : Server) : string :=
  match step with
  | InputName => Name s
  | InputIP => IP s
  | InputLocation => Location s
  | InputStatus => Status s
  | Confirm => ""
  end.

(** The value of the live widget of the step, once the widget has
    handled the message. *)
Definition liveValue (m : model) (msg : Msg) : option string :=
  match addingState m with
  | InputName | InputIP | InputLocation =>
      Some (textinput_Value (fst (textinput_Update (textInput m) msg)))
  | InputStatus => list_SelectedItem (fst (list_Update (statusList m) msg))
  | Confirm => None
  end.

(** [session m log]: the form is open in [m], and since it was opened
    exactly the commits of [log] were made, in this order; a commit is an
    enter key that writes the live value into the field of the step and
    moves to the next step. *)
Inductive session : model -> list (AddingState * string) -> Prop :=
| session_open w m msg w' m' c :
    in_wizard m = false ->
    Update w m msg = Ok (w', m', c) ->
    in_wizard m' = true ->
    session m' []
| session_keep w m msg w' m' c log :
    session m log ->
    Update w m msg = Ok (w', m', c) ->
    in_wizard m' = true ->
    addingState m' = addingState m ->
    currentServer m' = currentServer m ->
    session m' log
| session_commit w m msg w' m' c log v :
    session m log ->
    Update w m msg = Ok (w', m', c) ->
    in_wizard m' = true ->
    key_is msg "enter" = true ->
    liveValue m msg = Some v ->
    addingState m' = next (addingState m) ->
    currentServer m' = commit (addingState m) v (currentServer m) ->
    session m' (log ++ [(addingState m, v)]).

(** What a session is started with and keeps: the address of the
    service, the credential and the styles. *)
Definition settings (m : model) :=
  (apiBaseURL m, apiToken m, onlineStyle m, offlineStyle m, otherStyle m,
   messageStyle m, successStyle m, cancelStyle m).

(** *** The message timer *)

(** The only timer that can be pending is the one the model points to,
    and a timer is pending in the main view only. *)
Definition timers_ok (w : World) (m : model) : Prop :=
  forall t, live w t = true -> messageTimer m = Some t /\ state m = Viewing.
End Runtime.

(** ** What a step issues, and the frame

    Observations on commands and messages, and the remaining view
    functions. *)

Section Observations.
Context `{TK : Toolkit}.

(** Does the command contain a delete call? *)
Fixpoint emits_delete (c : Cmd) : bool :=
  match c with
  | deleteServer _ _ _ => true
  | tea_Batch cmds => existsb emits_delete cmds
  | _ => false
  end.

(** Can the command end the program?  [tea.Quit] does.  A command that a
    widget returned is a closure of the widget's library, which may be
    [tea.Quit] as well: [quits] tells of which of them it is. *)
Fixpoint may_quit (quits : WidgetCmd -> bool) (c : Cmd) : bool :=
  match c with
  | tea_Quit => true
  | widget_Cmd x => quits x
  | tea_Batch cmds => existsb (may_quit quits) cmds
  | _ => false
  end.

(** The service address and the credential a network command is bound to. *)
Definition endpoint (c : Cmd) : option (string * string) :=
  match c with
  | fetchServers apiURL apiToken => Some (apiURL, apiToken)
  | addOrEditServer apiURL apiToken _ => Some (apiURL, apiToken)
  | deleteServer apiURL apiToken _ => Some (apiURL, apiToken)
  | _ => None
  end.

Definition is_key (msg : Msg) : bool :=
  match msg with
  | KeyMsg _ => true
  | _ => false
  end.

Definition is_resize (msg : Msg) : bool :=
  match msg with
  | WindowSizeMsg _ _ => true
  | _ => false
  end.

(** [helpView]: the help screen. *)
Definition helpView (m : model) : string :=
  Render (helpStyle m)
    ("--- Help ---" +:+ newline +:+ newline
     +:+ "  a: Add a new server" +:+ newline
     +:+ "  e: Edit selected server" +:+ newline
     +:+ "  d: Delete selected server" +:+ newline
     +:+ "  r: Refresh server list" +:+ newline
     +:+ "  ?: Show this help menu" +:+ newline
     +:+ "  q: Quit the application" +:+ newline +:+ newline
     +:+ "Press any key to return to the main view.").

(** [addingEditingView]: the form.  [Placeholder] reads the public field
    of the text input of that name. *)
Definition addingEditingView (Placeholder : textinput_Model -> string)
    (m : model) : string :=
  match addingState m with
  | InputName | InputIP | InputLocation =>
      ("Enter " +:+ Placeholder (textInput m) +:+ ":" +:+ newline +:+ newline
       +:+ textinput_View (textInput m))
      +:+ newline +:+ newline
      +:+ Render (messageStyle m) "Press 'Enter' to confirm, 'Esc' to cancel."
  | InputStatus =>
      ("Select a Status:" +:+ newline +:+ newline +:+ list_View (statusList m))
      +:+ newline +:+ newline
      +:+ Render (messageStyle m) "Press 'Enter' to confirm, 'Esc' to cancel."
  | Confirm =>
      ("Confirm entry?" +:+ newline +:+ newline
       +:+ "  Name:     " +:+ Name (currentServer m) +:+ newline
       +:+ "  IP:       " +:+ IP (currentServer m) +:+ newline
       +:+ "  Location: " +:+ Location (currentServer m) +:+ newline
       +:+ "  Status:   " +:+ Status (currentServer m))
      +:+ newline +:+ newline
      +:+ Render (messageStyle m) "Press 'y' to submit, 'n' or 'Esc' to cancel."
  end.

(** [View]: the frame. *)
Definition View (Placeholder : textinput_Model -> string) (m : model) : string :=
  match state m with
  | Help => helpView m
  | _ =>
      let s := "" in
      let s := s +:+ Render (headerStyle m) "Server Inventory Dashboard"
                 +:+ newline +:+ newline in
      let s := if loading m
               then s +:+ Render (spinnerStyle m) "⠋" +:+ " Loading..."
               else s +:+ Render (currentMsgStyle m) (message m) in
      let s := s +:+ newline +:+ newline in
      match state m with
      | Viewing => s +:+ viewingView m
      | Adding | Editing => s +:+ addingEditingView Placeholder m
      | Deleting =>
          s +:+ (("Are you sure you want to delete '" +:+ deleteTarget m
                  +:+ "'?" +:+ newline +:+ newline)
                 +:+ Render (messageStyle m)
                       "Press 'y' to confirm, 'n' or 'Esc' to cancel.")
      | Help => s
      end
  end.
End Observations.

(** ** Scenarios

    Concrete sessions, run with the reference widgets. *)

Section Scenarios.
Local Existing Instance Ref.tea.
Local Existing Instance Ref.toolkit.
Local Existing Instance Ref.network.

Definition config0 : Config := mkConfig "http://inventory" "secret".

(** The session starts at midnight. *)
Definition start : World := mkWorld 0 [].

(** World and model after the events, from the start of the session. *)
Definition after (evs : list event) : World * model :=
  match run start (initialModel config0) evs with
  | Ok (w, m, _) => (w, m)
  | Panic _ => (start, initialModel config0)
  end.

(** The key with a given [String()]. *)
Definition key (s : string) : Key := s.

(** The reference service with an inventory, reachable or not. *)
Definition service (inventory : list Server) (up : bool) : Remote :=
  Ref.mkService inventory up.

Definition keys (ks : list string) : list event :=
  map (fun k => Deliver (KeyMsg (key k))) ks.

(** The keys that type a text. *)
Fixpoint typed (text : string) : list string :=
  match text with
  | EmptyString => []
  | String c rest => String c "" :: typed rest
  end.

(** Messages delivered one after the other, as long as each leaves the
    form open. *)
Fixpoint deliver_in_wizard (w : World) (m : model) (msgs : list Msg)
    : option (model * list Cmd) :=
  match msgs with
  | [] => Some (m, [])
  | msg :: msgs =>
      match Update w m msg with
      | Ok (w1, m1, c) =>
          if in_wizard m1 then
            match deliver_in_wizard w1 m1 msgs with
            | Some (m2, cs) => Some (m2, c :: cs)
            | None => None
            end
          else None
      | Panic _ => None
      end
  end.

(** The keys a, " edge-1 ": a name with a blank before and after it. *)
Definition typing_blanks : list Msg :=
  map (fun k => KeyMsg (key k)) ("a" :: typed " edge-1 ").

(** The keys a, "edge-1", enter, "1". *)
Definition typing : list Msg :=
  map (fun k => KeyMsg (key k)) ("a" :: typed "edge-1" ++ ["enter"; "1"]).

Definition edge1 : Server := mkServer "edge-1" "10.0.0.1" "dc-1" "Offline" "".
Definition web1 : Server := mkServer "web-1" "10.0.0.2" "dc-1" "Online" "12:00".

(** The form for a new entry at the step Confirm, as in the scenario of
    the specification. *)
Definition fill_edge1 : list event :=
  keys ("a" :: typed "edge-1" ++ ["enter"] ++ typed "10.0.0.1" ++ ["enter"]
        ++ typed "dc-1" ++ ["enter"; "down"; "enter"]).

(** A name field with blanks around the name. *)
Definition type_blanks : list event := keys ("a" :: typed " edge-1 ").

(** The entry edge-1, whose status is Offline, is fetched and edited up
    to the step Location. *)
Definition edit_edge1 : list event :=
  Deliver (serverMsg [edge1]) :: keys ["e"; "enter"; "enter"].

(** An inventory whose first entry has "Name" in its name. *)
Definition namenode : list Server :=
  [mkServer "NameNode-1" "10.0.1.1" "dc-2" "Online" "12:00";
   mkServer "web-1" "10.0.0.2" "dc-1" "Offline" "12:00";
   mkServer "db-1" "10.0.0.3" "dc-1" "Maintenance" "12:00"].

(** An entry whose status ends with a blank. *)
Definition blank_status : Server := mkServer "web-2" "10.0.0.4" "dc-1" "Online " "12:00".
End Scenarios.

(** ** More scenarios *)

(** Whether a step went through, and what it gave. *)
Definition is_ok {A} (r : result A) : bool :=
  match r with
  | Ok _ => true
  | Panic _ => false
  end.

Definition outcome {A} (d : A) (r : result A) : A :=
  match r with
  | Ok a => a
  | Panic _ => d
  end.

Definition reason {A} (r : result A) : string :=
  match r with
  | Ok _ => ""
  | Panic why => why
  end.

Section MoreScenarios.
Local Existing Instance Ref.tea.
Local Existing Instance Ref.toolkit.

(** The main view with the one entry web-1, and the delete confirmation
    opened on it. *)
Definition browsing : World * model := after [Deliver (serverMsg [web1])].
Definition deleting : World * model :=
  after (Deliver (serverMsg [web1]) :: keys ["d"]).

(** The help view, opened right at the start. *)
Definition helping : World * model := after (keys ["?"]).

(** The form at the step Status, with a status list that has no item to
    highlight. *)
Definition no_items : list_Model := Ref.mkList "" [] 0.
Definition stuck_status : model :=
  set_statusList no_items (after (keys ["a"; "enter"; "enter"; "enter"])).2.

(** The form for a new entry at the step Status. *)
Definition choosing : World * model :=
  after (keys ["a"; "enter"; "enter"; "enter"]).

(** The field of the reference text input that [View] reads. *)
Definition placeholder_of : textinput_Model -> string := Ref.placeholder.

(** The reference service behind a URL parser that rejects control
    characters (bytes below 32). *)
Fixpoint has_control (s : string) : bool :=
  match s with
  | EmptyString => false
  | String c rest => (N_of_ascii c <? 32)%N || has_control rest
  end.

Definition picky : Network :=
  {| Remote := Ref.Service;
     url_error := fun url =>
       if has_control url then Some "invalid control character in URL" else None;
     client_Do := Ref.serve;
     json_Marshal := Ref.encode;
     json_Decode := fun body =>
       if String.eqb body "" then inl []
       else Ref.decodeAll (gostrings.Split body "010"%char) |}.

(** An entry name with a tab in it. *)
Definition tabbed : string := String "009"%char "web".
End MoreScenarios.


(** * Properties *)

(** ** Trimming *)

Module gostrings_facts.
Import gostrings.
Local Open Scope nat_scope.

Lemma trimFront_suffix back s : exists p, s = p ++ trimFront back s.
Proof.
  remember (length s) as n eqn:Hn.
  revert s Hn. induction n as [n IH] using lt_wf_ind. intros s Hn.
  destruct s as [|c1 r1]; [by exists []|]. simpl.
  destruct (space1 c1).
  { destruct (IH (length r1)) with (s := r1) as [p Hp]; [simpl in Hn; lia|done|].
    exists (c1 :: p). simpl. by rewrite <- Hp. }
  destruct r1 as [|c2 r2]; [by exists []|].
  destruct (if back then space2 c2 c1 else space2 c1 c2).
  { destruct (IH (length r2)) with (s := r2) as [p Hp]; [simpl in Hn; lia|done|].
    exists (c1 :: c2 :: p). simpl. by rewrite <- Hp. }
  destruct r2 as [|c3 r3]; [by exists []|].
  destruct (if back then space3 c3 c2 c1 else space3 c1 c2 c3); [|by exists []].
  destruct (IH (length r3)) with (s := r3) as [p Hp]; [simpl in Hn; lia|done|].
  exists (c1 :: c2 :: c3 :: p). simpl. by rewrite <- Hp.
Qed.

Lemma trimFront_fixed back s :
  length s <= length (trimFront back s) -> trimFront back s = s.
Proof.
  intros Hlen. destruct (trimFront_suffix back s) as [p Hp].
  assert (p = []) as ->.
  { apply (f_equal length) in Hp. rewrite length_app in Hp.
    destruct p; [done|simpl in Hp; lia]. }
  by rewrite Hp at 2.
Qed.

Lemma trimFront_spaces back k s :
  trimFront back (spaces k ++ s) = trimFront back s.
Proof. induction k as [|k IH]; [done|]. simpl. exact IH. Qed.

Lemma space2_blank c : space2 c " " = false.
Proof. unfold space2. simpl. by rewrite andb_false_r. Qed.

Lemma space3_blank2 c1 c3 : space3 c1 " " c3 = false.
Proof.
  unfold space3. simpl.
  by rewrite !andb_false_r, !andb_false_l.
Qed.

Lemma space3_blank3 c1 c2 : space3 c1 c2 " " = false.
Proof.
  unfold space3. simpl.
  by rewrite !andb_false_r.
Qed.

(** A text that does not start with white space still does not after
    blanks are appended to it. *)
Lemma trimLeft_pad s k :
  s <> [] -> trimLeft s = s -> trimLeft (s ++ spaces k) = s ++ spaces k.
Proof.
  unfold trimLeft. intros Hne Hfix.
  destruct s as [|c1 r1]; [done|]. simpl in *.
  destruct (space1 c1) eqn:H1.
  { pose proof (trimFront_suffix false r1) as [p Hp].
    apply (f_equal length) in Hfix, Hp. rewrite length_app in Hp.
    simpl in Hfix. lia. }
  destruct r1 as [|c2 r2]; simpl in *.
  { destruct k as [|k]; [done|]. simpl. rewrite space2_blank.
    destruct k as [|k]; [done|]. simpl. by rewrite space3_blank2. }
  destruct (space2 c1 c2) eqn:H2.
  { pose proof (trimFront_suffix false r2) as [p Hp].
    apply (f_equal length) in Hfix, Hp. rewrite length_app in Hp.
    simpl in Hfix. lia. }
  destruct r2 as [|c3 r3]; simpl in *.
  { destruct k as [|k]; [done|]. simpl. by rewrite space3_blank3. }
  destruct (space3 c1 c2 c3) eqn:H3; [|done].
  pose proof (trimFront_suffix false r3) as [p Hp].
  apply (f_equal length) in Hfix, Hp. rewrite length_app in Hp.
  simpl in Hfix. lia.
Qed.

Lemma trimRight_pad s k : trimRight (s ++ spaces k) = trimRight s.
Proof.
  unfold trimRight. rewrite rev_app_distr.
  assert (rev (spaces k) = spaces k) as ->.
  { unfold spaces. induction k as [|k IH]; [done|].
    simpl. rewrite IH. clear IH. induction k; simpl; [done|]. by f_equal. }
  by rewrite trimFront_spaces.
Qed.

Lemma trimRight_fixed s : length s <= length (trimRight s) -> trimRight s = s.
Proof.
  unfold trimRight. rewrite length_rev, <- (length_rev s). intros Hlen.
  rewrite (trimFront_fixed _ _ Hlen). apply rev_involutive.
Qed.

Lemma trimRight_length s : length (trimRight s) <= length s.
Proof.
  unfold trimRight. rewrite length_rev.
  destruct (trimFront_suffix true (rev s)) as [p Hp].
  apply (f_equal length) in Hp. rewrite length_app, length_rev in Hp. lia.
Qed.

Lemma trimLeft_length s : length (trimLeft s) <= length s.
Proof.
  destruct (trimFront_suffix false s) as [p Hp].
  apply (f_equal length) in Hp. rewrite length_app in Hp. unfold trimLeft. lia.
Qed.

Lemma list_of_app s t :
  list_ascii_of_string (s +:+ t) = list_ascii_of_string s ++ list_ascii_of_string t.
Proof. induction s as [|c s IH]; [done|]. simpl. by rewrite IH. Qed.

Lemma list_of_Repeat k : list_ascii_of_string (Repeat " " k) = spaces k.
Proof.
  induction k as [|k IH]; [done|].
  change (Repeat " " (S k)) with (" " +:+ Repeat " " k).
  by rewrite list_of_app, IH.
Qed.

(** Trimming undoes padding with blanks, for a text that trimming
    leaves as it is. *)
Lemma TrimSpace_pad s k : TrimSpace s = s -> TrimSpace (s +:+ Repeat " " k) = s.
Proof.
  unfold TrimSpace. intros Hs.
  rewrite list_of_app, list_of_Repeat.
  remember (list_ascii_of_string s) as l eqn:El.
  assert (string_of_list_ascii l = s) as Hsl
    by (subst l; apply string_of_list_ascii_of_string).
  assert (trimRight (trimLeft l) = l) as Hl.
  { apply (f_equal list_ascii_of_string) in Hs.
    rewrite list_ascii_of_string_of_list_ascii in Hs. congruence. }
  assert (trimLeft l = l) as HL.
  { apply trimFront_fixed. fold (trimLeft l).
    rewrite <- Hl at 1. apply trimRight_length. }
  assert (trimRight l = l) as HR by (by rewrite HL in Hl).
  destruct (decide (l = [])) as [->|Hne].
  - rewrite app_nil_l.
    change (trimLeft (spaces k)) with (trimFront false (spaces k)).
    rewrite <- (app_nil_r (spaces k)), trimFront_spaces. exact Hsl.
  - rewrite trimLeft_pad by done. by rewrite trimRight_pad, HR.
Qed.
End gostrings_facts.

(** ** The message timer *)

Section TimerFacts.

Lemma live_Stop t w t' :
  live (Stop t w) t' = if decide (t' = t) then false else live w t'.
Proof.
  unfold live, Stop. simpl.
  destruct (timers w !! t) as [tm|] eqn:Et.
  - case_decide as Htt.
    + subst t'. rewrite list_lookup_insert_eq; [done|].
      by apply lookup_lt_Some in Et.
    + by rewrite list_lookup_insert_ne.
  - case_decide as Htt; [|done]. subst t'. by rewrite Et.
Qed.

Lemma length_timers_Stop t w : length (timers (Stop t w)) = length (timers w).
Proof.
  unfold Stop. simpl. destruct (timers w !! t); [|done]. apply length_insert.
Qed.

Lemma now_Stop t w : now (Stop t w) = now w.
Proof. done. Qed.

Lemma live_append n tm w t' :
  live (mkWorld n (timers w ++ [tm])) t' =
  if decide (t' = length (timers w)) then active tm else live w t'.
Proof.
  unfold live. simpl. case_decide as Htt.
  - subst t'. by rewrite lookup_app_r, Nat.sub_diag.
  - destruct (decide (t' < length (timers w))%nat) as [Hlt|Hge].
    + by rewrite lookup_app_l.
    + rewrite !lookup_ge_None_2; [done|lia|rewrite length_app; simpl; lia].
Qed.

Lemma live_lt w t : live w t = true -> (t < length (timers w))%nat.
Proof.
  unfold live. destruct (timers w !! t) eqn:Et; [|done].
  intros _. by apply lookup_lt_Some in Et.
Qed.

(** The pending timers are the live ones, in the order of their creation. *)
Lemma elem_of_pending w t : In t (pending w) <-> live w t = true.
Proof.
  unfold pending. rewrite filter_In, in_seq. split; [tauto|].
  intros Hl. pose proof (live_lt _ _ Hl). split; [lia|done].
Qed.

Local Arguments AfterFunc : simpl never.
Local Arguments live : simpl never.

Lemma pending_nil w : (forall t, live w t = false) -> pending w = [].
Proof.
  intros Hq. unfold pending.
  induction (seq 0 (length (timers w))) as [|t l IH]; [done|].
  simpl. by rewrite Hq.
Qed.

Lemma pending_append n tm w :
  (forall t, live w t = false) ->
  active tm = true ->
  pending (mkWorld n (timers w ++ [tm])) = [length (timers w)].
Proof.
  intros Hq Htm. unfold pending. simpl timers.
  rewrite length_app. simpl length. rewrite Nat.add_1_r.
  rewrite List.seq_S, List.filter_app. simpl.
  rewrite live_append, decide_True, Htm by done.
  replace (List.filter _ (seq 0 (length (timers w)))) with (@nil nat); [done|].
  symmetry.
  assert (forall t, In t (seq 0 (length (timers w))) -> (t < length (timers w))%nat) as Hin
    by (intros t Ht; apply in_seq in Ht; lia).
  induction (seq 0 (length (timers w))) as [|t l IH]; [done|].
  simpl. rewrite live_append.
  rewrite decide_False by (specialize (Hin t (or_introl eq_refl)); lia).
  rewrite Hq. apply IH. intros t' Ht'. apply Hin. by right.
Qed.
End TimerFacts.

(** ** The controller *)

Section ControllerFacts.
Context `{TK : Toolkit} `{NW : Network}.

Local Arguments String.eqb : simpl never.
Local Arguments stopMessageTimer : simpl never.
Local Arguments setTempMessage : simpl never.
Local Arguments Stop : simpl never.
Local Arguments live : simpl never.
Local Arguments Z.mul : simpl never.

Lemma stopMessageTimer_now m w : now (stopMessageTimer m w) = now w.
Proof. unfold stopMessageTimer. by destruct (messageTimer m). Qed.

Lemma stopMessageTimer_length m w :
  length (timers (stopMessageTimer m w)) = length (timers w).
Proof.
  unfold stopMessageTimer. destruct (messageTimer m); [|done].
  apply length_timers_Stop.
Qed.

Lemma stopMessageTimer_live m w t :
  live (stopMessageTimer m w) t = true -> live w t = true.
Proof.
  unfold stopMessageTimer. destruct (messageTimer m); [|done].
  rewrite live_Stop. by case_decide.
Qed.

(** Once the model's timer is stopped no timer is pending. *)
Lemma stopMessageTimer_quiet w m t :
  timers_ok w m -> live (stopMessageTimer m w) t = false.
Proof.
  intros Hok. destruct (live (stopMessageTimer m w) t) eqn:Hl; [|done].
  pose proof (stopMessageTimer_live _ _ _ Hl) as Hw.
  destruct (Hok t Hw) as [Hm _].
  unfold stopMessageTimer in Hl. rewrite Hm, live_Stop in Hl.
  by rewrite decide_True in Hl.
Qed.

Lemma stopMessageTimer_idem m w :
  stopMessageTimer m (stopMessageTimer m w) = stopMessageTimer m w.
Proof.
  unfold stopMessageTimer. destruct (messageTimer m) as [t|]; [|done].
  unfold Stop. simpl. destruct (timers w !! t) as [tm|] eqn:Et; rewrite ?Et; [|done].
  rewrite list_lookup_insert_eq by (by apply lookup_lt_Some in Et).
  simpl. by rewrite list_insert_insert_eq.
Qed.

(** What [setTempMessage] leaves behind. *)
Lemma setTempMessage_eq style text w m :
  setTempMessage style text w m =
  (mkWorld (now w)
     (timers (stopMessageTimer m w) ++ [mkTimer (now w + 2 * Second) true]),
   set_messageTimer (Some (length (timers w)))
     (set_currentMsgStyle style (set_message text m))).
Proof.
  unfold setTempMessage, AfterFunc.
  change (stopMessageTimer (set_currentMsgStyle style (set_message text m)) w)
    with (stopMessageTimer m w).
  by rewrite stopMessageTimer_now, stopMessageTimer_length.
Qed.

Lemma setTempMessage_timers_ok style text w m :
  (forall t, live (stopMessageTimer m w) t = false) ->
  state m = Viewing ->
  timers_ok (setTempMessage style text w m).1 (setTempMessage style text w m).2.
Proof.
  intros Hq Hs t. rewrite setTempMessage_eq. simpl.
  rewrite live_append, stopMessageTimer_length.
  case_decide as Ht; [by subst|]. by rewrite Hq.
Qed.

(** Case analysis of one step of [Update]. *)
Ltac step_cases :=
  repeat case_match; simplify_eq;
  repeat match goal with
    | H : setTempMessage _ _ _ _ = _ |- _ =>
        rewrite setTempMessage_eq in H; simplify_eq
    end.

Ltac unfold_update :=
  unfold Update, updateViewing, updateAddingEditing, updateDeleting,
    updateHelp, forwardToTable, key_is, index, bind in *.

(** The styles, the address of the service and the credential are
    those the session started with. *)
Lemma Update_settings w m msg w' m' c :
  Update w m msg = Ok (w', m', c) -> settings m' = settings m.
Proof. intros HU. unfold_update. step_cases; done. Qed.

Lemma Update_timers_ok w m msg w' m' c :
  timers_ok w m -> Update w m msg = Ok (w', m', c) -> timers_ok w' m'.
Proof.
  intros Hok HU.
  assert (Hq : forall t, live (stopMessageTimer m w) t = false)
    by (intros t; by apply stopMessageTimer_quiet).
  assert (Hquiet : forall m0, timers_ok (stopMessageTimer m w) m0)
    by (intros m0 t Ht; by rewrite Hq in Ht).
  assert (Hnew : forall n m0, state m0 = Viewing ->
             messageTimer m0 = Some (length (timers w)) ->
             timers_ok (mkWorld n (timers (stopMessageTimer m w)
                                   ++ [mkTimer (n + 2 * Second) true])) m0).
  { intros n m0 Hs Ht t. rewrite live_append, stopMessageTimer_length.
    case_decide as Htt; [by subst|]. by rewrite Hq. }
  unfold_update. step_cases;
    repeat match goal with
      | |- context [stopMessageTimer ?m1 ?w0] =>
          lazymatch m1 with
          | m => fail
          | _ => change (stopMessageTimer m1 w0) with (stopMessageTimer m w0)
          end
      end;
    rewrite ?stopMessageTimer_idem, ?stopMessageTimer_now, ?stopMessageTimer_length;
    try (apply Hquiet); try (apply Hnew; done);
    try (let n := fresh "n" in let Hn := fresh "Hn" in
         intros n Hn; destruct (Hok n Hn) as [? ?]; simpl; split; congruence).
Qed.

Lemma exec_timers_ok w m e w' m' c :
  timers_ok w m -> exec w m e = Ok (w', m', c) -> timers_ok w' m'.
Proof.
  intros Hok He. destruct e as [msg|d|t]; simpl in He.
  - by eapply Update_timers_ok.
  - simplify_eq. destruct (0 <=? d); exact Hok.
  - unfold fire in He. destruct (due w t); [|by simplify_eq].
    eapply Update_timers_ok; [|exact He].
    intros t' Ht'. rewrite live_Stop in Ht'. case_decide; [done|]. by apply Hok.
Qed.

Lemma exec_settings w m e w' m' c :
  exec w m e = Ok (w', m', c) -> settings m' = settings m.
Proof.
  intros He. destruct e as [msg|d|t]; simpl in He.
  - by eapply Update_settings.
  - by simplify_eq.
  - unfold fire in He. destruct (due w t); [|by simplify_eq].
    by eapply Update_settings.
Qed.

Lemma reachable_timers_ok config w m : reachable config w m -> timers_ok w m.
Proof.
  induction 1 as [t0|w m e w' m' c _ IH He].
  - intros t Ht. unfold live in Ht. simpl in Ht. by destruct t.
  - by eapply exec_timers_ok.
Qed.

Lemma reachable_settings config w m :
  reachable config w m -> settings m = settings (initialModel config).
Proof.
  induction 1 as [t0|w m e w' m' c _ IH He]; [done|].
  rewrite <- IH. by eapply exec_settings.
Qed.

(** In every state of a session the error style (the cancel style) is
    not the success style. *)
Lemma reachable_error_style config w m :
  reachable config w m -> cancelStyle m <> successStyle m.
Proof.
  intros Hr. apply reachable_settings in Hr. unfold settings in Hr.
  pose proof (f_equal snd Hr) as Hc.
  pose proof (f_equal (fun x => snd (fst x)) Hr) as Hsu.
  simpl in Hc, Hsu. rewrite Hc, Hsu. discriminate.
Qed.

(** No step of [Update] starts a tick. *)
Lemma Update_ticks w m msg w' m' c :
  Update w m msg = Ok (w', m', c) -> ticks c = 0%nat.
Proof. intros HU. unfold_update. step_cases; done. Qed.

(** C1 (as the code has it): in the main view the timer event asks for a
    fetch and nothing else, the state is left as it is, and no step of
    [Update] ever starts a tick; the only tick of a session is the one
    [Init] starts, 30 seconds long, which delivers one event. *)
Theorem timer_event_not_rearmed w m :
  state m = Viewing ->
  Update w m fetchServersMsg
    = Ok (w, m, fetchServers (apiBaseURL m) (apiToken m))
  /\ ticks (fetchServers (apiBaseURL m) (apiToken m)) = 0%nat
  /\ (forall w0 m0 msg w' m' c,
        Update w0 m0 msg = Ok (w', m', c) -> ticks c = 0%nat)
  /\ Init m = tea_Batch [fetchServers (apiBaseURL m) (apiToken m);
                         tea_Tick (30 * Second) fetchServersMsg].
Proof.
  intros Hs. split; [|split; [done|split; [|done]]].
  - unfold Update. by rewrite Hs.
  - intros *. apply Update_ticks.
Qed.

(** C2 (amended): while the form is open a successful fetch result is
    dropped: the entry list stays as it was, and so do the mode, the
    step, the working entry and the loading flag. *)
Theorem fetch_result_dropped_in_wizard w m fetched :
  in_wizard m = true ->
  exists m' c,
    Update w m (serverMsg fetched) = Ok (w, m', c)
    /\ servers m' = servers m
    /\ state m' = state m
    /\ addingState m' = addingState m
    /\ currentServer m' = currentServer m
    /\ loading m' = loading m.
Proof.
  unfold in_wizard. intros Hw. unfold_update.
  destruct (state m) eqn:Es; try discriminate; simpl;
    destruct (addingState m) eqn:Ea;
    try destruct (textinput_Update _ _) as [ti cmd];
    try destruct (list_Update _ _) as [l cmd];
    eexists _, _; (split; [reflexivity|]); simpl; rewrite ?Es, ?Ea; done.
Qed.

(** C5: in the main view a successful fetch result replaces the entry
    list by the fetched one, clears the loading flag (and the error),
    and installs, in the success style and with an expiry, the message
    that carries the time of the clock. *)
Theorem successful_fetch_replaces_entries w m fetched :
  state m = Viewing ->
  exists w' m' c,
    Update w m (serverMsg fetched) = Ok (w', m', c)
    /\ servers m' = fetched
    /\ loading m' = false
    /\ err m' = None
    /\ message m' = "Inventory refreshed at " +:+ time_Format (now w)
    /\ currentMsgStyle m' = successStyle m
    /\ state m' = Viewing
    /\ messageTimer m' = Some (length (timers w))
    /\ timers w' !! length (timers w) = Some (mkTimer (now w + 2 * Second) true).
Proof.
  intros Hs. unfold_update. rewrite Hs. cbn.
  rewrite setTempMessage_eq.
  destruct (table_Update _ _) as [t cmd].
  eexists _, _, _. split; [reflexivity|]. simpl. rewrite Hs.
  repeat split.
  change (stopMessageTimer _ w) with (stopMessageTimer m w).
  rewrite lookup_app_r; rewrite stopMessageTimer_length; [|done].
  by rewrite Nat.sub_diag.
Qed.

(** *** The form *)

(** A step that ends with the form open leaves the entry list alone and
    issues no create-or-update call. *)
Lemma step_into_wizard w m msg w1 m1 c :
  Update w m msg = Ok (w1, m1, c) ->
  in_wizard m1 = true ->
  servers m1 = servers m /\ emits_upsert c = false.
Proof.
  unfold in_wizard. intros HU Hw. unfold_update.
  step_cases; simpl in *; simplify_eq; first [done|congruence].
Qed.

Lemma wizardRun_frame m cs m2 :
  wizardRun m cs m2 ->
  servers m2 = servers m /\ existsb emits_upsert cs = false
  /\ settings m2 = settings m.
Proof.
  induction 1 as [m|m w msg w1 m1 c cs m2 HU Hw _ (IHs & IHc & IHset)]; [done|].
  destruct (step_into_wizard _ _ _ _ _ _ HU Hw) as [Hs Hc].
  simpl. rewrite Hc, IHc, IHs, IHset, Hs.
  by rewrite (Update_settings _ _ _ _ _ _ HU).
Qed.

(** C7: the form is opened from the main view and any steps are taken
    that leave it open (typing, commits, any other message); escape then
    returns to the main view with the message "Cancelled." in the cancel
    style and with an expiry, the entry list is the one from before the
    form was opened, and none of the commands issued on the way is a
    create-or-update call. *)
Theorem cancel_discards_wizard m0 cs m w k :
  state m0 = Viewing ->
  wizardRun m0 cs m ->
  in_wizard m = true ->
  key_String k = "esc" ->
  exists w' m',
    Update w m (KeyMsg k) = Ok (w', m', nil_Cmd)
    /\ state m' = Viewing
    /\ message m' = "Cancelled."
    /\ currentMsgStyle m' = cancelStyle m0
    /\ messageTimer m' = Some (length (timers w))
    /\ timers w' !! length (timers w) = Some (mkTimer (now w + 2 * Second) true)
    /\ servers m' = servers m0
    /\ existsb emits_upsert (cs ++ [nil_Cmd]) = false.
Proof.
  intros Hs0 Hrun Hw Hk.
  destruct (wizardRun_frame _ _ _ Hrun) as (Hsrv & Hcs & Hset).
  assert (cancelStyle m = cancelStyle m0) as Hstyle.
  { unfold settings in Hset. by pose proof (f_equal snd Hset). }
  unfold in_wizard in Hw. unfold_update. rewrite Hk.
  change ("esc" =? "esc")%string with true.
  assert (forall m1 : model, messageTimer m1 = messageTimer m ->
            (timers (stopMessageTimer m1 (stopMessageTimer m w))
             ++ [mkTimer (now w + 2 * Second) true]) !! length (timers w)
            = Some (mkTimer (now w + 2 * Second) true)) as Htimer.
  { intros m1 Hm1. rewrite lookup_app_r; rewrite !stopMessageTimer_length; [|done].
    by rewrite Nat.sub_diag. }
  destruct (state m) eqn:Es; try discriminate; cbn;
    rewrite setTempMessage_eq;
    (eexists _, _; split; [reflexivity|]); simpl;
    rewrite existsb_app, Hcs, Hsrv, Hstyle, stopMessageTimer_now,
      stopMessageTimer_length;
    (repeat split); by apply Htimer.
Qed.

(** One step that ends with the form open either opens it, at the step
    Name, or keeps step and working entry, or is a commit. *)
Lemma wizard_step w m msg w' m' c :
  Update w m msg = Ok (w', m', c) ->
  in_wizard m' = true ->
  (in_wizard m = false /\ addingState m' = InputName)
  \/ (in_wizard m = true /\ addingState m' = addingState m
      /\ currentServer m' = currentServer m)
  \/ (in_wizard m = true /\ key_is msg "enter" = true
      /\ exists v, liveValue m msg = Some v
         /\ addingState m' = next (addingState m)
         /\ currentServer m' = commit (addingState m) v (currentServer m)).
Proof.
  unfold in_wizard, liveValue. intros HU Hw. unfold_update.
  step_cases; simpl in *; simplify_eq;
    repeat match goal with
      | H : ?x = _ |- context [?x] => rewrite !H
      end; simpl;
    first [ congruence
          | left; done
          | right; left; done
          | right; right; (repeat split; try done); eexists; done ].
Qed.

Lemma initialModel_state config : state (initialModel config) = Viewing.
Proof. done. Qed.

(** Whenever the form is open in a session, the steps since it was
    opened make up a [session]. *)
Lemma reachable_session config w m :
  reachable config w m -> in_wizard m = true -> exists log, session m log.
Proof.
  induction 1 as [t0|w m e w' m' c Hr IH He]; intros Hw.
  - unfold in_wizard in Hw. by rewrite initialModel_state in Hw.
  - assert (forall w0 msg, Update w0 m msg = Ok (w', m', c) ->
              exists log, session m' log) as Hstep.
    { intros w0 msg HU.
      destruct (wizard_step _ _ _ _ _ _ HU Hw)
        as [[Hm _]|[(Hm & Ha & Hc)|(Hm & Hk & v & Hv & Ha & Hc)]].
      - exists []. by eapply session_open.
      - destruct (IH Hm) as [log Hlog]. exists log. by eapply session_keep.
      - destruct (IH Hm) as [log Hlog]. eexists. by eapply session_commit. }
    destruct e as [msg|d|t]; simpl in He.
    + by eapply Hstep.
    + simplify_eq. by apply IH.
    + unfold fire in He. destruct (due w t).
      * by eapply Hstep.
      * simplify_eq. by apply IH.
Qed.

Lemma before_next step :
  step <> Confirm -> before (next step) = before step ++ [step].
Proof. by destruct step. Qed.

Lemma field_commit_same step v s :
  step <> Confirm -> field step (commit step v s) = v.
Proof. by destruct step. Qed.

Lemma field_commit_other step step' v s :
  step' <> step -> field step' (commit step v s) = field step' s.
Proof. by destruct step, step'. Qed.

Lemma before_irrefl step : step ∉ before step.
Proof.
  rewrite list_elem_of_In. destruct step; simpl; intuition discriminate.
Qed.

(** The commits of a session are those of the steps before the present
    one, in the order of the steps, and each committed value is what
    the working entry holds in the field of its step. *)
Lemma session_inv m log :
  session m log ->
  log.*1 = before (addingState m)
  /\ Forall (fun sv => field sv.1 (currentServer m) = sv.2) log.
Proof.
  induction 1 as [w m msg w' m' c Hm HU Hw
                 |w m msg w' m' c log _ [IHl IHf] HU Hw Ha Hc
                 |w m msg w' m' c log v _ [IHl IHf] HU Hw Hk Hv Ha Hc].
  - destruct (wizard_step _ _ _ _ _ _ HU Hw)
      as [[_ Ha]|[(Hm' & _)|(Hm' & _)]]; try congruence.
    by rewrite Ha.
  - by rewrite Ha, Hc.
  - assert (addingState m <> Confirm) as Hnc.
    { intros Heq. unfold liveValue in Hv. by rewrite Heq in Hv. }
    rewrite Ha, Hc, fmap_app, IHl, before_next by done. split; [done|].
    apply Forall_app. split.
    + apply Forall_forall. intros [st v'] Hin.
      rewrite Forall_forall in IHf. specialize (IHf _ Hin). simpl in *.
      rewrite field_commit_other; [done|].
      intros ->. apply (before_irrefl (addingState m)).
      rewrite <- IHl. apply list_elem_of_fmap. by exists (addingState m, v').
    + apply Forall_singleton. simpl. by apply field_commit_same.
Qed.

(** At the step Confirm the four fields of the working entry are the
    four values committed since the form was opened. *)
Lemma confirm_fields m log :
  session m log ->
  addingState m = Confirm ->
  exists v1 v2 v3 v4,
    log = [(InputName, v1); (InputIP, v2); (InputLocation, v3); (InputStatus, v4)]
    /\ currentServer m = mkServer v1 v2 v3 v4 (LastReport (currentServer m)).
Proof.
  intros Hs Ha. destruct (session_inv _ _ Hs) as [Hl Hf]. rewrite Ha in Hl.
  destruct log as [|[s1 v1] [|[s2 v2] [|[s3 v3] [|[s4 v4] [|? ?]]]]];
    simplify_eq/=.
  exists v1, v2, v3, v4. split; [done|].
  repeat match goal with H : Forall _ (_ :: _) |- _ => inversion H; clear H; subst end.
  simpl in *. destruct (currentServer m). simpl in *. by subst.
Qed.

(** A create-or-update call is issued only from the step Confirm of the
    open form, and it carries the working entry. *)
Lemma upsert_only_at_confirm w m msg w' m' c :
  Update w m msg = Ok (w', m', c) ->
  emits_upsert c = true ->
  in_wizard m = true /\ addingState m = Confirm
  /\ c = addOrEditServer (apiBaseURL m) (apiToken m) (currentServer m).
Proof.
  unfold in_wizard. intros HU Hc. unfold_update.
  step_cases; simpl in *; simplify_eq;
    repeat match goal with
      | H : ?x = _ |- context [?x] => rewrite !H
      end; done.
Qed.

(** C8: whenever a session is at the step Confirm, the form has
    committed, since it was opened, a value for each of the four fields
    name, address, location and status, in this order, and they are the
    fields of the working entry; the key y (or Y) then returns to the
    main view with the loading flag set and issues one command, the
    create-or-update call with the working entry; no step of [Update]
    issues a create-or-update call from anywhere else; when the service
    accepts that call, it is followed by one list call and no other. *)
Theorem confirm_submits_committed_entry config w m k :
  reachable config w m ->
  in_wizard m = true ->
  addingState m = Confirm ->
  key_String k = "y" \/ key_String k = "Y" ->
  (exists v1 v2 v3 v4,
     session m [(InputName, v1); (InputIP, v2); (InputLocation, v3);
                (InputStatus, v4)]
     /\ currentServer m = mkServer v1 v2 v3 v4 (LastReport (currentServer m)))
  /\ (exists w' m',
        Update w m (KeyMsg k)
        = Ok (w', m', addOrEditServer (apiBaseURL m) (apiToken m) (currentServer m))
        /\ state m' = Viewing
        /\ loading m' = true)
  /\ (forall w0 m0 msg w' m' c,
        Update w0 m0 msg = Ok (w', m', c) ->
        emits_upsert c = true ->
        in_wizard m0 = true /\ addingState m0 = Confirm
        /\ c = addOrEditServer (apiBaseURL m0) (apiToken m0) (currentServer m0))
  /\ (forall (r r1 : Remote) resp,
        let post :=
          Header_Set "Authorization" ("Bearer " +:+ apiToken m)
            (Header_Set "Content-Type" "application/json"
               (mkRequest "POST" (apiBaseURL m +:+ "/report") []
                  (Some (json_Marshal (currentServer m))))) in
        let get :=
          Header_Set "Authorization" ("Bearer " +:+ apiToken m)
            (mkRequest "GET" (apiBaseURL m +:+ "/inventory") [] None) in
        url_error (apiBaseURL m +:+ "/report") = None ->
        url_error (apiBaseURL m +:+ "/inventory") = None ->
        client_Do r post = (r1, inl resp) ->
        StatusCode resp = StatusOK ->
        exists r2 msg,
          runCmd r (addOrEditServer (apiBaseURL m) (apiToken m) (currentServer m))
          = Some (r2, [post; get], msg)
          /\ run_fetchServers r1 (apiBaseURL m) (apiToken m) = (r2, [get], msg)).
Proof.
  intros Hr Hw Ha Hk. split; [|split; [|split]].
  - destruct (reachable_session _ _ _ Hr Hw) as [log Hlog].
    destruct (confirm_fields _ _ Hlog Ha) as (v1 & v2 & v3 & v4 & -> & Hc).
    by exists v1, v2, v3, v4.
  - unfold in_wizard in Hw. unfold_update. rewrite Ha.
    assert ((key_String k =? "esc")%string = false) as ->
      by (destruct Hk as [-> | ->]; done).
    assert ((key_String k =? "y")%string || (key_String k =? "Y")%string = true) as ->
      by (destruct Hk as [-> | ->]; done).
    destruct (state m) eqn:Es; try discriminate; cbn;
      rewrite setTempMessage_eq; eexists _, _; (split; [reflexivity|done]).
  - intros *. apply upsert_only_at_confirm.
  - intros r r1 resp post get Hu1 Hu2 Hdo Hok.
    unfold runCmd, run_addOrEditServer, http_NewRequest.
    rewrite Hu1. fold post. rewrite Hdo, Hok. simpl.
    unfold run_fetchServers, http_NewRequest. rewrite Hu2. fold get.
    destruct (client_Do r1 get) as [r2 [resp2|e]].
    + destruct (negb (StatusCode resp2 =? StatusOK)); [by eexists _, _|].
      destruct (json_Decode (ResponseBody resp2)); by eexists _, _.
    + by eexists _, _.
Qed.

(** *** The fields the form is opened with *)

(** The step that opens the form, from the main view: the key a opens
    it for a new entry, with the empty working entry; the key e opens it
    on the copy of the row under the cursor. *)
Lemma wizard_opened w m msg w' m' c :
  Update w m msg = Ok (w', m', c) ->
  state m = Viewing ->
  in_wizard m' = true ->
  addingState m' = InputName
  /\ ((state m' = Adding /\ currentServer m' = mkServer "" "" "" "" "")
      \/ (state m' = Editing
          /\ exists name ip location status lastReport rest,
               table_SelectedRow (table m)
               = name :: ip :: location :: status :: lastReport :: rest
               /\ currentServer m'
                  = mkServer name ip location (gostrings.TrimSpace status)
                      lastReport)).
Proof.
  unfold in_wizard. intros HU Hs Hw. unfold_update. rewrite Hs in HU.
  step_cases; simpl in *; simplify_eq; try congruence;
    (split; [done|]); first [ by left | right; split; [done|] ].
  all: destruct (table_SelectedRow (table m))
         as [|c0 [|c1 [|c2 [|c3 [|c4 rest]]]]]; simplify_eq/=.
  all: by eexists _, _, _, _, _, _.
Qed.

(** A step that starts and ends with the form open keeps the mode. *)
Lemma wizard_mode_kept w m msg w' m' c :
  Update w m msg = Ok (w', m', c) ->
  in_wizard m = true ->
  in_wizard m' = true ->
  state m' = state m.
Proof.
  unfold in_wizard. intros HU Hw Hw'. unfold_update.
  step_cases; simpl in *; simplify_eq; congruence.
Qed.

(** While the form is open, a field whose step has not been committed
    holds what the working entry held when the form was opened. *)
Lemma wizardRun_uncommitted prior m cs m2 :
  wizardRun m cs m2 ->
  in_wizard m = true ->
  (forall step, step ∉ before (addingState m) ->
     field step (currentServer m) = field step prior) ->
  state m2 = state m
  /\ forall step, step ∉ before (addingState m2) ->
       field step (currentServer m2) = field step prior.
Proof.
  induction 1 as [m|m w msg w1 m1 c cs m2 HU Hw1 _ IH]; intros Hw Hprior; [done|].
  rewrite <- (wizard_mode_kept _ _ _ _ _ _ HU Hw Hw1).
  apply IH; [done|].
  destruct (wizard_step _ _ _ _ _ _ HU Hw1)
    as [[Hm _]|[(_ & Ha & Hc)|(_ & _ & v & Hv & Ha & Hc)]]; [congruence| |].
  - by rewrite Ha, Hc.
  - assert (addingState m <> Confirm) as Hnc.
    { intros Heq. unfold liveValue in Hv. by rewrite Heq in Hv. }
    intros step Hstep. rewrite Ha, before_next in Hstep by done.
    rewrite Hc, field_commit_other.
    + apply Hprior. intros Hin. apply Hstep. apply elem_of_app. by left.
    + intros ->. apply Hstep. apply elem_of_app. right. by apply list_elem_of_singleton.
Qed.

(** The same for a form that was opened from the main view: in add
    mode the fields not yet committed are empty, in edit mode they are
    the cells of the row that was under the cursor. *)
Lemma wizardRun_prior m0 cs m :
  state m0 = Viewing ->
  wizardRun m0 cs m ->
  in_wizard m = true ->
  (state m = Adding ->
     forall step, step ∉ before (addingState m) ->
       field step (currentServer m) = "")
  /\ (state m = Editing ->
      exists name ip location status lastReport rest,
        table_SelectedRow (table m0)
        = name :: ip :: location :: status :: lastReport :: rest
        /\ forall step, step ∉ before (addingState m) ->
             field step (currentServer m)
             = field step (mkServer name ip location
                             (gostrings.TrimSpace status) lastReport)).
Proof.
  intros Hs0 Hrun Hw.
  inversion Hrun as [|? w msg w1 m1 c cs' ? HU Hw1 Hrest]; subst.
  { unfold in_wizard in Hw. by rewrite Hs0 in Hw. }
  destruct (wizard_opened _ _ _ _ _ _ HU Hs0 Hw1)
    as [Ha [[Hadd Hc]|(Hed & name & ip & loc & st & lr & rest & Hrow & Hc)]].
  - destruct (wizardRun_uncommitted (mkServer "" "" "" "" "") _ _ _ Hrest Hw1)
      as [Hmode Hprior]; [by rewrite Hc|].
    split; [|congruence].
    intros _ step Hstep. rewrite (Hprior step Hstep). by destruct step.
  - destruct (wizardRun_uncommitted
                (mkServer name ip loc (gostrings.TrimSpace st) lr) _ _ _ Hrest Hw1)
      as [Hmode Hprior]; [by rewrite Hc|].
    split; [congruence|].
    intros _. by exists name, ip, loc, st, lr, rest.
Qed.

(** C3 (amended): at the steps Name, Address and Location the enter key
    writes the value of the text field as it is, not trimmed, into the
    field of the step and moves on one step; after Name and Address
    the text field is given the working entry's value of the next
    field, after Location the text field is blurred and the status list
    is left as it was.  In a form opened from the main view the working
    entry's value of a field not yet committed is empty in add mode, and
    in edit mode it is the cell of the row that was under the cursor when
    the form was opened (the status cell trimmed). *)
Theorem enter_commits_text_field w m k :
  in_wizard m = true ->
  key_String k = "enter" ->
  let ti := (textinput_Update (textInput m) (KeyMsg k)).1 in
  let v := textinput_Value ti in
  (addingState m = InputName ->
     exists m', Update w m (KeyMsg k)
                = Ok (stopMessageTimer m w, m', textinput_Blink)
       /\ currentServer m' = set_Name v (currentServer m)
       /\ addingState m' = InputIP
       /\ textInput m' = textinput_SetValue (IP (currentServer m))
                           (textinput_set_Placeholder "IP Address" ti)
       /\ state m' = state m /\ servers m' = servers m)
  /\ (addingState m = InputIP ->
     exists m', Update w m (KeyMsg k)
                = Ok (stopMessageTimer m w, m', textinput_Blink)
       /\ currentServer m' = set_IP v (currentServer m)
       /\ addingState m' = InputLocation
       /\ textInput m' = textinput_SetValue (Location (currentServer m))
                           (textinput_set_Placeholder "Location" ti)
       /\ state m' = state m /\ servers m' = servers m)
  /\ (addingState m = InputLocation ->
     exists m', Update w m (KeyMsg k)
                = Ok (stopMessageTimer m w, m', textinput_Blink)
       /\ currentServer m' = set_Location v (currentServer m)
       /\ addingState m' = InputStatus
       /\ textInput m' = textinput_Blur ti
       /\ statusList m' = statusList m
       /\ state m' = state m /\ servers m' = servers m)
  /\ (forall m0 cs,
        state m0 = Viewing ->
        wizardRun m0 cs m ->
        (state m = Adding ->
           (addingState m = InputName -> IP (currentServer m) = "")
           /\ (addingState m = InputName \/ addingState m = InputIP ->
               Location (currentServer m) = "")
           /\ (addingState m <> Confirm -> Status (currentServer m) = ""))
        /\ (state m = Editing ->
            exists name ip location status lastReport rest,
              table_SelectedRow (table m0)
              = name :: ip :: location :: status :: lastReport :: rest
              /\ (addingState m = InputName -> IP (currentServer m) = ip)
              /\ (addingState m = InputName \/ addingState m = InputIP ->
                  Location (currentServer m) = location)
              /\ (addingState m <> Confirm ->
                  Status (currentServer m) = gostrings.TrimSpace status))).
Proof.
  intros Hw Hk. cbv zeta. split; [|split; [|split]].
  4:{ intros m0 cs Hs0 Hrun.
      destruct (wizardRun_prior _ _ _ Hs0 Hrun Hw) as [Hadd Hedit].
      assert (forall step, addingState m = step ->
                (step = InputName -> InputIP ∉ before (addingState m))
                /\ (step = InputName \/ step = InputIP ->
                    InputLocation ∉ before (addingState m))
                /\ (step <> Confirm -> InputStatus ∉ before (addingState m)))
        as Hnot.
      { intros step ->. rewrite !list_elem_of_In.
        destruct step; simpl; intuition discriminate. }
      destruct (Hnot _ eq_refl) as (Hn1 & Hn2 & Hn3).
      split.
      - intros Hmode. specialize (Hadd Hmode).
        split; [|split]; intros Ha.
        + exact (Hadd InputIP (Hn1 Ha)).
        + exact (Hadd InputLocation (Hn2 Ha)).
        + exact (Hadd InputStatus (Hn3 Ha)).
      - intros Hmode.
        destruct (Hedit Hmode) as (name & ip & loc & st & lr & rest & Hrow & Hprior).
        exists name, ip, loc, st, lr, rest. split; [exact Hrow|].
        split; [|split]; intros Ha.
        + exact (Hprior InputIP (Hn1 Ha)).
        + exact (Hprior InputLocation (Hn2 Ha)).
        + exact (Hprior InputStatus (Hn3 Ha)). }
  all: unfold in_wizard in Hw; unfold_update; rewrite Hk;
    change ("enter" =? "esc")%string with false;
    change ("enter" =? "enter")%string with true;
    destruct (state m) eqn:Es; try discriminate; simpl;
    intros Ea; rewrite Ea;
    destruct (textinput_Update _ _) as [ti cmd]; simpl;
    eexists; (split; [reflexivity|]); simpl; by rewrite ?Es.
Qed.

(** *** Expiry of the message *)

(** A key stops the model's timer; the handler then starts at most one
    new timer. *)
Lemma Update_key_timers w m k w' m' c :
  Update w m (KeyMsg k) = Ok (w', m', c) ->
  exists tail, timers w' = timers (stopMessageTimer m w) ++ tail.
Proof.
  intros HU. unfold_update.
  step_cases;
    repeat match goal with
      | |- context [stopMessageTimer ?m1 ?w0] =>
          lazymatch m1 with
          | m => fail
          | _ => change (stopMessageTimer m1 w0) with (stopMessageTimer m w0)
          end
      end;
    rewrite ?stopMessageTimer_idem;
    first [ by exists []; rewrite app_nil_r | by eexists ].
Qed.

(** C4 (amended): in every state of a session, [setTempMessage]
    installs its message and style, stops the timer that was pending and
    leaves exactly one timer pending, which is due one expiry cycle (two
    seconds) later and not before; any key stops every timer that was
    pending; and when a timer fires the session is in the main view, no
    timer is pending any more, and the clear event resets the style of
    the message to the plain message style while the text of the message
    stays. *)
Theorem message_expiry config w m :
  reachable config w m ->
  (forall style text,
     let w' := (setTempMessage style text w m).1 in
     let m' := (setTempMessage style text w m).2 in
     message m' = text
     /\ currentMsgStyle m' = style
     /\ messageTimer m' = Some (length (timers w))
     /\ pending w' = [length (timers w)]
     /\ forall d, 0 <= d ->
          due (advance d w') (length (timers w)) = (2 * Second <=? d))
  /\ (forall k w' m' c t,
        Update w m (KeyMsg k) = Ok (w', m', c) ->
        In t (pending w) -> live w' t = false)
  /\ (forall t w1 msg,
        fire w t = Some (w1, msg) ->
        state m = Viewing
        /\ msg = clearMessage
        /\ pending w1 = []
        /\ exists m' c,
             Update w1 m msg = Ok (w1, m', c)
             /\ currentMsgStyle m' = messageStyle m
             /\ message m' = message m).
Proof.
  intros Hr. pose proof (reachable_timers_ok _ _ _ Hr) as Hok.
  split; [|split].
  - intros style text. cbv zeta. rewrite setTempMessage_eq. simpl.
    split; [done|]. split; [done|]. split; [done|]. split.
    + rewrite <- (stopMessageTimer_length m w). apply pending_append; [|done].
      intros t. by apply stopMessageTimer_quiet.
    + intros d Hd. unfold due, advance. simpl.
      rewrite lookup_app_r; rewrite stopMessageTimer_length; [|done].
      rewrite Nat.sub_diag. simpl.
      destruct (Z.leb_spec (2 * Second) d), (Z.leb_spec (now w + 2 * Second) (now w + d));
        (done || lia).
  - intros k w' m' c t HU Hin. apply elem_of_pending in Hin.
    destruct (Update_key_timers _ _ _ _ _ _ HU) as [tail Htail].
    pose proof (live_lt _ _ Hin) as Hlt.
    pose proof (stopMessageTimer_quiet _ _ t Hok) as Hq.
    unfold live in *. rewrite Htail, lookup_app_l; [done|].
    by rewrite stopMessageTimer_length.
  - intros t w1 msg Hf. unfold fire in Hf.
    destruct (due w t) eqn:Hdue; [|done]. simplify_eq.
    assert (live w t = true) as Hl.
    { unfold due in Hdue. unfold live. destruct (timers w !! t); [|done].
      by apply andb_true_iff in Hdue as [? _]. }
    destruct (Hok t Hl) as [Hm Hs].
    split; [done|]. split; [done|]. split.
    + apply pending_nil. intros t'. rewrite live_Stop. case_decide; [done|].
      destruct (live w t') eqn:Hl'; [|done].
      destruct (Hok t' Hl') as [Hm' _]. congruence.
    + unfold_update. rewrite Hs. simpl.
      destruct (table_Update _ _) as [tb cmd]. by eexists _, _.
Qed.

(** *** Results of the remote calls *)

Lemma run_fetchServers_result r apiURL apiToken r' reqs msg :
  run_fetchServers r apiURL apiToken = (r', reqs, msg) ->
  (exists fetched, msg = serverMsg fetched) \/ (exists e, msg = errMsg e).
Proof.
  unfold run_fetchServers. intros Hrun.
  repeat case_match; simplify_eq; eauto.
Qed.

(** A network command ends with the fetched entries or with an error. *)
Lemma runCmd_result r c r' reqs msg :
  runCmd r c = Some (r', reqs, msg) ->
  (exists fetched, msg = serverMsg fetched) \/ (exists e, msg = errMsg e).
Proof.
  destruct c; simpl; intros Hrun; simplify_eq.
  - by eapply run_fetchServers_result.
  - unfold run_addOrEditServer in Hrun.
    repeat case_match; simplify_eq; eauto using run_fetchServers_result.
  - unfold run_deleteServer in Hrun.
    repeat case_match; simplify_eq; eauto using run_fetchServers_result.
Qed.

(** The three ways a list call fails: the transport, the status of the
    answer, its body. *)
Lemma fetchServers_failures r apiURL apiToken :
  url_error (apiURL +:+ "/inventory") = None ->
  let req := Header_Set "Authorization" ("Bearer " +:+ apiToken)
               (mkRequest "GET" (apiURL +:+ "/inventory") [] None) in
  (forall r' e, client_Do r req = (r', inr e) ->
     run_fetchServers r apiURL apiToken
     = (r', [req], errMsg ("could not connect to API: " +:+ e)))
  /\ (forall r' resp, client_Do r req = (r', inl resp) ->
        StatusCode resp <> StatusOK ->
        run_fetchServers r apiURL apiToken
        = (r', [req], errMsg ("API request failed with status code "
                              +:+ pretty (StatusCode resp))))
  /\ (forall r' resp e, client_Do r req = (r', inl resp) ->
        StatusCode resp = StatusOK ->
        json_Decode (ResponseBody resp) = inr e ->
        run_fetchServers r apiURL apiToken
        = (r', [req], errMsg ("failed to decode JSON: " +:+ e))).
Proof.
  intros Hu req. unfold run_fetchServers, http_NewRequest. rewrite Hu. fold req.
  repeat split.
  - intros r' e ->. done.
  - intros r' resp -> Hne. by destruct (Z.eqb_spec (StatusCode resp) StatusOK).
  - intros r' resp e -> -> ->. done.
Qed.

(** C6: in the main view of a session, whatever network command has
    failed (its result is not a list of entries), the result is an error
    message, and [Update] clears the loading flag, shows the text of the
    error in the error style, which is the cancel style and differs from
    the success style, stays in the main view and leaves the entry list
    as it was. *)
Theorem failed_call_shows_error config w m r c r' reqs msg :
  reachable config w m ->
  state m = Viewing ->
  runCmd r c = Some (r', reqs, msg) ->
  (forall fetched, msg <> serverMsg fetched) ->
  exists e m' c',
    msg = errMsg e
    /\ Update w m msg = Ok (w, m', c')
    /\ loading m' = false
    /\ message m' = e
    /\ currentMsgStyle m' = cancelStyle m'
    /\ currentMsgStyle m' <> successStyle m'
    /\ state m' = Viewing
    /\ servers m' = servers m.
Proof.
  intros Hr Hs Hrun Hfail.
  destruct (runCmd_result _ _ _ _ _ Hrun) as [[fetched ->]|[e ->]];
    [by destruct (Hfail fetched)|].
  pose proof (reachable_error_style _ _ _ Hr) as Hstyle.
  unfold_update. rewrite Hs. simpl.
  destruct (table_Update _ _) as [tb cmd].
  eexists _, _, _. split; [done|]. split; [reflexivity|]. by simpl.
Qed.

(** *** The table *)

Lemma tableRows_map l : tableRows l = map tableRow l.
Proof.
  unfold tableRows.
  assert (forall acc, foldl (fun rows server => rows ++ [tableRow server]) acc l
                      = acc ++ map tableRow l) as Hgen.
  { induction l as [|s l IH]; intros acc; simpl; [by rewrite app_nil_r|].
    by rewrite IH, <- app_assoc. }
  apply Hgen.
Qed.

(** One row for each entry, in the order of the entries. *)
Lemma tableRows_length l : length (tableRows l) = length l.
Proof. by rewrite tableRows_map, length_map. Qed.

(** The style chosen for a status, when the three styles differ. *)
Lemma statusStyle_spec m server :
  onlineStyle m <> offlineStyle m ->
  onlineStyle m <> otherStyle m ->
  offlineStyle m <> otherStyle m ->
  (statusStyle m server = onlineStyle m <-> Status server = "Online")
  /\ (statusStyle m server = offlineStyle m <-> Status server = "Offline")
  /\ (statusStyle m server = otherStyle m <->
      Status server <> "Online" /\ Status server <> "Offline").
Proof.
  intros H1 H2 H3. unfold statusStyle.
  destruct (String.eqb_spec (Status server) "Online") as [->|Hon];
    [simpl; repeat split; (done || congruence || by intros [? ?])|].
  destruct (String.eqb_spec (Status server) "Offline") as [->|Hoff];
    repeat split; (done || congruence || by intros [? ?]).
Qed.

(** A line of the rendered table that has no vertical bar, or contains
    "Name" or a horizontal bar, is passed on as it is and is not counted
    as the row of an entry. *)
Lemma styleLines_skip m sel i line rest :
  negb (gostrings.Contains line "│") || gostrings.Contains line "Name"
    || gostrings.Contains line "─" = true ->
  styleLines m sel i (line :: rest) = line :: styleLines m sel i rest.
Proof. intros Hskip. simpl. by rewrite Hskip. Qed.

(** When every line of the rendered table is such a line, nothing is
    styled at all, whatever the entries are. *)
Lemma styleLines_all_skipped m sel i lines :
  Forall (fun line =>
            negb (gostrings.Contains line "│") || gostrings.Contains line "Name"
            || gostrings.Contains line "─" = true) lines ->
  styleLines m sel i lines = lines.
Proof.
  induction 1 as [|line rest Hskip _ IH]; [done|].
  by rewrite styleLines_skip, IH.
Qed.

Lemma padStatus_TrimSpace status :
  gostrings.TrimSpace status = status ->
  gostrings.TrimSpace (padStatus status) = status.
Proof.
  intros Hs. unfold padStatus. destruct (_ <? _)%nat; [|done].
  by apply gostrings_facts.TrimSpace_pad.
Qed.

(** C10 (amended): when the row under the cursor is the row built for
    an entry whose status has no white space at its ends, the key e
    opens the form with a working entry equal to that entry, status
    included, whatever the length of the status. *)
Theorem edit_snapshot_is_entry w m k server :
  state m = Viewing ->
  key_String k = "e" ->
  server ∈ servers m ->
  table_SelectedRow (table m) = tableRow server ->
  gostrings.TrimSpace (Status server) = Status server ->
  exists m',
    Update w m (KeyMsg k) = Ok (stopMessageTimer m w, m', textinput_Blink)
    /\ currentServer m' = server
    /\ state m' = Editing
    /\ addingState m' = InputName
    /\ servers m' = servers m.
Proof.
  intros Hs Hk Hin Hrow Htrim. unfold_update. rewrite Hs, Hk. simpl.
  change ("e" =? "ctrl+c")%string with false.
  change ("e" =? "q")%string with false.
  change ("e" =? "r")%string with false.
  change ("e" =? "a")%string with false.
  change ("e" =? "d")%string with false.
  change ("e" =? "e")%string with true.
  simpl. rewrite Hrow.
  destruct (servers m) as [|s0 l] eqn:Hsv; [by apply elem_of_nil in Hin|].
  simpl. rewrite padStatus_TrimSpace by done.
  eexists. split; [reflexivity|]. simpl. by destruct server.
Qed.
(** *** More on the steps of [Update] *)

(** The command of a step, and where it can come from. *)
Lemma Update_command w m msg w' m' c :
  Update w m msg = Ok (w', m', c) ->
  c = nil_Cmd \/ c = textinput_Blink \/ (exists x, c = widget_Cmd x)
  \/ (c = tea_Quit /\ state m = Viewing /\ m' = m
      /\ (key_is msg "ctrl+c" || key_is msg "q") = true)
  \/ (c = fetchServers (apiBaseURL m) (apiToken m) /\ state m = Viewing
      /\ (msg = fetchServersMsg \/ key_is msg "r" = true))
  \/ (c = addOrEditServer (apiBaseURL m) (apiToken m) (currentServer m)
      /\ in_wizard m = true /\ addingState m = Confirm
      /\ (key_is msg "y" || key_is msg "Y") = true)
  \/ (c = deleteServer (apiBaseURL m) (apiToken m) (deleteTarget m)
      /\ state m = Deleting /\ (key_is msg "y" || key_is msg "Y") = true).
Proof.
  unfold in_wizard. intros HU. unfold_update.
  step_cases; simpl;
    repeat match goal with
      | H : ?x = _ |- context [?x] => rewrite !H
      end; simpl;
    first [ by left
          | by right; left
          | by right; right; left; eexists
          | by right; right; right; left
          | right; right; right; right; left; by eauto
          | by right; right; right; right; right; left
          | by right; right; right; right; right; right ].
Qed.

(** What a step leaves as it is: the entry list, unless the step is a
    fetch result in the main view; the mode, unless the step starts in the
    main view or returns to it. *)
Lemma Update_frame w m msg w' m' c :
  Update w m msg = Ok (w', m', c) ->
  (servers m' = servers m \/ (state m = Viewing /\ msg = serverMsg (servers m')))
  /\ (state m' = state m \/ state m' = Viewing \/ state m = Viewing).
Proof.
  intros HU. unfold_update.
  step_cases; simpl;
    repeat match goal with
      | H : ?x = _ |- context [?x] => rewrite !H
      end; simpl; split; eauto.
Qed.

(** A message that is no key changes neither the mode nor the form
    nor the delete target, and outside the main view it changes nothing
    at all but the widgets. *)
Lemma Update_background w m msg w' m' c :
  is_key msg = false ->
  Update w m msg = Ok (w', m', c) ->
  state m' = state m /\ addingState m' = addingState m
  /\ currentServer m' = currentServer m /\ deleteTarget m' = deleteTarget m
  /\ (state m <> Viewing ->
      w' = w /\ servers m' = servers m /\ loading m' = loading m
      /\ message m' = message m /\ err m' = err m
      /\ currentMsgStyle m' = currentMsgStyle m
      /\ messageTimer m' = messageTimer m).
Proof.
  intros Hk HU. unfold_update. destruct msg; try discriminate;
    step_cases; simpl; repeat split; intros; simpl; congruence.
Qed.

(** X1: in the delete confirmation the key y (or Y) returns to the main
    view with the loading flag set and issues the delete call for the
    target, with the message "Deleting server '<target>'..." in the success
    style and with an expiry; the entry list is not touched before the
    service answers. *)
Theorem delete_confirmed w m k :
  state m = Deleting ->
  key_String k = "y" \/ key_String k = "Y" ->
  exists w' m',
    Update w m (KeyMsg k)
    = Ok (w', m', deleteServer (apiBaseURL m) (apiToken m) (deleteTarget m))
    /\ state m' = Viewing
    /\ loading m' = true
    /\ message m' = "Deleting server '" +:+ deleteTarget m +:+ "'..."
    /\ currentMsgStyle m' = successStyle m
    /\ messageTimer m' = Some (length (timers w))
    /\ servers m' = servers m.
Proof.
  intros Hs Hk. unfold_update. rewrite Hs.
  assert ((key_String k =? "y")%string || (key_String k =? "Y")%string = true) as ->
    by (destruct Hk as [-> | ->]; done).
  cbn. rewrite setTempMessage_eq. eexists _, _. split; [reflexivity|].
  simpl. by rewrite stopMessageTimer_length.
Qed.

(** X2: in the delete confirmation the keys n, N and escape return to the
    main view with the message "Deletion cancelled." in the cancel style;
    no command is issued, and entry list and loading flag are as before. *)
Theorem delete_cancelled w m k :
  state m = Deleting ->
  key_String k = "n" \/ key_String k = "N" \/ key_String k = "esc" ->
  exists w' m',
    Update w m (KeyMsg k) = Ok (w', m', nil_Cmd)
    /\ state m' = Viewing
    /\ message m' = "Deletion cancelled."
    /\ currentMsgStyle m' = cancelStyle m
    /\ servers m' = servers m
    /\ loading m' = loading m
    /\ deleteTarget m' = deleteTarget m.
Proof.
  intros Hs Hk. unfold_update. rewrite Hs.
  assert ((key_String k =? "y")%string || (key_String k =? "Y")%string = false) as ->
    by (destruct Hk as [-> | [-> | ->]]; done).
  assert ((key_String k =? "n")%string || (key_String k =? "N")%string
          || (key_String k =? "esc")%string = true) as ->
    by (destruct Hk as [-> | [-> | ->]]; done).
  cbn. rewrite setTempMessage_eq. eexists _, _. split; [reflexivity|]. done.
Qed.

(** X3: the key d in the main view.  With an empty entry list, or with
    no row under the cursor, nothing changes and nothing is issued.
    Otherwise the delete confirmation opens for the first cell of the
    selected row, the message is emptied, and nothing is issued yet. *)
Theorem delete_key_selects_target w m k :
  state m = Viewing ->
  key_String k = "d" ->
  (servers m = [] \/ table_SelectedRow (table m) = [] ->
   Update w m (KeyMsg k) = Ok (stopMessageTimer m w, m, nil_Cmd))
  /\ (forall name rest,
        servers m <> [] ->
        table_SelectedRow (table m) = name :: rest ->
        exists m',
          Update w m (KeyMsg k) = Ok (stopMessageTimer m w, m', nil_Cmd)
          /\ state m' = Deleting
          /\ deleteTarget m' = name
          /\ message m' = ""
          /\ servers m' = servers m).
Proof.
  intros Hs Hk. unfold_update. rewrite Hs, Hk.
  change ("d" =? "ctrl+c")%string with false.
  change ("d" =? "q")%string with false.
  change ("d" =? "r")%string with false.
  change ("d" =? "a")%string with false.
  change ("d" =? "d")%string with true.
  cbn. split.
  - intros [Hnil | Hnil]; rewrite Hnil; [done|].
    by destruct (length (servers m)).
  - intros name rest Hne Hrow. rewrite Hrow.
    destruct (servers m) as [|s0 l] eqn:Hsv; [done|]. cbn.
    eexists. split; [reflexivity|]. done.
Qed.

(** X4: a delete call is issued by no step but the key y (or Y) in the
    delete confirmation, and it names the target that was confirmed. *)
Theorem delete_only_after_confirmation w m msg w' m' c :
  Update w m msg = Ok (w', m', c) ->
  emits_delete c = true ->
  state m = Deleting
  /\ (key_is msg "y" || key_is msg "Y") = true
  /\ c = deleteServer (apiBaseURL m) (apiToken m) (deleteTarget m).
Proof.
  intros HU Hc.
  destruct (Update_command _ _ _ _ _ _ HU)
    as [->|[->|[[x ->]|[(-> & _)|[(-> & _)|[(-> & _)|(-> & Hs & Hk)]]]]]];
    try discriminate.
  done.
Qed.

(** A command of a widget that a step returns is the one the widget
    gave for the message of the step: the table's on a resize and in the
    main view, the text input's at the text steps of the form, the
    status list's at the step Status. *)
Lemma Update_forwarded w m msg w' m' x :
  Update w m msg = Ok (w', m', widget_Cmd x) ->
  ((is_resize msg = true \/ state m = Viewing)
   /\ exists t, x = (table_Update t msg).2)
  \/ (in_wizard m = true
      /\ match addingState m with
         | InputName | InputIP | InputLocation =>
             x = (textinput_Update (textInput m) msg).2
         | InputStatus => x = (list_Update (statusList m) msg).2
         | Confirm => False
         end).
Proof.
  unfold in_wizard. intros HU. unfold_update.
  step_cases; simpl;
    repeat match goal with
      | H : ?x = _ |- context [?x] => rewrite !H
      end; simpl;
    first [ left; split; [by auto|]; eexists;
            match goal with
            | H : table_Update ?t ?msg = (_, ?x) |- ?x = _ => by rewrite H
            end
          | right; done ].
Qed.

(** X5: the program's own code asks the runtime to quit only in the main
    view, for the key q or ctrl+c, and leaves the model as it is.  Any
    other command of a step that quits is a command of a widget, handed
    on as the widget returned it: the table's on a resize and in the main
    view, the text input's at the text steps of the form, the status
    list's at the step Status.  For the key q: the main view quits; the
    delete confirmation, the help view and the step Confirm issue no
    command; at the other steps of the form the command is the answer of
    the live widget to that key. *)
Theorem quit_own_or_forwarded quits w m msg w' m' c :
  Update w m msg = Ok (w', m', c) ->
  (may_quit quits c = true ->
   (c = tea_Quit /\ state m = Viewing /\ m' = m
    /\ (key_is msg "ctrl+c" || key_is msg "q") = true)
   \/ (exists x, c = widget_Cmd x /\ quits x = true
       /\ (((is_resize msg = true \/ state m = Viewing)
            /\ exists t, x = (table_Update t msg).2)
           \/ (in_wizard m = true
               /\ match addingState m with
                  | InputName | InputIP | InputLocation =>
                      x = (textinput_Update (textInput m) msg).2
                  | InputStatus => x = (list_Update (statusList m) msg).2
                  | Confirm => False
                  end))))
  /\ (key_is msg "q" = true ->
      match state m with
      | Viewing => c = tea_Quit
      | Adding | Editing =>
          match addingState m with
          | InputName | InputIP | InputLocation =>
              c = widget_Cmd (textinput_Update (textInput m) msg).2
          | InputStatus => c = widget_Cmd (list_Update (statusList m) msg).2
          | Confirm => c = nil_Cmd
          end
      | Deleting | Help => c = nil_Cmd
      end).
Proof.
  intros HU. split.
  - intros Hq.
    destruct (Update_command _ _ _ _ _ _ HU)
      as [->|[->|[[x ->]|[(-> & ? & ? & ?)|[(-> & _)|[(-> & _)|(-> & _)]]]]]];
      try discriminate.
    + right. exists x. split; [done|]. split; [exact Hq|].
      by apply (Update_forwarded _ _ _ _ _ _ HU).
    + by left.
  - intros Hk. destruct msg as [k| | | | | |]; try discriminate.
    unfold key_is in Hk. apply String.eqb_eq in Hk.
    unfold_update. rewrite Hk in HU.
    change ("q" =? "esc")%string with false in HU.
    change ("q" =? "enter")%string with false in HU.
    change ("q" =? "ctrl+c")%string with false in HU.
    change ("q" =? "q")%string with true in HU.
    change ("q" =? "y")%string with false in HU.
    change ("q" =? "Y")%string with false in HU.
    change ("q" =? "n")%string with false in HU.
    change ("q" =? "N")%string with false in HU.
    simpl in HU.
    destruct (state m); destruct (addingState m); simpl in HU;
      repeat match type of HU with
        | context [textinput_Update ?a ?b] => destruct (textinput_Update a b)
        | context [list_Update ?a ?b] => destruct (list_Update a b)
        end; simpl in *; by simplify_eq.
Qed.

(** X6: a list call is asked for by a step only in the main view, by the
    key r or by the timer event; outside the main view the timer event
    asks for no network call and changes neither the entry list nor the
    loading flag. *)
Theorem fetch_only_from_main_view w m msg w' m' c :
  Update w m msg = Ok (w', m', c) ->
  ((exists apiURL apiToken, c = fetchServers apiURL apiToken) ->
   state m = Viewing /\ (msg = fetchServersMsg \/ key_is msg "r" = true))
  /\ (msg = fetchServersMsg -> state m <> Viewing ->
      endpoint c = None /\ w' = w /\ servers m' = servers m
      /\ loading m' = loading m).
Proof.
  intros HU. split.
  - intros (u & t & ->).
    destruct (Update_command _ _ _ _ _ _ HU)
      as [?|[?|[[x ?]|[(? & _)|[(_ & ? & ?)|[(? & _)|(? & _)]]]]]];
      try discriminate.
    done.
  - intros -> Hs.
    destruct (Update_background w m fetchServersMsg w' m' c eq_refl HU)
      as (_ & _ & _ & _ & Hrest).
    destruct (Hrest Hs) as (-> & Hsv & Hl & _).
    split; [|done].
    destruct (Update_command _ _ _ _ _ _ HU)
      as [->|[->|[[x ->]|[(-> & _)|[(-> & ? & _)|[(-> & ? & ? & Hk)|(-> & ? & Hk)]]]]]];
      try done.
Qed.

(** X7: in a session every network command a step issues is bound to the
    address and the credential of the configuration. *)
Theorem commands_use_configuration config w m msg w' m' c :
  reachable config w m ->
  Update w m msg = Ok (w', m', c) ->
  endpoint c = None
  \/ endpoint c = Some (ApiBaseURL config, ApiToken config).
Proof.
  intros Hr HU. apply reachable_settings in Hr. unfold settings in Hr.
  pose proof (f_equal (fun x => x.1.1.1.1.1.1.1) Hr) as Hb.
  pose proof (f_equal (fun x => x.1.1.1.1.1.1.2) Hr) as Ht.
  simpl in Hb, Ht.
  destruct (Update_command _ _ _ _ _ _ HU)
    as [->|[->|[[x ->]|[(-> & _)|[(-> & _)|[(-> & _)|(-> & _)]]]]]];
    simpl; rewrite ?Hb, ?Ht; auto.
Qed.

(** X8: a message that is not a key (a resize, a fetch result, an error,
    the timer event, the clear event, a widget message) never changes the
    mode, the step of the form, the working entry or the delete target. *)
Theorem background_messages_keep_mode w m msg w' m' c :
  is_key msg = false ->
  Update w m msg = Ok (w', m', c) ->
  state m' = state m
  /\ addingState m' = addingState m
  /\ currentServer m' = currentServer m
  /\ deleteTarget m' = deleteTarget m.
Proof.
  intros Hk HU.
  destruct (Update_background _ _ _ _ _ _ Hk HU) as (? & ? & ? & ? & _). done.
Qed.

(** X9: in the delete confirmation and in the help view every message
    that is neither a key nor a resize (fetch results and errors among
    them) is dropped: model and timers stay as they are and nothing is
    issued. *)
Theorem dialogs_ignore_background_messages w m msg :
  state m = Deleting \/ state m = Help ->
  is_key msg = false ->
  is_resize msg = false ->
  Update w m msg = Ok (w, m, nil_Cmd).
Proof.
  intros [Hs | Hs] Hk Hr; unfold_update; rewrite Hs;
    by destruct msg.
Qed.

(** X10: the entry list changes in one way only, by a fetch result that
    arrives in the main view; no key, no error and no other message
    changes it. *)
Theorem entries_change_only_on_fetch_result w m msg w' m' c :
  Update w m msg = Ok (w', m', c) ->
  servers m' <> servers m ->
  state m = Viewing /\ msg = serverMsg (servers m').
Proof.
  intros HU Hne. destruct (Update_frame _ _ _ _ _ _ HU) as [[?|?] _]; done.
Qed.

(** X11: from the form, the delete confirmation and the help view a step
    either stays in the mode or returns to the main view; no mode other
    than the main view leads to another one. *)
Theorem modes_return_to_main_view w m msg w' m' c :
  Update w m msg = Ok (w', m', c) ->
  state m <> Viewing ->
  state m' = state m \/ state m' = Viewing.
Proof.
  intros HU Hs. destruct (Update_frame _ _ _ _ _ _ HU) as [_ [?|[?|?]]]; auto.
  done.
Qed.

(** X12: while the form stays open its step never goes back: a message
    either keeps step and working entry, or it is the enter key at a
    step before Confirm and moves to the next step. *)
Theorem wizard_step_forward w m msg w' m' c :
  in_wizard m = true ->
  Update w m msg = Ok (w', m', c) ->
  in_wizard m' = true ->
  (addingState m' = addingState m /\ currentServer m' = currentServer m)
  \/ (key_is msg "enter" = true /\ addingState m <> Confirm
      /\ addingState m' = next (addingState m)).
Proof.
  intros Hm HU Hm'.
  destruct (wizard_step _ _ _ _ _ _ HU Hm')
    as [[Hno _]|[(_ & Ha & Hc)|(_ & Hk & v & Hv & Ha & _)]].
  - congruence.
  - by left.
  - right. split; [done|]. split; [|done].
    intros Heq. unfold liveValue in Hv. by rewrite Heq in Hv.
Qed.

(** X13: at the step Status the enter key commits the item the status
    list highlights once it has handled the key, moves to Confirm and
    empties the message; when the list highlights no item the program
    panics. *)
Theorem enter_commits_status w m k :
  in_wizard m = true ->
  addingState m = InputStatus ->
  key_String k = "enter" ->
  let l := (list_Update (statusList m) (KeyMsg k)).1 in
  (forall v, list_SelectedItem l = Some v ->
     exists m' c,
       Update w m (KeyMsg k) = Ok (stopMessageTimer m w, m', c)
       /\ currentServer m' = set_Status v (currentServer m)
       /\ addingState m' = Confirm
       /\ message m' = ""
       /\ statusList m' = l
       /\ state m' = state m /\ servers m' = servers m)
  /\ (list_SelectedItem l = None ->
      exists why, Update w m (KeyMsg k) = Panic why).
Proof.
  unfold in_wizard. intros Hw Ha Hk. unfold_update. rewrite Hk, Ha.
  change ("enter" =? "esc")%string with false.
  change ("enter" =? "enter")%string with true.
  destruct (state m) eqn:Es; try discriminate; cbn;
    destruct (list_Update _ _) as [l cmd]; cbn;
    (split; [intros v Hv; rewrite Hv; eexists _, _; split; [reflexivity|]; cbn;
             by rewrite ?Es
            |intros Hn; rewrite Hn; by eexists]).
Qed.

(** X14: a step panics in two situations only: the key e in the main view
    when the selected row has fewer than the five cells the snapshot
    reads, and the enter key at the step Status when the status list
    highlights no item. *)
Theorem Update_panics_only w m msg why :
  Update w m msg = Panic why ->
  (state m = Viewing /\ key_is msg "e" = true /\ servers m <> []
   /\ (0 < length (table_SelectedRow (table m)) < 5)%nat)
  \/ (in_wizard m = true /\ addingState m = InputStatus
      /\ key_is msg "enter" = true
      /\ list_SelectedItem (list_Update (statusList m) msg).1 = None).
Proof.
  unfold in_wizard. intros HU. unfold_update.
  step_cases; simpl;
    repeat match goal with
      | H : (0 <? _)%nat = true |- _ => apply Nat.ltb_lt in H
      | H : _ !! _ = None |- _ => apply lookup_ge_None in H
      | H : ?x = _ |- context [?x] => rewrite !H
      end; simpl;
    first [ lia
          | left; repeat split;
            first [done | lia | destruct (servers m); simpl in *; [lia|done]]
          | right; done ].
Qed.

(** X15: in a session at most one message timer is pending at any time;
    it is the one the model points to, and the session is then in the
    main view. *)
Theorem at_most_one_timer_pending config w m :
  reachable config w m ->
  (length (pending w) <= 1)%nat
  /\ forall t, In t (pending w) -> messageTimer m = Some t /\ state m = Viewing.
Proof.
  intros Hr. pose proof (reachable_timers_ok _ _ _ Hr) as Hok.
  assert (forall t, In t (pending w) -> messageTimer m = Some t /\ state m = Viewing)
    as Hall by (intros t Ht; apply Hok; by apply elem_of_pending).
  split; [|exact Hall].
  assert (List.NoDup (pending w)) as Hnd
    by (apply List.NoDup_filter, List.seq_NoDup).
  destruct (pending w) as [|a [|b l]]; simpl; [lia|lia|].
  destruct (Hall a (or_introl eq_refl)) as [Ha _].
  destruct (Hall b (or_intror (or_introl eq_refl))) as [Hb _].
  assert (a = b) as -> by congruence.
  inversion Hnd as [|? ? Hnotin _]. destruct Hnotin. by left.
Qed.

(** X16: the help view is a round trip: from the main view the key ?
    opens it and issues nothing, and any key after that, q as well,
    gives back the model of before and issues nothing. *)
Theorem help_round_trip w m k w2 k2 :
  state m = Viewing ->
  key_String k = "?" ->
  exists m1,
    Update w m (KeyMsg k) = Ok (stopMessageTimer m w, m1, nil_Cmd)
    /\ state m1 = Help
    /\ Update w2 m1 (KeyMsg k2) = Ok (stopMessageTimer m w2, m, nil_Cmd).
Proof.
  intros Hs Hk. unfold_update. rewrite Hs, Hk.
  change ("?" =? "ctrl+c")%string with false.
  change ("?" =? "q")%string with false.
  change ("?" =? "r")%string with false.
  change ("?" =? "a")%string with false.
  change ("?" =? "d")%string with false.
  change ("?" =? "e")%string with false.
  change ("?" =? "?")%string with true.
  cbn. eexists. split; [reflexivity|]. split; [done|].
  cbn. do 3 f_equal. destruct m. simpl in *. by subst.
Qed.

(** X17: a manual refresh and its answer.  The key r in the main view sets
    the loading flag, shows "Refreshing data..." and asks for the list
    call without touching the entries; the fetch result that follows
    replaces the entries and clears the flag, an error that follows
    clears the flag and keeps the entries. *)
Theorem refresh_then_result w m k :
  state m = Viewing ->
  key_String k = "r" ->
  exists m1,
    Update w m (KeyMsg k)
    = Ok (stopMessageTimer m w, m1, fetchServers (apiBaseURL m) (apiToken m))
    /\ loading m1 = true
    /\ message m1 = "Refreshing data..."
    /\ servers m1 = servers m
    /\ (forall w1 fetched, exists w2 m2 c2,
          Update w1 m1 (serverMsg fetched) = Ok (w2, m2, c2)
          /\ loading m2 = false /\ servers m2 = fetched /\ state m2 = Viewing)
    /\ (forall w1 e, exists m2 c2,
          Update w1 m1 (errMsg e) = Ok (w1, m2, c2)
          /\ loading m2 = false /\ servers m2 = servers m
          /\ message m2 = e /\ state m2 = Viewing).
Proof.
  intros Hs Hk. unfold_update. rewrite Hs, Hk.
  change ("r" =? "ctrl+c")%string with false.
  change ("r" =? "q")%string with false.
  change ("r" =? "r")%string with true.
  cbn. eexists. split; [reflexivity|]. cbn. rewrite Hs.
  split; [done|]. split; [done|]. split; [done|]. split.
  - intros w1 fetched. cbn. rewrite setTempMessage_eq.
    destruct (table_Update _ _) as [t cmd]. eexists _, _, _.
    split; [reflexivity|]. cbn. by rewrite Hs.
  - intros w1 e. cbn. destruct (table_Update _ _) as [t cmd]. eexists _, _.
    split; [reflexivity|]. cbn. by rewrite Hs.
Qed.

(** *** More on the remote calls *)

Lemma Header_Set_In key value req : In (key, value) (Headers (Header_Set key value req)).
Proof. unfold Header_Set. simpl. apply in_or_app. right. by left. Qed.

Lemma run_fetchServers_requests r apiURL apiToken r' reqs msg :
  run_fetchServers r apiURL apiToken = (r', reqs, msg) ->
  (length reqs <= 1)%nat
  /\ Forall (fun req => In ("Authorization", "Bearer " +:+ apiToken) (Headers req)
                        /\ Method req = "GET"
                        /\ URL req = apiURL +:+ "/inventory") reqs.
Proof.
  unfold run_fetchServers, http_NewRequest. intros Hrun.
  repeat case_match; simplify_eq; simpl; (split; [lia|]);
    repeat constructor; apply Header_Set_In.
Qed.

(** X18: whatever the service answers, a network command sends at most
    two requests, each of them carries the bearer credential of the
    command in its Authorization header, and a second request is always
    the list call. *)
Theorem requests_carry_credential r c r' reqs msg apiURL apiToken :
  runCmd r c = Some (r', reqs, msg) ->
  endpoint c = Some (apiURL, apiToken) ->
  (length reqs <= 2)%nat
  /\ Forall (fun req => In ("Authorization", "Bearer " +:+ apiToken) (Headers req)) reqs
  /\ (forall req, reqs !! 1%nat = Some req ->
        Method req = "GET" /\ URL req = apiURL +:+ "/inventory").
Proof.
  intros Hrun He.
  assert (forall r0 r1 reqs0 msg0,
            run_fetchServers r0 apiURL apiToken = (r1, reqs0, msg0) ->
            (length reqs0 <= 1)%nat
            /\ Forall (fun req => In ("Authorization", "Bearer " +:+ apiToken)
                                    (Headers req)) reqs0
            /\ Forall (fun req => Method req = "GET"
                                  /\ URL req = apiURL +:+ "/inventory") reqs0) as Hf.
  { intros r0 r1 reqs0 msg0 Hr0.
    destruct (run_fetchServers_requests _ _ _ _ _ _ Hr0) as [Hlen Hall].
    split; [done|]. split; eapply Forall_impl; eauto; simpl; tauto. }
  destruct c; simpl in *; simplify_eq.
  - destruct (Hf _ _ _ _ Hrun) as (Hlen & Hall & _).
    split; [lia|]. split; [done|].
    intros req Hreq. apply lookup_lt_Some in Hreq. lia.
  - unfold run_addOrEditServer, http_NewRequest in *.
    repeat case_match; simplify_eq; simpl;
      try (split; [lia|]; split; [repeat constructor; apply Header_Set_In|done]).
    match goal with H : run_fetchServers _ _ _ = _ |- _ =>
      destruct (Hf _ _ _ _ H) as (Hlen & Hall & Hget) end.
    split; [lia|]. split; [constructor; [apply Header_Set_In|done]|].
    intros req Hreq. simpl in Hreq.
    rewrite Forall_forall in Hget. apply Hget. by eapply list_elem_of_lookup_2.
  - unfold run_deleteServer, http_NewRequest in *.
    repeat case_match; simplify_eq; simpl;
      try (split; [lia|]; split; [repeat constructor; apply Header_Set_In|done]).
    match goal with H : run_fetchServers _ _ _ = _ |- _ =>
      destruct (Hf _ _ _ _ H) as (Hlen & Hall & Hget) end.
    split; [lia|]. split; [constructor; [apply Header_Set_In|done]|].
    intros req Hreq. simpl in Hreq.
    rewrite Forall_forall in Hget. apply Hget. by eapply list_elem_of_lookup_2.
Qed.

(** X19: a command whose own URL is rejected sends nothing and ends with
    the error "could not create request: ...". *)
Theorem rejected_url_sends_nothing r c e :
  match c with
  | fetchServers apiURL _ => url_error (apiURL +:+ "/inventory") = Some e
  | addOrEditServer apiURL _ _ => url_error (apiURL +:+ "/report") = Some e
  | deleteServer apiURL _ name =>
      url_error (apiURL +:+ "/delete/" +:+ name) = Some e
  | _ => False
  end ->
  runCmd r c = Some (r, [], errMsg ("could not create request: " +:+ e)).
Proof.
  destruct c; try done; simpl; intros Hu;
    unfold run_fetchServers, run_addOrEditServer, run_deleteServer, http_NewRequest;
    by rewrite Hu.
Qed.

(** X20: the delete call.  When the service answers 200 the list call
    follows, and the result of the command is the result of the list
    call; any other status ends the command with the error
    "API request failed: <body>", a transport error with "failed to send
    request: <error>", and in both cases no list call is sent. *)
Theorem delete_call_outcomes r apiURL apiToken name :
  url_error (apiURL +:+ "/delete/" +:+ name) = None ->
  let del := Header_Set "Authorization" ("Bearer " +:+ apiToken)
               (mkRequest "DELETE" (apiURL +:+ "/delete/" +:+ name) [] None) in
  (forall r1 resp,
     client_Do r del = (r1, inl resp) -> StatusCode resp = StatusOK ->
     exists r2 reqs msg,
       run_fetchServers r1 apiURL apiToken = (r2, reqs, msg)
       /\ runCmd r (deleteServer apiURL apiToken name) = Some (r2, del :: reqs, msg))
  /\ (forall r1 resp,
        client_Do r del = (r1, inl resp) -> StatusCode resp <> StatusOK ->
        runCmd r (deleteServer apiURL apiToken name)
        = Some (r1, [del], errMsg ("API request failed: " +:+ ResponseBody resp)))
  /\ (forall r1 e,
        client_Do r del = (r1, inr e) ->
        runCmd r (deleteServer apiURL apiToken name)
        = Some (r1, [del], errMsg ("failed to send request: " +:+ e))).
Proof.
  intros Hu del. unfold runCmd, run_deleteServer, http_NewRequest.
  rewrite Hu. fold del. repeat split.
  - intros r1 resp -> ->. simpl.
    destruct (run_fetchServers r1 apiURL apiToken) as [[r2 reqs] msg].
    by eexists _, _, _.
  - intros r1 resp -> Hne. by destruct (Z.eqb_spec (StatusCode resp) StatusOK).
  - by intros r1 e ->.
Qed.

(** X21: a create-or-update call that the service does not answer with
    200, or that does not reach it, is the only request of its command: no
    list call follows, and the command ends with the error. *)
Theorem failed_upsert_sends_no_list_call r apiURL apiToken serverData :
  url_error (apiURL +:+ "/report") = None ->
  let post :=
    Header_Set "Authorization" ("Bearer " +:+ apiToken)
      (Header_Set "Content-Type" "application/json"
         (mkRequest "POST" (apiURL +:+ "/report") []
            (Some (json_Marshal serverData)))) in
  (forall r1 resp,
     client_Do r post = (r1, inl resp) -> StatusCode resp <> StatusOK ->
     runCmd r (addOrEditServer apiURL apiToken serverData)
     = Some (r1, [post], errMsg ("API request failed: " +:+ ResponseBody resp)))
  /\ (forall r1 e,
        client_Do r post = (r1, inr e) ->
        runCmd r (addOrEditServer apiURL apiToken serverData)
        = Some (r1, [post], errMsg ("failed to send request: " +:+ e))).
Proof.
  intros Hu post. unfold runCmd, run_addOrEditServer, http_NewRequest.
  rewrite Hu. fold post. split.
  - intros r1 resp -> Hne. by destruct (Z.eqb_spec (StatusCode resp) StatusOK).
  - by intros r1 e ->.
Qed.

(** X22: the list call sends one GET request on /inventory with the
    bearer credential.  Answered with 200 and a body that decodes it
    ends with the decoded entries; a transport error, any other status
    and a body that does not decode end with the errors "could not connect
    to API: ...", "API request failed with status code <code>" and
    "failed to decode JSON: ...". *)
Theorem list_call_outcomes r apiURL apiToken :
  url_error (apiURL +:+ "/inventory") = None ->
  let get := Header_Set "Authorization" ("Bearer " +:+ apiToken)
               (mkRequest "GET" (apiURL +:+ "/inventory") [] None) in
  (forall r1 resp fetched,
     client_Do r get = (r1, inl resp) ->
     StatusCode resp = StatusOK ->
     json_Decode (ResponseBody resp) = inl fetched ->
     runCmd r (fetchServers apiURL apiToken) = Some (r1, [get], serverMsg fetched))
  /\ (forall r1 e,
        client_Do r get = (r1, inr e) ->
        runCmd r (fetchServers apiURL apiToken)
        = Some (r1, [get], errMsg ("could not connect to API: " +:+ e)))
  /\ (forall r1 resp,
        client_Do r get = (r1, inl resp) ->
        StatusCode resp <> StatusOK ->
        runCmd r (fetchServers apiURL apiToken)
        = Some (r1, [get],
                errMsg ("API request failed with status code "
                        +:+ pretty (StatusCode resp))))
  /\ (forall r1 resp e,
        client_Do r get = (r1, inl resp) ->
        StatusCode resp = StatusOK ->
        json_Decode (ResponseBody resp) = inr e ->
        runCmd r (fetchServers apiURL apiToken)
        = Some (r1, [get], errMsg ("failed to decode JSON: " +:+ e))).
Proof.
  intros Hu get. unfold runCmd, run_fetchServers, http_NewRequest.
  rewrite Hu. fold get. repeat split.
  - by intros r1 resp fetched -> -> ->.
  - by intros r1 e ->.
  - intros r1 resp -> Hne. by destruct (Z.eqb_spec (StatusCode resp) StatusOK).
  - by intros r1 resp e -> -> ->.
Qed.

(** *** More on the form and the table *)

(** X23: at the step Confirm the keys n and N close the form as escape
    does, with the message "Cancelled." and without a command; every key
    other than y, Y, n, N and escape leaves the form as it is. *)
Theorem confirm_declined_or_ignored w m k :
  in_wizard m = true ->
  addingState m = Confirm ->
  key_String k <> "y" -> key_String k <> "Y" -> key_String k <> "esc" ->
  (key_String k = "n" \/ key_String k = "N" ->
   exists w' m',
     Update w m (KeyMsg k) = Ok (w', m', nil_Cmd)
     /\ state m' = Viewing /\ message m' = "Cancelled."
     /\ currentMsgStyle m' = cancelStyle m
     /\ servers m' = servers m /\ loading m' = loading m)
  /\ (key_String k <> "n" -> key_String k <> "N" ->
      Update w m (KeyMsg k) = Ok (stopMessageTimer m w, m, nil_Cmd)).
Proof.
  unfold in_wizard. intros Hw Ha Hy HY Hesc. unfold_update. rewrite Ha.
  destruct (String.eqb_spec (key_String k) "esc"); [done|].
  destruct (String.eqb_spec (key_String k) "y"); [done|].
  destruct (String.eqb_spec (key_String k) "Y"); [done|].
  destruct (state m) eqn:Es; try discriminate; cbn; split.
  all: try (intros Hn;
            assert ((key_String k =? "n")%string || (key_String k =? "N")%string = true)
              as -> by (destruct Hn as [-> | ->]; done);
            cbn; rewrite setTempMessage_eq; eexists _, _; split; [reflexivity|]; done).
  all: intros Hn HN;
    destruct (String.eqb_spec (key_String k) "n"); [done|];
    destruct (String.eqb_spec (key_String k) "N"); [done|]; done.
Qed.

(** X24: the key e in the main view with an empty entry list, or with no
    row under the cursor, opens nothing: the key goes to the table as any
    navigation key does, and mode and working entry stay. *)
Theorem edit_key_without_selection w m k :
  state m = Viewing ->
  key_String k = "e" ->
  servers m = [] \/ table_SelectedRow (table m) = [] ->
  Update w m (KeyMsg k)
  = Ok (stopMessageTimer m w,
        set_table (table_Update (table m) (KeyMsg k)).1 m,
        widget_Cmd (table_Update (table m) (KeyMsg k)).2).
Proof.
  intros Hs Hk Hnil. unfold_update. rewrite Hs, Hk.
  change ("e" =? "ctrl+c")%string with false.
  change ("e" =? "q")%string with false.
  change ("e" =? "r")%string with false.
  change ("e" =? "a")%string with false.
  change ("e" =? "d")%string with false.
  change ("e" =? "e")%string with true.
  cbn. destruct (table_Update _ _) as [t cmd]. cbn.
  destruct Hnil as [Hnil | Hnil]; rewrite Hnil; [done|].
  by destruct (length (servers m)).
Qed.

Lemma length_append s t :
  String.length (s +:+ t) = (String.length s + String.length t)%nat.
Proof. induction s as [|c s IH]; [done|]. simpl. by rewrite <- IH. Qed.

Lemma append_empty_r s : s +:+ "" = s.
Proof.
  induction s as [|c s IH]; [done|].
  change (String c s +:+ "") with (String c (s +:+ "")). by rewrite IH.
Qed.

Lemma length_Repeat_blank k : String.length (gostrings.Repeat " " k) = k.
Proof.
  induction k as [|k IH]; [done|].
  change (gostrings.Repeat " " (S k)) with (" " +:+ gostrings.Repeat " " k).
  by rewrite length_append, IH.
Qed.

(** X25: the status cell of a row is the status followed by blanks only,
    it is 12 bytes long or as long as the status when that is longer, and
    padding a padded cell changes nothing. *)
Theorem padStatus_shape status :
  (exists k, padStatus status = status +:+ gostrings.Repeat " " k)
  /\ String.length (padStatus status) = Nat.max 12 (String.length status)
  /\ padStatus (padStatus status) = padStatus status.
Proof.
  unfold padStatus.
  destruct (Nat.ltb_spec (String.length status) 12) as [Hlt|Hge].
  - split; [by eexists|].
    assert (String.length (status +:+ gostrings.Repeat " " (12 - String.length status))
            = 12%nat) as Hlen by (rewrite length_append, length_Repeat_blank; lia).
    split; [rewrite Hlen; lia|].
    rewrite Hlen. done.
  - split.
    + exists 0%nat. simpl. by rewrite append_empty_r.
    + split; [lia|]. destruct (Nat.ltb_spec (String.length status) 12); [lia|done].
Qed.

(** X26: the table is given one row for each entry, in the order of the
    entries, and every row has the five cells name, address, location,
    padded status and last report; [updateTable] hands exactly these rows
    to the table and changes nothing of the model but the table. *)
Theorem table_rows_shape m :
  tableRows (servers m) = map tableRow (servers m)
  /\ length (tableRows (servers m)) = length (servers m)
  /\ Forall (fun row => length row = 5%nat) (tableRows (servers m))
  /\ (exists styles,
        updateTable m
        = set_table
            (table_SetStyles styles
               (table_SetRows (map tableRow (servers m))
                  (table_SetColumns columns (table m)))) m).
Proof.
  rewrite tableRows_map. split; [done|]. split; [by rewrite length_map|]. split.
  - apply Forall_forall. intros row Hin.
    apply list_elem_of_fmap in Hin as [s [-> _]]. done.
  - unfold updateTable. simpl. rewrite tableRows_map. by eexists.
Qed.

(** X27: in every state of a session the style picked for a status is
    the online style exactly for "Online", the offline style exactly for
    "Offline" and the third style for every other status, the empty one
    and differently spelled ones included. *)
Theorem status_style_in_session config w m server :
  reachable config w m ->
  (statusStyle m server = onlineStyle m <-> Status server = "Online")
  /\ (statusStyle m server = offlineStyle m <-> Status server = "Offline")
  /\ (statusStyle m server = otherStyle m <->
      Status server <> "Online" /\ Status server <> "Offline").
Proof.
  intros Hr. apply reachable_settings in Hr. unfold settings in Hr.
  pose proof (f_equal (fun x => x.1.1.1.1.1.2) Hr) as Hon.
  pose proof (f_equal (fun x => x.1.1.1.1.2) Hr) as Hoff.
  pose proof (f_equal (fun x => x.1.1.1.2) Hr) as Hoth.
  simpl in Hon, Hoff, Hoth.
  apply statusStyle_spec; rewrite ?Hon, ?Hoff, ?Hoth; discriminate.
Qed.

(** X28: the styling loop of the main view gives back as many lines as
    the rendered table has; it never drops or adds a line. *)
Theorem styleLines_length m selectedRowIndex serverIndex lines :
  length (styleLines m selectedRowIndex serverIndex lines) = length lines.
Proof.
  revert serverIndex. induction lines as [|line rest IH]; intros i; [done|].
  simpl. destruct (_ || _); simpl; [by rewrite IH|].
  destruct (servers m !! i); simpl; by rewrite IH.
Qed.

(** X29: with an empty entry list the main view is the text "No servers
    in inventory. Press 'a' to add one." and the key legend; the table
    is not drawn, whatever the table model holds. *)
Theorem empty_inventory_view m :
  servers m = [] ->
  viewingView m
  = "No servers in inventory. Press 'a' to add one." +:+ newline +:+ newline
    +:+ Render (messageStyle m)
          "'a' add | 'd' delete | 'e' edit | '?' help | 'q' quit"
  /\ forall t, viewingView (set_table t m) = viewingView m.
Proof.
  intros Hs. unfold viewingView. simpl. by rewrite Hs.
Qed.

Lemma styleLines_ext m1 m2 sel i lines :
  servers m1 = servers m2 ->
  onlineStyle m1 = onlineStyle m2 ->
  offlineStyle m1 = offlineStyle m2 ->
  otherStyle m1 = otherStyle m2 ->
  styleLines m1 sel i lines = styleLines m2 sel i lines.
Proof.
  intros Hs H1 H2 H3. revert i. induction lines as [|line rest IH]; intros i; [done|].
  simpl. rewrite Hs. unfold statusStyle. rewrite H1, H2, H3.
  destruct (_ || _); [by rewrite IH|].
  destruct (servers m2 !! i); by rewrite IH.
Qed.

(** X30: while the loading flag is set the frame shows the spinner line
    in place of the message: neither the text of the message nor its
    style has any influence on the frame, in any mode. *)
Theorem loading_hides_message Placeholder m text style :
  loading m = true ->
  View Placeholder (set_currentMsgStyle style (set_message text m))
  = View Placeholder m.
Proof.
  intros Hl. unfold View, helpView, addingEditingView, viewingView. simpl.
  rewrite Hl.
  rewrite (styleLines_ext (set_currentMsgStyle style (set_message text m)) m)
    by done.
  done.
Qed.
End ControllerFacts.

(** ** The program on concrete sessions *)

Section Concrete.
Local Existing Instance Ref.tea.
Local Existing Instance Ref.toolkit.
Local Existing Instance Ref.network.

Lemma run_reachable config w m evs w' m' cs :
  reachable config w m -> run w m evs = Ok (w', m', cs) -> reachable config w' m'.
Proof.
  intros Hr. revert w m cs Hr. induction evs as [|e evs IH]; intros w m cs Hr Hrun.
  - simpl in Hrun. by simplify_eq.
  - simpl in Hrun. destruct (exec w m e) as [[[w1 m1] c]|] eqn:He; [|done].
    simpl in Hrun. destruct (run w1 m1 evs) as [[[w2 m2] cs2]|] eqn:Hrest; [|done].
    simpl in Hrun. simplify_eq. eapply IH; [|exact Hrest].
    by eapply reachable_step.
Qed.

Lemma after_reachable evs : reachable config0 (after evs).1 (after evs).2.
Proof.
  unfold after.
  destruct (run start (initialModel config0) evs) as [[[w m] cs]|] eqn:Hrun.
  - eapply run_reachable; [apply reachable_init|exact Hrun].
  - apply reachable_init.
Qed.

Lemma deliver_in_wizard_run w m msgs r :
  deliver_in_wizard w m msgs = Some r -> wizardRun m r.2 r.1.
Proof.
  revert w m r. induction msgs as [|msg msgs IH]; intros w m r Hd; simpl in Hd.
  - simplify_eq. constructor.
  - destruct (Update w m msg) as [[[w1 m1] c]|] eqn:HU; [|done].
    destruct (in_wizard m1) eqn:Hw; [|done].
    destruct (deliver_in_wizard w1 m1 msgs) as [[m2 cs2]|] eqn:Hrest; [|done].
    simplify_eq. simpl. eapply wizardRun_step; [exact HU|exact Hw|].
    exact (IH _ _ (m2, cs2) Hrest).
Qed.

Lemma Some_default {A} (o : option A) (d : A) :
  is_Some o -> o = Some (default d o).
Proof. by intros [a ->]. Qed.

(** C1 at the model [main] builds: the timer event in the main view. *)
Lemma timer_event_not_rearmed_witness :
  state (initialModel config0) = Viewing
  /\ Update start (initialModel config0) fetchServersMsg
     = Ok (start, initialModel config0, fetchServers "http://inventory" "secret").
Proof.
  split; [reflexivity|].
  apply (timer_event_not_rearmed start (initialModel config0)). reflexivity.
Defined.

(** C2 (as stated) fails: the form has just been opened on an empty
    inventory; the fetch result with one entry arrives; the entry list
    is still empty. *)
Lemma fetch_in_wizard_keeps_old_entries :
  let m := (after (keys ["a"])).2 in
  in_wizard m = true
  /\ match Update start m (serverMsg [web1]) with
     | Ok (_, m', _) => servers m' = [] /\ servers m' <> [web1]
     | Panic _ => False
     end.
Proof. split; [reflexivity|]. vm_compute. split; [reflexivity|discriminate]. Qed.

(** C2 (amended) at the form just opened with the key a. *)
Lemma fetch_result_dropped_in_wizard_witness :
  let m := (after (keys ["a"])).2 in
  in_wizard m = true
  /\ exists m' c, Update start m (serverMsg [web1]) = Ok (start, m', c)
                  /\ servers m' = servers m.
Proof.
  cbv zeta. split; [reflexivity|].
  destruct (fetch_result_dropped_in_wizard start (after (keys ["a"])).2 [web1] eq_refl)
    as (m' & c & HU & Hs & _).
  exists m', c. split; [exact HU|exact Hs].
Defined.

(** C3 (as stated) fails twice.  The name is typed with a blank before
    and after it: enter commits it with the blanks.  And the entry edge-1,
    whose status is Offline, is edited: enter at the step Location leaves
    the status list where it was, on Online, and not on the status of
    the entry. *)
Lemma enter_commits_blanks :
  let m := (after type_blanks).2 in
  let e := (after edit_edge1).2 in
  addingState m = InputName
  /\ textinput_Value (textInput m) = " edge-1 "
  /\ match Update start m (KeyMsg (key "enter")) with
     | Ok (_, m', _) =>
         Name (currentServer m') = " edge-1 "
         /\ Name (currentServer m') <> gostrings.TrimSpace " edge-1 "
     | Panic _ => False
     end
  /\ state e = Editing
  /\ addingState e = InputLocation
  /\ Status (currentServer e) = "Offline"
  /\ match Update start e (KeyMsg (key "enter")) with
     | Ok (_, e', _) =>
         addingState e' = InputStatus
         /\ Status (currentServer e') = "Offline"
         /\ list_SelectedItem (statusList e') = Some "Online"
         /\ list_SelectedItem (statusList e') <> Some (Status (currentServer e'))
     | Panic _ => False
     end.
Proof.
  split; [reflexivity|]. split; [reflexivity|].
  split; [vm_compute; split; [reflexivity|discriminate]|].
  split; [vm_compute; reflexivity|]. split; [vm_compute; reflexivity|].
  split; [vm_compute; reflexivity|].
  vm_compute. repeat split; discriminate.
Qed.

(** C3 (amended) at the name field holding ' edge-1 ', in a form opened
    with the key a from the model [main] builds. *)
Lemma enter_commits_text_field_witness :
  let m0 := initialModel config0 in
  let r := default (m0, []) (deliver_in_wizard start m0 typing_blanks) in
  in_wizard r.1 = true
  /\ key_String (key "enter") = "enter"
  /\ state m0 = Viewing
  /\ wizardRun m0 r.2 r.1
  /\ state r.1 = Adding
  /\ addingState r.1 = InputName
  /\ (exists m', Update start r.1 (KeyMsg (key "enter"))
                 = Ok (stopMessageTimer r.1 start, m', textinput_Blink)
        /\ addingState m' = InputIP)
  /\ IP (currentServer r.1) = "".
Proof.
  cbv zeta.
  assert (is_Some (deliver_in_wizard start (initialModel config0) typing_blanks))
    as Hsome by (apply (bool_decide_unpack _); vm_compute; exact I).
  pose proof (deliver_in_wizard_run _ _ _ _
                (Some_default _ (initialModel config0, []) Hsome))
    as Hrun.
  assert (in_wizard (default (initialModel config0, [])
                       (deliver_in_wizard start (initialModel config0)
                          typing_blanks)).1 = true)
    as Hw by (vm_compute; reflexivity).
  assert (state (default (initialModel config0, [])
                   (deliver_in_wizard start (initialModel config0)
                      typing_blanks)).1 = Adding)
    as Hmode by (vm_compute; reflexivity).
  assert (addingState (default (initialModel config0, [])
                         (deliver_in_wizard start (initialModel config0)
                            typing_blanks)).1 = InputName)
    as Ha by (vm_compute; reflexivity).
  split; [exact Hw|]. split; [reflexivity|].
  split; [exact (initialModel_state config0)|].
  split; [exact Hrun|]. split; [exact Hmode|]. split; [exact Ha|].
  destruct (enter_commits_text_field start _ (key "enter") Hw eq_refl)
    as (HName & _ & _ & Hprior).
  split.
  - destruct (HName Ha) as (m' & HU & _ & Ha' & _).
    exists m'. split; [exact HU|exact Ha'].
  - destruct (Hprior (initialModel config0) _ (initialModel_state config0) Hrun)
      as [Hadd _].
    destruct (Hadd Hmode) as (Hip & _). exact (Hip Ha).
Defined.

(** C4 (as stated) fails twice.  The message of a fetch is installed at
    midnight with its timer; two seconds later the timer fires: the text
    of the message is still there.  And when an error arrives before the
    two seconds are over, the error message is installed while the timer
    of the message it replaces stays pending; the timer fires and the
    error message loses its style. *)
Lemma message_not_cleared_and_stale_timer :
  let fetch := Deliver (serverMsg [web1]) in
  let expire := [Elapse (2 * Second); Fire 0] in
  message (after [fetch]).2 = "Inventory refreshed at 00:00:00"
  /\ pending (after [fetch]).1 = [0%nat]
  /\ message (after (fetch :: expire)).2 = "Inventory refreshed at 00:00:00"
  /\ pending (after (fetch :: expire)).1 = []
  /\ message (after [fetch; Deliver (errMsg "boom")]).2 = "boom"
  /\ currentMsgStyle (after [fetch; Deliver (errMsg "boom")]).2
     = cancelStyle (initialModel config0)
  /\ pending (after [fetch; Deliver (errMsg "boom")]).1 = [0%nat]
  /\ message (after (fetch :: Deliver (errMsg "boom") :: expire)).2 = "boom"
  /\ currentMsgStyle (after (fetch :: Deliver (errMsg "boom") :: expire)).2
     = messageStyle (initialModel config0).
Proof. vm_compute. repeat split. Qed.

(** C4 (amended) at the main view after a first fetch: a second message
    leaves its own timer pending, the second of the session, and no other. *)
Lemma message_expiry_witness :
  let w := (after [Deliver (serverMsg [web1])]).1 in
  let m := (after [Deliver (serverMsg [web1])]).2 in
  reachable config0 w m
  /\ pending (setTempMessage (cancelStyle m) "Cancelled." w m).1 = [1%nat].
Proof.
  cbv zeta. split; [apply after_reachable|].
  destruct (message_expiry config0 _ _ (after_reachable [Deliver (serverMsg [web1])]))
    as [Hinstall _].
  destruct (Hinstall (cancelStyle (after [Deliver (serverMsg [web1])]).2) "Cancelled.")
    as (_ & _ & _ & Hp & _).
  exact Hp.
Defined.

(** C5 at the model [main] builds and a fetch result of one entry. *)
Lemma successful_fetch_replaces_entries_witness :
  state (initialModel config0) = Viewing
  /\ exists w' m' c,
       Update start (initialModel config0) (serverMsg [web1]) = Ok (w', m', c)
       /\ servers m' = [web1] /\ loading m' = false.
Proof.
  split; [reflexivity|].
  destruct (successful_fetch_replaces_entries start (initialModel config0) [web1] eq_refl)
    as (w' & m' & c & HU & Hs & Hl & _).
  exists w', m', c. split; [exact HU|]. split; [exact Hs|exact Hl].
Defined.

(** C6 at the main view with one entry and a list call that cannot
    reach the service. *)
Lemma failed_call_shows_error_witness :
  let w := (after [Deliver (serverMsg [web1])]).1 in
  let m := (after [Deliver (serverMsg [web1])]).2 in
  let down := service [] false in
  reachable config0 w m
  /\ state m = Viewing
  /\ runCmd down (fetchServers "http://inventory" "secret")
     = Some (down,
             [mkRequest "GET" "http://inventory/inventory"
                [("Authorization", "Bearer secret")] None],
             errMsg "could not connect to API: connection refused")
  /\ exists m' c',
       Update w m (errMsg "could not connect to API: connection refused")
       = Ok (w, m', c')
       /\ servers m' = [web1]
       /\ message m' = "could not connect to API: connection refused".
Proof.
  cbv zeta. split; [apply after_reachable|]. split; [reflexivity|].
  split; [reflexivity|].
  destruct (failed_call_shows_error config0 _ _ (service [] false)
              (fetchServers "http://inventory" "secret") _ _ _
              (after_reachable [Deliver (serverMsg [web1])]) eq_refl eq_refl)
    as (e & m' & c' & He & HU & _ & Hm & _ & _ & _ & Hs).
  { intros fetched. discriminate. }
  injection He as <-. exists m', c'. split; [exact HU|]. split; [exact Hs|exact Hm].
Defined.

(** C7 at the main view with one entry: a, 'edge-1', enter, '1', and
    then escape at the step Address. *)
Lemma cancel_discards_wizard_witness :
  let m0 := (after [Deliver (serverMsg [web1])]).2 in
  let r := default (m0, []) (deliver_in_wizard start m0 typing) in
  state m0 = Viewing
  /\ wizardRun m0 r.2 r.1
  /\ in_wizard r.1 = true
  /\ addingState r.1 = InputIP
  /\ key_String (key "esc") = "esc"
  /\ exists w' m',
       Update start r.1 (KeyMsg (key "esc")) = Ok (w', m', nil_Cmd)
       /\ state m' = Viewing
       /\ message m' = "Cancelled."
       /\ servers m' = [web1].
Proof.
  cbv zeta.
  assert (is_Some (deliver_in_wizard start (after [Deliver (serverMsg [web1])]).2 typing))
    as Hsome by (apply (bool_decide_unpack _); vm_compute; exact I).
  pose proof (deliver_in_wizard_run _ _ _ _
                (Some_default _ ((after [Deliver (serverMsg [web1])]).2, []) Hsome))
    as Hrun.
  assert (state (after [Deliver (serverMsg [web1])]).2 = Viewing) as Hv
    by (vm_compute; reflexivity).
  assert (in_wizard (default ((after [Deliver (serverMsg [web1])]).2, [])
                       (deliver_in_wizard start
                          (after [Deliver (serverMsg [web1])]).2 typing)).1 = true)
    as Hw by (vm_compute; reflexivity).
  split; [exact Hv|]. split; [exact Hrun|]. split; [exact Hw|].
  split; [vm_compute; reflexivity|]. split; [reflexivity|].
  destruct (cancel_discards_wizard _ _ _ start (key "esc") Hv Hrun Hw eq_refl)
    as (w' & m' & HU & Hs & Hm & _ & _ & _ & Hsrv & _).
  exists w', m'. split; [exact HU|]. split; [exact Hs|]. split; [exact Hm|].
  rewrite Hsrv. vm_compute. reflexivity.
Defined.

(** C8 at the form filled in with edge-1, 10.0.0.1, dc-1, Offline. *)
Lemma confirm_submits_committed_entry_witness :
  let w := (after fill_edge1).1 in
  let m := (after fill_edge1).2 in
  reachable config0 w m
  /\ in_wizard m = true
  /\ addingState m = Confirm
  /\ key_String (key "y") = "y"
  /\ session m [(InputName, "edge-1"); (InputIP, "10.0.0.1");
                (InputLocation, "dc-1"); (InputStatus, "Offline")]
  /\ exists w' m',
       Update w m (KeyMsg (key "y"))
       = Ok (w', m', addOrEditServer "http://inventory" "secret" edge1)
       /\ state m' = Viewing /\ loading m' = true.
Proof.
  cbv zeta.
  assert (in_wizard (after fill_edge1).2 = true) as Hw by (vm_compute; reflexivity).
  assert (addingState (after fill_edge1).2 = Confirm) as Ha by (vm_compute; reflexivity).
  assert (currentServer (after fill_edge1).2 = edge1) as Hc by (vm_compute; reflexivity).
  assert (apiBaseURL (after fill_edge1).2 = "http://inventory") as Hb
    by (vm_compute; reflexivity).
  assert (apiToken (after fill_edge1).2 = "secret") as Ht by (vm_compute; reflexivity).
  split; [apply after_reachable|]. split; [exact Hw|]. split; [exact Ha|].
  split; [reflexivity|].
  destruct (confirm_submits_committed_entry config0 _ _ (key "y")
              (after_reachable fill_edge1) Hw Ha (or_introl eq_refl))
    as [(v1 & v2 & v3 & v4 & Hsess & Hcur) [(w' & m' & HU & Hs & Hl) _]].
  rewrite Hc in Hcur. rewrite Hc, Hb, Ht in HU.
  injection Hcur as <- <- <- <-.
  split; [exact Hsess|].
  exists w', m'. split; [exact HU|]. split; [exact Hs|exact Hl].
Defined.

(** The scenario of the specification: a, edge-1, enter, 10.0.0.1,
    enter, dc-1, enter, Offline, enter, y.  One command is issued by
    the last key, the create-or-update call with the entry; run against
    the reference service it sends one POST and then one GET. *)
Example scenario_add_edge1 :
  match run start (initialModel config0) (fill_edge1 ++ keys ["y"]) with
  | Ok (_, m, cs) =>
      state m = Viewing
      /\ List.filter emits_upsert cs
         = [addOrEditServer "http://inventory" "secret" edge1]
      /\ runCmd (service [] true)
           (addOrEditServer "http://inventory" "secret" edge1)
         = Some (service [edge1] true,
                 [mkRequest "POST" "http://inventory/report"
                    [("Content-Type", "application/json");
                     ("Authorization", "Bearer secret")]
                    (Some "edge-1,10.0.0.1,dc-1,Offline,");
                  mkRequest "GET" "http://inventory/inventory"
                    [("Authorization", "Bearer secret")] None],
                 serverMsg [edge1])
  | Panic _ => False
  end.
Proof. vm_compute. repeat split. Qed.

(** C10 (as stated) fails: the status "Online " has 7 bytes, the last a
    blank; the row of the entry is under the cursor; the key e opens the
    form with the status "Online". *)
Lemma edit_drops_blank_of_status :
  let w := (after [Deliver (serverMsg [blank_status])]).1 in
  let m := (after [Deliver (serverMsg [blank_status])]).2 in
  (String.length (Status blank_status) <= 12)%nat
  /\ table_SelectedRow (table m) = tableRow blank_status
  /\ match Update w m (KeyMsg (key "e")) with
     | Ok (_, m', _) =>
         Status (currentServer m') = "Online"
         /\ Status (currentServer m') <> Status blank_status
     | Panic _ => False
     end.
Proof.
  split; [vm_compute; lia|]. split; [reflexivity|].
  vm_compute. split; [reflexivity|discriminate].
Qed.

(** C10 (amended) at the main view with the one entry web-1, Online. *)
Lemma edit_snapshot_is_entry_witness :
  let w := (after [Deliver (serverMsg [web1])]).1 in
  let m := (after [Deliver (serverMsg [web1])]).2 in
  state m = Viewing
  /\ key_String (key "e") = "e"
  /\ web1 ∈ servers m
  /\ table_SelectedRow (table m) = tableRow web1
  /\ gostrings.TrimSpace (Status web1) = Status web1
  /\ exists m', Update w m (KeyMsg (key "e"))
                = Ok (stopMessageTimer m w, m', textinput_Blink)
                /\ currentServer m' = web1.
Proof.
  cbv zeta.
  assert (web1 ∈ servers (after [Deliver (serverMsg [web1])]).2) as Hin
    by (apply list_elem_of_here).
  split; [reflexivity|]. split; [reflexivity|]. split; [exact Hin|].
  split; [reflexivity|]. split; [reflexivity|].
  destruct (edit_snapshot_is_entry (after [Deliver (serverMsg [web1])]).1
              (after [Deliver (serverMsg [web1])]).2 (key "e") web1
              eq_refl eq_refl Hin eq_refl eq_refl) as (m' & HU & Hc & _).
  exists m'. split; [exact HU|exact Hc].
Defined.
(** C9 (the code at a failing input): three entries, the first named
    "NameNode-1" and selected.  The table has one row for each entry,
    but the line of the first entry contains "Name" and is passed over
    as if it were the header: its status Online is not styled, the line
    of the second entry (Offline, odd position, not selected) is matched
    with the first entry and gets neither the negative style nor the
    alternate background, and the line of the third entry (even
    position) is matched with the second and gets the alternate
    background; no status appears in its style in the view. *)
Theorem status_styles_lost_after_name_row :
  let m := (after [Deliver (serverMsg namenode)]).2 in
  let lines := gostrings.Split (table_View (table m)) "010"%char in
  let styled := styleLines m (table_Cursor (table m)) 0 lines in
  servers m = namenode
  /\ table_Cursor (table m) = 0
  /\ length (tableRows (servers m)) = 3%nat
  /\ drop 2 lines = map (Ref.cells columns) (tableRows namenode)
  /\ styled !! 2%nat = lines !! 2%nat
  /\ styled !! 3%nat = lines !! 3%nat
  /\ styled !! 4%nat
     = (Render (Background "236" NewStyle)) <$> (lines !! 4%nat)
  /\ gostrings.Contains (viewingView m) (Render (onlineStyle m) "Online") = false
  /\ gostrings.Contains (viewingView m) (Render (offlineStyle m) "Offline") = false
  /\ gostrings.Contains (viewingView m) (Render (otherStyle m) "Maintenance") = false.
Proof. vm_compute. repeat split. Qed.

(** With names that the loop does not take for the header, the same
    statuses are styled, and the odd row that is not selected gets the
    alternate background. *)
Example status_styles_present :
  let entries := [web1; mkServer "web-2" "10.0.0.4" "dc-1" "Offline" "12:00";
                  mkServer "db-1" "10.0.0.3" "dc-1" "Maintenance" "12:00"] in
  let m := (after [Deliver (serverMsg entries)]).2 in
  let lines := gostrings.Split (table_View (table m)) "010"%char in
  let styled := styleLines m (table_Cursor (table m)) 0 lines in
  styled !! 2%nat
  = (fun l => gostrings.Replace1 l "Online      " (Render (onlineStyle m) "Online"))
      <$> (lines !! 2%nat)
  /\ styled !! 3%nat
     = (fun l => Render (Background "236" NewStyle)
                   (gostrings.Replace1 l "Offline     "
                      (Render (offlineStyle m) "Offline")))
         <$> (lines !! 3%nat)
  /\ styled !! 4%nat
     = (fun l => gostrings.Replace1 l "Maintenance "
                   (Render (otherStyle m) "Maintenance"))
         <$> (lines !! 4%nat)
  /\ gostrings.Contains (viewingView m) (Render (onlineStyle m) "Online") = true.
Proof. vm_compute. repeat split. Qed.
(** *** More concrete sessions *)

Lemma Ok_outcome {A B C} (d : A * B * C) (r : result (A * B * C)) :
  is_ok r = true -> r = Ok ((outcome d r).1.1, (outcome d r).1.2, (outcome d r).2).
Proof. by destruct r as [[[a b] c]|]. Qed.

Lemma Panic_reason {A} (r : result A) : is_ok r = false -> r = Panic (reason r).
Proof. by destruct r. Qed.

(** The step whose outcome the goal mentions went through. *)
Ltac step_went_through HU :=
  match goal with
  | |- context [outcome ?d (Update ?w ?m ?msg)] =>
      let Hok := fresh "Hok" in
      assert (is_ok (Update w m msg) = true) as Hok by (vm_compute; reflexivity);
      pose proof (Ok_outcome d (Update w m msg) Hok) as HU;
      clear Hok
  end.

(** X1 at the delete confirmation for web-1. *)
Lemma delete_confirmed_witness :
  state deleting.2 = Deleting
  /\ key_String (key "y") = "y"
  /\ exists w' m',
       Update deleting.1 deleting.2 (KeyMsg (key "y"))
       = Ok (w', m', deleteServer "http://inventory" "secret" "web-1")
       /\ state m' = Viewing /\ loading m' = true
       /\ message m' = "Deleting server 'web-1'...".
Proof.
  assert (state deleting.2 = Deleting) as Hs by (vm_compute; reflexivity).
  assert (apiBaseURL deleting.2 = "http://inventory") as Hb by (vm_compute; reflexivity).
  assert (apiToken deleting.2 = "secret") as Ht by (vm_compute; reflexivity).
  assert (deleteTarget deleting.2 = "web-1") as Hd by (vm_compute; reflexivity).
  split; [exact Hs|]. split; [reflexivity|].
  destruct (delete_confirmed deleting.1 deleting.2 (key "y") Hs (or_introl eq_refl))
    as (w' & m' & HU & Hv & Hl & Hm & _).
  rewrite Hb, Ht, Hd in HU. rewrite Hd in Hm.
  exists w', m'. split; [exact HU|]. split; [exact Hv|]. split; [exact Hl|exact Hm].
Defined.

(** X2 at the delete confirmation for web-1, with the key n. *)
Lemma delete_cancelled_witness :
  state deleting.2 = Deleting
  /\ key_String (key "n") = "n"
  /\ exists w' m',
       Update deleting.1 deleting.2 (KeyMsg (key "n")) = Ok (w', m', nil_Cmd)
       /\ state m' = Viewing /\ message m' = "Deletion cancelled."
       /\ servers m' = [web1].
Proof.
  assert (state deleting.2 = Deleting) as Hs by (vm_compute; reflexivity).
  assert (servers deleting.2 = [web1]) as Hsv by (vm_compute; reflexivity).
  split; [exact Hs|]. split; [reflexivity|].
  destruct (delete_cancelled deleting.1 deleting.2 (key "n") Hs (or_introl eq_refl))
    as (w' & m' & HU & Hv & Hm & _ & Hsrv & _).
  rewrite Hsv in Hsrv.
  exists w', m'. split; [exact HU|]. split; [exact Hv|]. split; [exact Hm|exact Hsrv].
Defined.

(** X3 at the main view with the entry web-1 under the cursor. *)
Lemma delete_key_selects_target_witness :
  state browsing.2 = Viewing
  /\ key_String (key "d") = "d"
  /\ servers browsing.2 <> []
  /\ table_SelectedRow (table browsing.2) = "web-1" :: tl (tableRow web1)
  /\ exists m',
       Update browsing.1 browsing.2 (KeyMsg (key "d"))
       = Ok (stopMessageTimer browsing.2 browsing.1, m', nil_Cmd)
       /\ state m' = Deleting /\ deleteTarget m' = "web-1".
Proof.
  assert (state browsing.2 = Viewing) as Hs by (vm_compute; reflexivity).
  assert (servers browsing.2 <> []) as Hne by (vm_compute; discriminate).
  assert (table_SelectedRow (table browsing.2) = "web-1" :: tl (tableRow web1)) as Hrow
    by (vm_compute; reflexivity).
  split; [exact Hs|]. split; [reflexivity|]. split; [exact Hne|]. split; [exact Hrow|].
  destruct (delete_key_selects_target browsing.1 browsing.2 (key "d") Hs eq_refl)
    as [_ Hsel].
  destruct (Hsel _ _ Hne Hrow) as (m' & HU & Hd & Ht & _).
  exists m'. split; [exact HU|]. split; [exact Hd|exact Ht].
Defined.

(** X4 at the delete confirmation for web-1, with the key y. *)
Lemma delete_only_after_confirmation_witness :
  let r := outcome (deleting.1, deleting.2, nil_Cmd)
             (Update deleting.1 deleting.2 (KeyMsg (key "y"))) in
  Update deleting.1 deleting.2 (KeyMsg (key "y")) = Ok (r.1.1, r.1.2, r.2)
  /\ emits_delete r.2 = true
  /\ state deleting.2 = Deleting.
Proof.
  cbv zeta. step_went_through HU.
  assert (emits_delete
            (outcome (deleting.1, deleting.2, nil_Cmd)
               (Update deleting.1 deleting.2 (KeyMsg (key "y")))).2 = true) as He
    by (vm_compute; reflexivity).
  split; [exact HU|]. split; [exact He|].
  destruct (delete_only_after_confirmation _ _ _ _ _ _ HU He) as (Hs & _).
  exact Hs.
Defined.

(** X5 at the step Status of the form, with the key q: the command is
    the one the status list returned, and it quits if the commands of the
    list do. *)
Lemma quit_own_or_forwarded_witness :
  let r := outcome (choosing.1, choosing.2, nil_Cmd)
             (Update choosing.1 choosing.2 (KeyMsg (key "q"))) in
  Update choosing.1 choosing.2 (KeyMsg (key "q")) = Ok (r.1.1, r.1.2, r.2)
  /\ state choosing.2 = Adding
  /\ addingState choosing.2 = InputStatus
  /\ r.2 = widget_Cmd (list_Update (statusList choosing.2) (KeyMsg (key "q"))).2
  /\ may_quit (fun _ => true) r.2 = true
  /\ exists x, r.2 = widget_Cmd x.
Proof.
  cbv zeta. step_went_through HU.
  assert (state choosing.2 = Adding) as Hs by (vm_compute; reflexivity).
  assert (addingState choosing.2 = InputStatus) as Ha by (vm_compute; reflexivity).
  assert (may_quit (fun _ => true)
            (outcome (choosing.1, choosing.2, nil_Cmd)
               (Update choosing.1 choosing.2 (KeyMsg (key "q")))).2 = true) as Hm
    by (vm_compute; reflexivity).
  split; [exact HU|]. split; [exact Hs|]. split; [exact Ha|].
  destruct (quit_own_or_forwarded (fun _ => true) _ _ _ _ _ _ HU) as [Hsrc Hq].
  split; [specialize (Hq eq_refl); rewrite Hs, Ha in Hq; exact Hq|].
  split; [exact Hm|].
  destruct (Hsrc Hm) as [(Hc & Hv & _)|(x & Hc & _)].
  - rewrite Hs in Hv. discriminate Hv.
  - exists x. exact Hc.
Defined.

(** X6 at the delete confirmation, when the timer event arrives. *)
Lemma fetch_only_from_main_view_witness :
  let r := outcome (deleting.1, deleting.2, nil_Cmd)
             (Update deleting.1 deleting.2 fetchServersMsg) in
  Update deleting.1 deleting.2 fetchServersMsg = Ok (r.1.1, r.1.2, r.2)
  /\ state deleting.2 <> Viewing
  /\ endpoint r.2 = None
  /\ loading r.1.2 = loading deleting.2.
Proof.
  cbv zeta. step_went_through HU.
  assert (state deleting.2 <> Viewing) as Hs by (vm_compute; discriminate).
  split; [exact HU|]. split; [exact Hs|].
  destruct (fetch_only_from_main_view _ _ _ _ _ _ HU) as [_ Hdrop].
  destruct (Hdrop eq_refl Hs) as (He & _ & _ & Hl).
  split; [exact He|exact Hl].
Defined.

(** X7 at the main view, with the key r. *)
Lemma commands_use_configuration_witness :
  let w := (after [Deliver (serverMsg [web1])]).1 in
  let m := (after [Deliver (serverMsg [web1])]).2 in
  let r := outcome (w, m, nil_Cmd) (Update w m (KeyMsg (key "r"))) in
  reachable config0 w m
  /\ Update w m (KeyMsg (key "r")) = Ok (r.1.1, r.1.2, r.2)
  /\ endpoint r.2 = Some ("http://inventory", "secret").
Proof.
  cbv zeta. step_went_through HU.
  pose proof (after_reachable [Deliver (serverMsg [web1])]) as Hr.
  split; [exact Hr|]. split; [exact HU|].
  destruct (commands_use_configuration config0 _ _ _ _ _ _ Hr HU) as [Hn|Hc].
  - exfalso. revert Hn. vm_compute. discriminate.
  - exact Hc.
Defined.

(** X8 at the form filled in up to Confirm, when a fetch result arrives. *)
Lemma background_messages_keep_mode_witness :
  let w := (after fill_edge1).1 in
  let m := (after fill_edge1).2 in
  let r := outcome (w, m, nil_Cmd) (Update w m (serverMsg [web1])) in
  is_key (serverMsg [web1]) = false
  /\ Update w m (serverMsg [web1]) = Ok (r.1.1, r.1.2, r.2)
  /\ state r.1.2 = state m
  /\ addingState r.1.2 = addingState m
  /\ currentServer r.1.2 = currentServer m.
Proof.
  cbv zeta. step_went_through HU.
  split; [reflexivity|]. split; [exact HU|].
  destruct (background_messages_keep_mode _ _ (serverMsg [web1]) _ _ _ eq_refl HU)
    as (Hs & Ha & Hc & _).
  split; [exact Hs|]. split; [exact Ha|exact Hc].
Defined.

(** X9 at the help view, when an error arrives. *)
Lemma dialogs_ignore_background_messages_witness :
  state helping.2 = Help
  /\ is_key (errMsg "boom") = false
  /\ is_resize (errMsg "boom") = false
  /\ Update helping.1 helping.2 (errMsg "boom") = Ok (helping.1, helping.2, nil_Cmd).
Proof.
  assert (state helping.2 = Help) as Hs by (vm_compute; reflexivity).
  split; [exact Hs|]. split; [reflexivity|]. split; [reflexivity|].
  exact (dialogs_ignore_background_messages helping.1 helping.2 (errMsg "boom")
           (or_intror Hs) eq_refl eq_refl).
Defined.

(** X10 at the start of the session, when the first fetch result arrives. *)
Lemma entries_change_only_on_fetch_result_witness :
  let m := initialModel config0 in
  let r := outcome (start, m, nil_Cmd) (Update start m (serverMsg [web1])) in
  Update start m (serverMsg [web1]) = Ok (r.1.1, r.1.2, r.2)
  /\ servers r.1.2 <> servers m
  /\ state m = Viewing
  /\ serverMsg [web1] = serverMsg (servers r.1.2).
Proof.
  cbv zeta. step_went_through HU.
  assert (servers (outcome (start, initialModel config0, nil_Cmd)
                     (Update start (initialModel config0) (serverMsg [web1]))).1.2
          <> servers (initialModel config0)) as Hne by (vm_compute; discriminate).
  split; [exact HU|]. split; [exact Hne|].
  exact (entries_change_only_on_fetch_result _ _ _ _ _ _ HU Hne).
Defined.

(** X11 at the form at the step Confirm, with the key n. *)
Lemma modes_return_to_main_view_witness :
  let w := (after fill_edge1).1 in
  let m := (after fill_edge1).2 in
  let r := outcome (w, m, nil_Cmd) (Update w m (KeyMsg (key "n"))) in
  Update w m (KeyMsg (key "n")) = Ok (r.1.1, r.1.2, r.2)
  /\ state m <> Viewing
  /\ (state r.1.2 = state m \/ state r.1.2 = Viewing).
Proof.
  cbv zeta. step_went_through HU.
  assert (state (after fill_edge1).2 <> Viewing) as Hs by (vm_compute; discriminate).
  split; [exact HU|]. split; [exact Hs|].
  exact (modes_return_to_main_view _ _ _ _ _ _ HU Hs).
Defined.

(** X12 at the name field holding " edge-1 ", with the enter key. *)
Lemma wizard_step_forward_witness :
  let w := (after type_blanks).1 in
  let m := (after type_blanks).2 in
  let r := outcome (w, m, nil_Cmd) (Update w m (KeyMsg (key "enter"))) in
  in_wizard m = true
  /\ Update w m (KeyMsg (key "enter")) = Ok (r.1.1, r.1.2, r.2)
  /\ in_wizard r.1.2 = true
  /\ addingState r.1.2 = InputIP.
Proof.
  cbv zeta. step_went_through HU.
  assert (in_wizard (after type_blanks).2 = true) as Hm by (vm_compute; reflexivity).
  assert (in_wizard (outcome ((after type_blanks).1, (after type_blanks).2, nil_Cmd)
                       (Update (after type_blanks).1 (after type_blanks).2
                          (KeyMsg (key "enter")))).1.2 = true) as Hm'
    by (vm_compute; reflexivity).
  split; [exact Hm|]. split; [exact HU|]. split; [exact Hm'|].
  destruct (wizard_step_forward _ _ _ _ _ _ Hm HU Hm') as [[Ha _]|(_ & _ & Ha)].
  - exfalso. revert Ha. vm_compute. discriminate.
  - rewrite Ha. vm_compute. reflexivity.
Defined.

(** X13 at the step Status of a new entry, the list highlighting Online. *)
Lemma enter_commits_status_witness :
  let w := (after (keys ["a"; "enter"; "enter"; "enter"])).1 in
  let m := (after (keys ["a"; "enter"; "enter"; "enter"])).2 in
  in_wizard m = true
  /\ addingState m = InputStatus
  /\ key_String (key "enter") = "enter"
  /\ list_SelectedItem (list_Update (statusList m) (KeyMsg (key "enter"))).1
     = Some "Online"
  /\ exists m' c,
       Update w m (KeyMsg (key "enter")) = Ok (stopMessageTimer m w, m', c)
       /\ Status (currentServer m') = "Online"
       /\ addingState m' = Confirm.
Proof.
  cbv zeta.
  assert (in_wizard (after (keys ["a"; "enter"; "enter"; "enter"])).2 = true) as Hw
    by (vm_compute; reflexivity).
  assert (addingState (after (keys ["a"; "enter"; "enter"; "enter"])).2 = InputStatus)
    as Ha by (vm_compute; reflexivity).
  assert (list_SelectedItem
            (list_Update (statusList (after (keys ["a"; "enter"; "enter"; "enter"])).2)
               (KeyMsg (key "enter"))).1 = Some "Online") as Hsel
    by (vm_compute; reflexivity).
  split; [exact Hw|]. split; [exact Ha|]. split; [reflexivity|]. split; [exact Hsel|].
  destruct (enter_commits_status (after (keys ["a"; "enter"; "enter"; "enter"])).1
              _ (key "enter") Hw Ha eq_refl) as [Hsome _].
  destruct (Hsome "Online" Hsel) as (m' & c & HU & Hc & Ha' & _).
  exists m', c. split; [exact HU|]. split; [|exact Ha'].
  rewrite Hc. reflexivity.
Defined.

(** X14 at the step Status with a status list that has no item. *)
Lemma Update_panics_only_witness :
  Update start stuck_status (KeyMsg (key "enter"))
  = Panic "interface conversion: interface is nil, not statusItem"
  /\ in_wizard stuck_status = true
  /\ addingState stuck_status = InputStatus.
Proof.
  assert (is_ok (Update start stuck_status (KeyMsg (key "enter"))) = false) as Hno
    by (vm_compute; reflexivity).
  pose proof (Panic_reason _ Hno) as HU.
  assert (reason (Update start stuck_status (KeyMsg (key "enter")))
          = "interface conversion: interface is nil, not statusItem") as Hwhy
    by (vm_compute; reflexivity).
  rewrite Hwhy in HU. split; [exact HU|].
  destruct (Update_panics_only _ _ _ _ HU) as [(Hs & _)|(Hw & Ha & _)].
  - exfalso. revert Hs. vm_compute. discriminate.
  - split; [exact Hw|exact Ha].
Defined.

(** X15 at the main view after the first fetch result, its message timer
    pending. *)
Lemma at_most_one_timer_pending_witness :
  let w := (after [Deliver (serverMsg [web1])]).1 in
  let m := (after [Deliver (serverMsg [web1])]).2 in
  reachable config0 w m
  /\ pending w = [0%nat]
  /\ (length (pending w) <= 1)%nat.
Proof.
  cbv zeta.
  pose proof (after_reachable [Deliver (serverMsg [web1])]) as Hr.
  split; [exact Hr|]. split; [vm_compute; reflexivity|].
  destruct (at_most_one_timer_pending config0 _ _ Hr) as [Hlen _]. exact Hlen.
Defined.

(** X16 at the start of the session: the key ? and then the key q. *)
Lemma help_round_trip_witness :
  state (initialModel config0) = Viewing
  /\ key_String (key "?") = "?"
  /\ exists m1,
       Update start (initialModel config0) (KeyMsg (key "?"))
       = Ok (stopMessageTimer (initialModel config0) start, m1, nil_Cmd)
       /\ state m1 = Help
       /\ Update start m1 (KeyMsg (key "q"))
          = Ok (stopMessageTimer (initialModel config0) start,
                initialModel config0, nil_Cmd).
Proof.
  split; [reflexivity|]. split; [reflexivity|].
  exact (help_round_trip start (initialModel config0) (key "?") start (key "q")
           eq_refl eq_refl).
Defined.

(** X17 at the start of the session, with the key r. *)
Lemma refresh_then_result_witness :
  state (initialModel config0) = Viewing
  /\ key_String (key "r") = "r"
  /\ exists m1,
       Update start (initialModel config0) (KeyMsg (key "r"))
       = Ok (stopMessageTimer (initialModel config0) start, m1,
             fetchServers "http://inventory" "secret")
       /\ loading m1 = true
       /\ exists w2 m2 c2,
            Update start m1 (serverMsg [web1]) = Ok (w2, m2, c2)
            /\ loading m2 = false /\ servers m2 = [web1].
Proof.
  split; [reflexivity|]. split; [reflexivity|].
  destruct (refresh_then_result start (initialModel config0) (key "r") eq_refl eq_refl)
    as (m1 & HU & Hl & _ & _ & Hok & _).
  exists m1. split; [exact HU|]. split; [exact Hl|].
  destruct (Hok start [web1]) as (w2 & m2 & c2 & HU2 & Hl2 & Hs2 & _).
  exists w2, m2, c2. split; [exact HU2|]. split; [exact Hl2|exact Hs2].
Defined.

(** X18 at the create-or-update call for edge-1 against the reference
    service. *)
Lemma requests_carry_credential_witness :
  let post := mkRequest "POST" "http://inventory/report"
                [("Content-Type", "application/json");
                 ("Authorization", "Bearer secret")]
                (Some "edge-1,10.0.0.1,dc-1,Offline,") in
  let get := mkRequest "GET" "http://inventory/inventory"
               [("Authorization", "Bearer secret")] None in
  runCmd (service [] true) (addOrEditServer "http://inventory" "secret" edge1)
  = Some (service [edge1] true, [post; get], serverMsg [edge1])
  /\ endpoint (addOrEditServer "http://inventory" "secret" edge1)
     = Some ("http://inventory", "secret")
  /\ Forall (fun req => In ("Authorization", "Bearer " +:+ "secret") (Headers req))
       [post; get].
Proof.
  cbv zeta.
  assert (runCmd (service [] true) (addOrEditServer "http://inventory" "secret" edge1)
          = Some (service [edge1] true,
                  [mkRequest "POST" "http://inventory/report"
                     [("Content-Type", "application/json");
                      ("Authorization", "Bearer secret")]
                     (Some "edge-1,10.0.0.1,dc-1,Offline,");
                   mkRequest "GET" "http://inventory/inventory"
                     [("Authorization", "Bearer secret")] None],
                  serverMsg [edge1])) as Hrun by (vm_compute; reflexivity).
  split; [exact Hrun|]. split; [reflexivity|].
  destruct (requests_carry_credential _ _ _ _ _ _ _ Hrun eq_refl) as (_ & Hall & _).
  exact Hall.
Defined.

(** X19 at the delete call for a name with a tab in it, behind the URL
    parser that rejects control characters. *)
Lemma rejected_url_sends_nothing_witness :
  @url_error picky ("http://inventory" +:+ "/delete/" +:+ tabbed)
  = Some "invalid control character in URL"
  /\ @runCmd Ref.tea picky (service [web1] true)
       (deleteServer "http://inventory" "secret" tabbed)
     = Some (service [web1] true, [],
             errMsg ("could not create request: "
                     +:+ "invalid control character in URL")).
Proof.
  assert (@url_error picky ("http://inventory" +:+ "/delete/" +:+ tabbed)
          = Some "invalid control character in URL") as Hu
    by (vm_compute; reflexivity).
  split; [exact Hu|].
  exact (rejected_url_sends_nothing (NW := picky) (service [web1] true)
           (deleteServer "http://inventory" "secret" tabbed)
           "invalid control character in URL" Hu).
Defined.

(** X20 at the delete call for web-1 against the reference service, which
    answers every DELETE with the status 405. *)
Lemma delete_call_outcomes_witness :
  url_error ("http://inventory" +:+ "/delete/" +:+ "web-1") = None
  /\ runCmd (service [web1] true) (deleteServer "http://inventory" "secret" "web-1")
     = Some (service [web1] true,
             [Header_Set "Authorization" ("Bearer " +:+ "secret")
                (mkRequest "DELETE" ("http://inventory" +:+ "/delete/" +:+ "web-1")
                   [] None)],
             errMsg ("API request failed: "
                     +:+ ResponseBody (mkResponse 405 "method not allowed"))).
Proof.
  assert (url_error ("http://inventory" +:+ "/delete/" +:+ "web-1") = None) as Hu
    by (vm_compute; reflexivity).
  split; [exact Hu|].
  destruct (delete_call_outcomes (service [web1] true) "http://inventory" "secret"
              "web-1" Hu) as (_ & Hfail & _).
  apply Hfail; [vm_compute; reflexivity|discriminate].
Defined.

(** X21 at the create-or-update call for edge-1 when the service cannot be
    reached. *)
Lemma failed_upsert_sends_no_list_call_witness :
  url_error ("http://inventory" +:+ "/report") = None
  /\ runCmd (service [] false) (addOrEditServer "http://inventory" "secret" edge1)
     = Some (service [] false,
             [Header_Set "Authorization" ("Bearer " +:+ "secret")
                (Header_Set "Content-Type" "application/json"
                   (mkRequest "POST" ("http://inventory" +:+ "/report") []
                      (Some (json_Marshal edge1))))],
             errMsg ("failed to send request: " +:+ "connection refused")).
Proof.
  assert (url_error ("http://inventory" +:+ "/report") = None) as Hu
    by (vm_compute; reflexivity).
  split; [exact Hu|].
  destruct (failed_upsert_sends_no_list_call (service [] false) "http://inventory"
              "secret" edge1 Hu) as [_ Hdown].
  apply Hdown. vm_compute. reflexivity.
Defined.

(** X22 at the list call against the reference service holding web-1. *)
Lemma list_call_outcomes_witness :
  url_error ("http://inventory" +:+ "/inventory") = None
  /\ runCmd (service [web1] true) (fetchServers "http://inventory" "secret")
     = Some (service [web1] true,
             [Header_Set "Authorization" ("Bearer " +:+ "secret")
                (mkRequest "GET" ("http://inventory" +:+ "/inventory") [] None)],
             serverMsg [web1]).
Proof.
  assert (url_error ("http://inventory" +:+ "/inventory") = None) as Hu
    by (vm_compute; reflexivity).
  split; [exact Hu|].
  destruct (list_call_outcomes (service [web1] true) "http://inventory" "secret" Hu)
    as (Hok & _).
  apply (Hok _ (mkResponse 200 "web-1,10.0.0.2,dc-1,Online,12:00"));
    vm_compute; reflexivity.
Defined.

(** X23 at the form filled in up to Confirm, with the key n. *)
Lemma confirm_declined_or_ignored_witness :
  let w := (after fill_edge1).1 in
  let m := (after fill_edge1).2 in
  in_wizard m = true
  /\ addingState m = Confirm
  /\ key_String (key "n") <> "y" /\ key_String (key "n") <> "Y"
  /\ key_String (key "n") <> "esc"
  /\ exists w' m',
       Update w m (KeyMsg (key "n")) = Ok (w', m', nil_Cmd)
       /\ state m' = Viewing /\ message m' = "Cancelled.".
Proof.
  cbv zeta.
  assert (in_wizard (after fill_edge1).2 = true) as Hw by (vm_compute; reflexivity).
  assert (addingState (after fill_edge1).2 = Confirm) as Ha by (vm_compute; reflexivity).
  assert (key_String (key "n") <> "y") as H1 by discriminate.
  assert (key_String (key "n") <> "Y") as H2 by discriminate.
  assert (key_String (key "n") <> "esc") as H3 by discriminate.
  split; [exact Hw|]. split; [exact Ha|]. split; [exact H1|]. split; [exact H2|].
  split; [exact H3|].
  destruct (confirm_declined_or_ignored (after fill_edge1).1 _ (key "n") Hw Ha H1 H2 H3)
    as [Hn _].
  destruct (Hn (or_introl eq_refl)) as (w' & m' & HU & Hs & Hm & _).
  exists w', m'. split; [exact HU|]. split; [exact Hs|exact Hm].
Defined.

(** X24 at the start of the session, the entry list empty. *)
Lemma edit_key_without_selection_witness :
  let m := initialModel config0 in
  state m = Viewing
  /\ key_String (key "e") = "e"
  /\ servers m = []
  /\ exists m' c,
       Update start m (KeyMsg (key "e")) = Ok (stopMessageTimer m start, m', c)
       /\ state m' = Viewing.
Proof.
  cbv zeta. split; [reflexivity|]. split; [reflexivity|]. split; [reflexivity|].
  eexists _, _. split.
  - exact (edit_key_without_selection start (initialModel config0) (key "e")
             eq_refl eq_refl (or_introl eq_refl)).
  - reflexivity.
Defined.

(** X27 at the main view with the entry web-1, whose status is Online. *)
Lemma status_style_in_session_witness :
  let w := (after [Deliver (serverMsg [web1])]).1 in
  let m := (after [Deliver (serverMsg [web1])]).2 in
  reachable config0 w m
  /\ statusStyle m web1 = onlineStyle m.
Proof.
  cbv zeta.
  pose proof (after_reachable [Deliver (serverMsg [web1])]) as Hr.
  split; [exact Hr|].
  destruct (status_style_in_session config0 _ _ web1 Hr) as [Hon _].
  apply Hon. reflexivity.
Defined.

(** X29 at the start of the session. *)
Lemma empty_inventory_view_witness :
  let m := initialModel config0 in
  servers m = []
  /\ gostrings.HasPrefix (viewingView m)
       "No servers in inventory. Press 'a' to add one." = true.
Proof.
  cbv zeta. split; [reflexivity|].
  destruct (empty_inventory_view (initialModel config0) eq_refl) as [Hv _].
  rewrite Hv. vm_compute. reflexivity.
Defined.

(** X30 at the start of the session, which is loading. *)
Lemma loading_hides_message_witness :
  let m := initialModel config0 in
  loading m = true
  /\ View placeholder_of (set_currentMsgStyle (cancelStyle m) (set_message "boom" m))
     = View placeholder_of m.
Proof.
  cbv zeta. split; [reflexivity|].
  exact (loading_hides_message placeholder_of (initialModel config0) "boom"
           (cancelStyle (initialModel config0)) eq_refl).
Defined.
End Concrete.
